(** * Marketo template exporter: a shallow embedding and its properties

    The development follows the two code bases of the repository:
    - the library class [MarketoClient] (lib/marketo-client.js): token
      cache, offset pagination, section flattening, per-template export
      and the sequential bulk export;
    - the original Express routes (routes/marketo-export.js): session
      token cache, folder breadcrumb, content fallback chain, capped
      pagination and the batched bulk export.

    Asynchronous functions are modelled in a state-and-exception monad
    over a [World] (clock, file system, chronological log of outbound
    calls) paired with the token store of the caller.  The remote
    provider, the file system's failures and the process environment are
    read from an immutable [Env]. Loops that the source does not bound
    take a fuel argument; running out of fuel is the outcome [Pending]. *)

From Stdlib Require Import ZArith Ascii String List Lia.
From stdpp Require Import gmap strings list fin_maps pretty.

(* ===================================================================== *)
(** ** JavaScript values used by the code *)
(* ===================================================================== *)

Module Js.

(** Truthiness of a possibly absent string: [null], [undefined] and the
    empty string are falsy. *)
Definition truthy_str (s : option string) : bool :=
  match s with
  | Some s => negb (String.eqb s "")
  | None => false
  end.

(** Truthiness of a possibly absent number: absent and [0] are falsy. *)
Definition truthy_num (n : option Z) : bool :=
  match n with
  | Some n => negb (n =? 0)%Z
  | None => false
  end.

(** A number that may be [NaN] (the product [undefined * 1000]). *)
Inductive num : Type :=
| Num (z : Z)
| NaN.

(** [a >= b - k] where [b] is [null] (coerced to 0), [NaN] or a number. *)
Definition ge_minus (a : Z) (b : option num) (k : Z) : bool :=
  match b with
  | None => (a >=? 0 - k)%Z
  | Some NaN => false
  | Some (Num b) => (a >=? b - k)%Z
  end.

(** Template literal interpolation of a number. *)
Definition show (z : Z) : string := pretty z.

Lemma truthy_str_Some s : s <> ""%string -> truthy_str (Some s) = true.
Proof.
  intros H. unfold truthy_str.
  destruct (String.eqb_spec s "") as [E|E]; [contradiction|reflexivity].
Qed.

Lemma truthy_num_Some z : z <> 0%Z -> truthy_num (Some z) = true.
Proof.
  intros H. unfold truthy_num.
  destruct (Z.eqb_spec z 0); [contradiction|reflexivity].
Qed.

End Js.

Arguments Js.truthy_str : simpl never.
Arguments Js.truthy_num : simpl never.

(* ===================================================================== *)
(** ** Outcomes and the monad of asynchronous code *)
(* ===================================================================== *)

Inductive Outcome (A : Type) : Type :=
| Ret (a : A)            (* the promise resolved with [a] *)
| Throw (msg : string)   (* it rejected with an Error of message [msg] *)
| Pending.               (* the fuel ran out while the loop was running *)

Arguments Ret {A} a.
Arguments Throw {A} msg.
Arguments Pending {A}.

Definition M (S A : Type) : Type := S -> Outcome A * S.

Definition ret {S A} (a : A) : M S A := fun s => (Ret a, s).

Definition throw {S A} (msg : string) : M S A := fun s => (Throw msg, s).

Definition bind {S A B} (m : M S A) (k : A -> M S B) : M S B :=
  fun s =>
    match m s with
    | (Ret a, s') => k a s'
    | (Throw msg, s') => (Throw msg, s')
    | (Pending, s') => (Pending, s')
    end.

(** [try { m } catch (error) { h error.message }] *)
Definition try_catch {S A} (m : M S A) (h : string -> M S A) : M S A :=
  fun s =>
    match m s with
    | (Throw msg, s') => h msg s'
    | r => r
    end.

Notation "'let*' x ':=' m 'in' k" := (bind m (fun x => k))
  (at level 10, x pattern, m at level 99, k at level 200).
Notation "m ';;' k" := (bind m (fun _ => k))
  (at level 100, k at level 200, right associativity).

(* ===================================================================== *)
(** ** Data model *)
(* ===================================================================== *)

Module FolderRef.
(** [template.folder]: [{id, value, type}] *)
Record t := { id : option Z; value : string; type : string }.
End FolderRef.

Module Template.
(** One element of the [result] array of [emails.json]. *)
Record t := {
  id : Z;
  name : string;
  status : string;
  createdAt : string;
  updatedAt : string;
  folder : option FolderRef.t;
  subject : option string;
  fromName : option string;
  fromEmail : option string
}.
End Template.

Module Item.
(** A typed value of a content section: [{type, value}] *)
Record t := { type : option string; value : option string }.
End Item.

Module Section.
(** A content section. [value] is [None] unless it is an array. *)
Record t := {
  value : option (list Item.t);
  contentType : option string;
  content : option string
}.
End Section.

Module Folder.
(** [result[0]] of [folder/<id>.json]; [parent] is [folderDetails.parent.id]
    ([None] when [parent] or its [id] is missing). *)
Record t := { id : Z; name : string; parent : option Z }.
End Folder.

Module ApiError.
Record t := { code : string; message : string }.
End ApiError.

Module AxiosError.
(** A rejected request: [error.message] and the fields of
    [error.response] the code reads. *)
Record response := {
  status : Z;
  statusText : string;
  error_description : option string
}.
Record t := { message : string; resp : option response }.
End AxiosError.

(** The answer of [axios.get]: a rejection, or [response.data]. *)
Inductive Reply (A : Type) : Type :=
| Rejected (err : AxiosError.t)
| Data (data : A).

Arguments Rejected {A} err.
Arguments Data {A} data.

Module IdentityData.
(** [expires_in] is [None] when the answer carries no such field; a
    field that is present holds a number. *)
Record t := { access_token : option string; expires_in : option Z }.
End IdentityData.

Module ListData.
(** [result] is [None] when it is not an array. *)
Record t := { success : bool; result : option (list Template.t) }.
End ListData.

Module ContentData.
Record t := {
  success : bool;
  errors : list ApiError.t;
  result : option (list Section.t)
}.
End ContentData.

Module FullContentData.
(** [result] holds, per element, its [content] field. *)
Record t := { success : bool; result : list (option string) }.
End FullContentData.

Module FolderData.
Record t := { success : bool; result : list Folder.t }.
End FolderData.

(** What [exportAllTemplates] returns. *)
Module ExportResult.
Record t := {
  total : nat;
  successful : nat;
  failed : nat;
  errors : list (Z * string)   (* {templateId, error} *)
}.
End ExportResult.

(** File contents, kept structured instead of rendered to text. *)
Inductive File : Type :=
| MetadataJson (template : Template.t) (folderPath : option string)
| MetadataTxt (template : Template.t) (folderPath : string)
| Html (content : string)
| Text (content : string)
| Archive (sourceDir : string).

(** Lines written to the progress response of the bulk download route. *)
Inductive ResLine : Type :=
| CreatedExportDirectory
| FetchingTemplatesList
| ReachedMaximumPageLimit (maxPages : nat)
| FetchingPage (pageCount : nat) (offset : nat)
| FetchedPage (pageCount fetchedCount totalSoFar : nat)
| ReachedEnd (totalFound : nat)
| UnexpectedResponseFormat (pageCount : nat)
| CompletedFetching (totalFound : nat)
| StartingToProcess
| ProcessingBatch (batchNumber totalBatches : nat)
| ProcessedTemplate (processedCount total : nat) (id : Z)
| ErrorProcessingTemplate (id : Z) (name : string) (msg : string)
| ProgressSummary (processedCount total successCount errorCount : nat)
| CreatingZip
| ExportComplete (processedCount total successCount errorCount : nat)
| DocumentEnd.   (* the closing tags of the page *)

(** Outbound calls, in the order they are made. *)
Inductive Event : Type :=
| GetIdentity
| GetEmails (offset : nat)
| GetContent (id : Z)
| GetFullContent (id : Z)
| GetFolder (id : Z)
| Mkdir (path : string)
| WriteFile (path : string)
| ProgressCount (n : nat)
| ProgressResults (r : ExportResult.t)
| ResWrite (line : ResLine)
| ResEnd.   (* [res.end()] *)

(** The surroundings of a run. *)
Record Env := {
  identity : Z -> Reply (option IdentityData.t);   (* by request instant *)
  emails : nat -> Reply (option ListData.t);       (* by offset, maxReturn = 200 *)
  contentJson : Z -> Reply (option ContentData.t);
  fullContentJson : Z -> Reply (option FullContentData.t);
  folderJson : Z -> Reply (option FolderData.t);
  fsError : string -> option string;   (* the error of an operation on a path *)
  latency : Z;                         (* milliseconds taken by a request *)
  MARKETO_CLIENT_ID : option string;
  MARKETO_CLIENT_SECRET : option string;
  MARKETO_IDENTITY_URL : option string;
  MARKETO_REST_URL : option string;
  (* [enhancedMarketoEmailHtml], the placeholder substitution applied to
     the HTML before it is saved: a pure function of the content and the
     id, left uninterpreted *)
  enhancedMarketoEmailHtml : string -> Z -> string
}.

Record World := {
  clock : Z;                   (* Date.now() *)
  dirs : gset string;
  files : gmap string File;
  log : list Event
}.

(** The token fields of a [MarketoClient] instance. *)
Record Client := {
  accessToken : option string;
  tokenExpiry : option Js.num
}.

(** The token fields of [req.session]. *)
Record Session := {
  marketoAccessToken : option string;
  marketoTokenExpiry : option Z
}.

Definition newClient : Client := {| accessToken := None; tokenExpiry := None |}.

Definition newSession : Session :=
  {| marketoAccessToken := None; marketoTokenExpiry := None |}.

Definition newWorld (now : Z) : World :=
  {| clock := now; dirs := ∅; files := ∅; log := [] |}.

Section World.

Context {T : Type}.

Definition now : M (T * World) Z := fun s => (Ret (clock (snd s)), s).

Definition get_store : M (T * World) T := fun s => (Ret (fst s), s).

Definition set_store (t : T) : M (T * World) unit :=
  fun s => (Ret tt, (t, snd s)).

Definition emit (ev : Event) : M (T * World) unit :=
  fun '(t, w) =>
    (Ret tt, (t, {| clock := clock w; dirs := dirs w; files := files w;
                    log := log w ++ [ev] |})).

(** A request is logged and takes [latency] milliseconds. *)
Definition request (env : Env) (ev : Event) : M (T * World) unit :=
  fun '(t, w) =>
    (Ret tt, (t, {| clock := (clock w + latency env)%Z; dirs := dirs w;
                    files := files w; log := log w ++ [ev] |})).

(** [await new Promise(resolve => setTimeout(resolve, ms))] *)
Definition sleep (ms : Z) : M (T * World) unit :=
  fun '(t, w) =>
    (Ret tt, (t, {| clock := (clock w + ms)%Z; dirs := dirs w;
                    files := files w; log := log w |})).

Definition pending {A} : M (T * World) A := fun s => (Pending, s).

(** [fs.mkdir(path, {recursive: true})] *)
Definition mkdir (env : Env) (path : string) : M (T * World) unit :=
  emit (Mkdir path) ;;
  fun '(t, w) =>
    match fsError env path with
    | Some msg => (Throw msg, (t, w))
    | None =>
        (Ret tt, (t, {| clock := clock w; dirs := {[path]} ∪ dirs w;
                        files := files w; log := log w |}))
    end.

(** [fs.writeFile(path, data)] *)
Definition writeFile (env : Env) (path : string) (data : File)
  : M (T * World) unit :=
  emit (WriteFile path) ;;
  fun '(t, w) =>
    match fsError env path with
    | Some msg => (Throw msg, (t, w))
    | None =>
        (Ret tt, (t, {| clock := clock w; dirs := dirs w;
                        files := <[path := data]> (files w); log := log w |}))
    end.

End World.

(** [path.join(a, b)] for a normalised [a] (no empty, [.] or [..]
    segment and no trailing separator) and a plain name [b]: the two
    joined by the separator.  For another [a] (the [./marketo-exports]
    that the command line takes by default, say) Node returns the
    normalised form of this string, which names the same file. *)
Definition path_join (a b : string) : string := a +:+ "/" +:+ b.

(* ===================================================================== *)
(** ** Token cache *)
(* ===================================================================== *)

(** *** lib/marketo-client.js: [authenticate], [getAccessToken] *)

Definition authenticate (env : Env) : M (Client * World) (option string) :=
  try_catch
    (let* t0 := now in
     request env GetIdentity ;;
     match identity env t0 with
     | Rejected err => throw (AxiosError.message err)
     | Data data =>
         match data with
         | Some d =>
             if Js.truthy_str (IdentityData.access_token d) then
               let* t1 := now in
               set_store
                 {| accessToken := IdentityData.access_token d;
                    tokenExpiry :=
                      Some match IdentityData.expires_in d with
                           | Some n => Js.Num (t1 + n * 1000)
                           | None => Js.NaN
                           end |} ;;
               ret (IdentityData.access_token d)
             else throw "Invalid authentication response"
         | None => throw "Invalid authentication response"
         end
     end)
    (fun msg => throw ("Authentication failed: " +:+ msg)).

Definition getAccessToken (env : Env) : M (Client * World) (option string) :=
  let* c := get_store in
  let* t := now in
  (if negb (Js.truthy_str (accessToken c))
      || Js.ge_minus t (tokenExpiry c) (5 * 60 * 1000)
   then authenticate env ;; ret tt
   else ret tt) ;;
  let* c := get_store in
  ret (accessToken c).

(** *** routes/marketo-export.js: [getMarketoAccessToken] *)

Definition TOKEN_EXPIRY_BUFFER_MS : Z := 5 * 60 * 1000.

(** The message built by the [catch] block from a rejected request. *)
Definition authErrorMessage (err : AxiosError.t) : string :=
  match AxiosError.resp err with
  | Some r =>
      if Js.truthy_str (AxiosError.error_description r) then
        "Marketo Authentication Error: "
          +:+ default "" (AxiosError.error_description r)
      else if Js.truthy_num (Some (AxiosError.status r)) then
        "Marketo Authentication HTTP Error: "
          +:+ Js.show (AxiosError.status r) +:+ " - " +:+ AxiosError.statusText r
      else "Failed to authenticate with Marketo API: " +:+ AxiosError.message err
  | None => "Failed to authenticate with Marketo API: " +:+ AxiosError.message err
  end.

Definition getMarketoAccessToken (env : Env)
  : M (Session * World) (option string) :=
  let* session := get_store in
  let sessionToken := marketoAccessToken session in
  let sessionTokenExpiry := marketoTokenExpiry session in
  let* t := now in
  if Js.truthy_str sessionToken && Js.truthy_num sessionTokenExpiry
     && (default 0 sessionTokenExpiry >? t + TOKEN_EXPIRY_BUFFER_MS)%Z
  then ret sessionToken
  else if negb (Js.truthy_str (MARKETO_CLIENT_ID env))
          || negb (Js.truthy_str (MARKETO_CLIENT_SECRET env))
          || negb (Js.truthy_str (MARKETO_IDENTITY_URL env))
  then throw "Marketo API credentials (Client ID, Client Secret, or Identity URL) are not configured."
  else
    let* t0 := now in
    request env GetIdentity ;;
    match identity env t0 with
    | Rejected err => throw (authErrorMessage err)
    | Data data =>
        match data with
        | Some {| IdentityData.access_token := tok;
                  IdentityData.expires_in := Some expiresInSeconds |} =>
            if Js.truthy_str tok then
              let* t1 := now in
              let expiresAt := (t1 + expiresInSeconds * 1000)%Z in
              set_store {| marketoAccessToken := tok;
                           marketoTokenExpiry := Some expiresAt |} ;;
              ret tok
            else throw "Failed to authenticate with Marketo API: Marketo token response missing required fields."
        | _ => throw "Failed to authenticate with Marketo API: Marketo token response missing required fields."
        end
    end.

(** Counting the events of a kind in a log. *)
Fixpoint count (p : Event -> bool) (l : list Event) : nat :=
  match l with
  | [] => 0
  | ev :: l => (if p ev then 1 else 0) + count p l
  end.

Definition isGetIdentity (ev : Event) : bool :=
  match ev with GetIdentity => true | _ => false end.

(** The offsets of the page requests in a log, in order. *)
Fixpoint pageOffsets (l : list Event) : list nat :=
  match l with
  | [] => []
  | GetEmails offset :: l => offset :: pageOffsets l
  | _ :: l => pageOffsets l
  end.

(** Number of network authentication calls in a log. *)
Definition authCalls (l : list Event) : nat := count isGetIdentity l.

(** The last [n] events of a log. *)
Definition ending (n : nat) (l : list Event) : list Event :=
  drop (length l - n) l.

(** Number of page requests in a log. *)
Definition pageRequests (l : list Event) : nat := length (pageOffsets l).

(* ===================================================================== *)
(** ** lib/marketo-client.js: listing, content and export *)
(* ===================================================================== *)

Definition nl : string := String "010"%char EmptyString.

Definition maxReturn : nat := 200.

(** The [while (true)] loop of [getAllTemplates]; one unit of fuel per
    iteration. *)
Fixpoint getAllTemplates_loop (fuel : nat) (env : Env) (progressCallback : bool)
    (templates : list Template.t) (offset : nat)
  : M (Client * World) (list Template.t) :=
  match fuel with
  | O => pending
  | S fuel =>
      let* accessToken := getAccessToken env in
      request env (GetEmails offset) ;;
      match emails env offset with
      | Rejected err => throw (AxiosError.message err)
      | Data None =>
          throw "Cannot read properties of undefined (reading 'success')"
      | Data (Some data) =>
          if negb (ListData.success data) then throw "Failed to fetch templates"
          else
            match ListData.result data with
            | None => throw "response.data.result is not iterable"
            | Some result =>
                let templates := templates ++ result in
                (if progressCallback
                 then emit (ProgressCount (length templates))
                 else ret tt) ;;
                if (length result <? maxReturn)%nat then ret templates
                else getAllTemplates_loop fuel env progressCallback templates
                       (offset + maxReturn)
            end
      end
  end.

Definition getAllTemplates (fuel : nat) (env : Env) (progressCallback : bool)
  : M (Client * World) (list Template.t) :=
  getAllTemplates_loop fuel env progressCallback [] 0.

Definition itemIsHtml (item : Item.t) : bool :=
  match Item.type item with
  | Some ty => String.eqb ty "HTML" && Js.truthy_str (Item.value item)
  | None => false
  end.

Definition sectionIsHtml (section : Section.t) : bool :=
  match Section.contentType section with
  | Some ty => String.eqb ty "html" && Js.truthy_str (Section.content section)
  | None => false
  end.

Definition extractHtmlContent (contentSections : list Section.t) : string :=
  fold_left
    (fun htmlContent section =>
       let htmlContent :=
         match Section.value section with
         | Some items =>
             fold_left
               (fun htmlContent item =>
                  if itemIsHtml item
                  then htmlContent +:+ default "" (Item.value item) +:+ nl
                  else htmlContent)
               items htmlContent
         | None => htmlContent
         end in
       if sectionIsHtml section
       then htmlContent +:+ default "" (Section.content section) +:+ nl
       else htmlContent)
    contentSections "".

Definition getTemplateContent (env : Env) (templateId : Z)
  : M (Client * World) string :=
  let* accessToken := getAccessToken env in
  request env (GetContent templateId) ;;
  match contentJson env templateId with
  | Rejected err => throw (AxiosError.message err)
  | Data None => throw "Cannot read properties of undefined (reading 'success')"
  | Data (Some data) =>
      if negb (ContentData.success data)
      then throw ("Failed to fetch template content for ID " +:+ Js.show templateId)
      else
        match ContentData.result data with
        | None => throw "contentSections is not iterable"
        | Some result => ret (extractHtmlContent result)
        end
  end.

Definition templateDirOf (outputDir : string) (template : Template.t) : string :=
  path_join outputDir ("template_" +:+ Js.show (Template.id template)).

Definition exportTemplate (env : Env) (template : Template.t) (outputDir : string)
  : M (Client * World) string :=
  let templateDir := templateDirOf outputDir template in
  mkdir env templateDir ;;
  writeFile env (path_join templateDir "metadata.json")
    (MetadataJson template None) ;;
  try_catch
    (let* htmlContent := getTemplateContent env (Template.id template) in
     if Js.truthy_str (Some htmlContent)
     then writeFile env
            (path_join templateDir (Js.show (Template.id template) +:+ ".html"))
            (Html htmlContent)
     else ret tt)
    (fun msg =>
       writeFile env (path_join templateDir "error.txt")
         (Text ("Error retrieving HTML content: " +:+ msg))) ;;
  ret templateDir.

(** The body of the [for (const template of templates)] loop of
    [exportAllTemplates]. *)
Definition exportAllTemplates_body (env : Env) (outputDir : string)
    (progressCallback : bool) (template : Template.t)
    (results : ExportResult.t) : M (Client * World) ExportResult.t :=
  let* results :=
    try_catch
      (exportTemplate env template outputDir ;;
       ret {| ExportResult.total := ExportResult.total results;
              ExportResult.successful := S (ExportResult.successful results);
              ExportResult.failed := ExportResult.failed results;
              ExportResult.errors := ExportResult.errors results |})
      (fun msg =>
         ret {| ExportResult.total := ExportResult.total results;
                ExportResult.successful := ExportResult.successful results;
                ExportResult.failed := S (ExportResult.failed results);
                ExportResult.errors :=
                  ExportResult.errors results
                    ++ [(Template.id template, msg)] |}) in
  (if progressCallback then emit (ProgressResults results) else ret tt) ;;
  ret results.

Fixpoint exportAllTemplates_loop (env : Env) (outputDir : string)
    (progressCallback : bool) (templates : list Template.t)
    (results : ExportResult.t) : M (Client * World) ExportResult.t :=
  match templates with
  | [] => ret results
  | template :: rest =>
      let* results :=
        exportAllTemplates_body env outputDir progressCallback template
          results in
      exportAllTemplates_loop env outputDir progressCallback rest results
  end.

Definition exportAllTemplates (fuel : nat) (env : Env) (outputDir : string)
    (progressCallback : bool) : M (Client * World) ExportResult.t :=
  let* templates := getAllTemplates fuel env progressCallback in
  let results :=
    {| ExportResult.total := length templates;
       ExportResult.successful := 0;
       ExportResult.failed := 0;
       ExportResult.errors := [] |} in
  exportAllTemplates_loop env outputDir progressCallback templates results.

(** [createArchive(sourceDir, outputPath)].  In this file [fs] is bound
    to [require('fs').promises], which offers no [createWriteStream]: the
    call [fs.createWriteStream(outputPath)], the first statement of the
    promise executor, throws a TypeError, and the promise is rejected
    with it before anything is written. *)
Definition createArchive (env : Env) (sourceDir outputPath : string)
  : M (Client * World) string :=
  throw "fs.createWriteStream is not a function".

(* ===================================================================== *)
(** ** routes/marketo-export.js: folders, content chain, bulk export *)
(* ===================================================================== *)

(** *** Folder breadcrumb *)

(** What the [try] block of [getFolderDetails] makes of the answer:
    the first result of a successful response, [null] otherwise (a
    rejected request is caught and yields [null] too). *)
Definition folderOfReply (reply : Reply (option FolderData.t))
  : option Folder.t :=
  match reply with
  | Rejected err => None
  | Data None => None
  | Data (Some data) =>
      if FolderData.success data && (0 <? length (FolderData.result data))%nat
      then head (FolderData.result data)
      else None
  end.

Definition getFolderDetails (env : Env) (folderId : option Z)
  : M (Session * World) (option Folder.t) :=
  if negb (Js.truthy_num folderId) then ret None
  else
    let id := default 0%Z folderId in
    let* accessToken := getMarketoAccessToken env in
    request env (GetFolder id) ;;
    ret (folderOfReply (folderJson env id)).

(** The recursion of [buildFolderPath]; one unit of fuel per call. *)
Fixpoint buildFolderPath (fuel : nat) (env : Env) (folderId : option Z)
  : M (Session * World) (list Folder.t) :=
  match fuel with
  | O => pending
  | S fuel =>
      if negb (Js.truthy_num folderId) then ret []
      else
        let* folderDetails := getFolderDetails env folderId in
        match folderDetails with
        | None => ret []
        | Some folderDetails =>
            if negb (Js.truthy_num (Folder.parent folderDetails))
            then ret [folderDetails]
            else
              let* parentPath :=
                buildFolderPath fuel env (Folder.parent folderDetails) in
              ret (parentPath ++ [folderDetails])
        end
  end.

Definition formatFolderPath (folderPath : list Folder.t) : string :=
  match folderPath with
  | [] => "Unknown Location"
  | _ => String.concat " > " (map Folder.name folderPath)
  end.

(** *** Content retrieval with its fallback chain *)

(** The [forEach] loops that fill [collectedHtml]; [sep] is what the
    caller appends after each fragment. *)
Definition collectHtml (sep : string) (result : list Section.t) : string :=
  fold_left
    (fun collectedHtml section =>
       let collectedHtml :=
         match Section.value section with
         | Some items =>
             fold_left
               (fun collectedHtml valItem =>
                  if itemIsHtml valItem
                  then collectedHtml +:+ default "" (Item.value valItem) +:+ sep
                  else collectedHtml)
               items collectedHtml
         | None => collectedHtml
         end in
       if sectionIsHtml section
       then collectedHtml +:+ default "" (Section.content section) +:+ sep
       else collectedHtml)
    result "".

Definition blankLine : string := nl +:+ nl.

Definition sectionSeparator : string :=
  nl +:+ nl +:+ "<!-- Section Separator -->" +:+ nl +:+ nl.

Definition apiErrorMessage (apiError : ApiError.t) : string :=
  "Marketo API Error (" +:+ ApiError.code apiError +:+ "): "
    +:+ ApiError.message apiError.

Definition fetchEmailHtmlContent (env : Env) (emailId : Z)
  : M (Session * World) (option string) :=
  if negb (Js.truthy_str (MARKETO_REST_URL env))
  then throw "Marketo REST API URL is not configured."
  else if (emailId =? 0)%Z
  then throw "Invalid Email ID provided for content fetch."
  else
    let* accessToken := getMarketoAccessToken env in
    request env (GetContent emailId) ;;
    match contentJson env emailId with
    | Rejected err => throw (AxiosError.message err)
    | Data None =>
        throw ("Email with ID " +:+ Js.show emailId
               +:+ " content unavailable (empty response).")
    | Data (Some data) =>
        match ContentData.errors data with
        | apiError :: _ => throw (apiErrorMessage apiError)
        | [] =>
            match ContentData.result data with
            | Some result =>
                let collectedHtml := collectHtml sectionSeparator result in
                if (0 <? String.length collectedHtml)%nat
                then ret (Some collectedHtml)
                else ret None
            | None =>
                throw ("Email with ID " +:+ Js.show emailId
                       +:+ " content unavailable (unexpected response format).")
            end
        end
    end.

Definition fetchContentJsonBackup (env : Env) (emailId : Z)
  : M (Session * World) (option string) :=
  request env (GetContent emailId) ;;
  let unavailable :=
    "Could not retrieve HTML content for email ID " +:+ Js.show emailId
      +:+ " through any available API methods." in
  match contentJson env emailId with
  | Rejected err => throw (AxiosError.message err)
  | Data None => throw unavailable
  | Data (Some data) =>
      match ContentData.errors data with
      | apiError :: _ => throw (apiErrorMessage apiError)
      | [] =>
          match ContentData.result data with
          | Some result =>
              let collectedHtml := collectHtml blankLine result in
              if (0 <? String.length collectedHtml)%nat
              then ret (Some collectedHtml)
              else fetchEmailHtmlContent env emailId
          | None => throw unavailable
          end
      end
  end.

(** The [try] block either returns the full content or decides to fall
    back; the fallback call is returned without [await], so its own
    rejection is not caught by the [catch] of this function. *)
Definition getCompleteEmailContent (env : Env) (emailId : Z)
  : M (Session * World) (option string) :=
  if negb (Js.truthy_str (MARKETO_REST_URL env))
  then throw "Marketo REST API URL is not configured."
  else if (emailId =? 0)%Z
  then throw "Invalid Email ID provided for content fetch."
  else
    let* accessToken := getMarketoAccessToken env in
    let* full :=
      try_catch
        (request env (GetFullContent emailId) ;;
         match fullContentJson env emailId with
         | Rejected err => throw (AxiosError.message err)
         | Data None => ret None
         | Data (Some data) =>
             if FullContentData.success data then
               match FullContentData.result data with
               | first :: _ => ret (Some first)
               | [] => throw "Cannot read properties of undefined (reading 'content')"
               end
             else ret None
         end)
        (fun msg => ret None) in
    match full with
    | Some content => ret content
    | None => fetchContentJsonBackup env emailId
    end.

(** *** File names *)

Definition isWordChar (c : ascii) : bool :=
  let n := nat_of_ascii c in
  ((48 <=? n) && (n <=? 57) || (65 <=? n) && (n <=? 90)
   || (97 <=? n) && (n <=? 122) || (n =? 95))%nat.

(** The white space of [\s] within ASCII: tab, line feed, vertical tab,
    form feed, carriage return and space. *)
Definition isSpaceChar (c : ascii) : bool :=
  let n := nat_of_ascii c in
  ((9 <=? n) && (n <=? 13) || (n =? 32))%nat.

(** The white space of [\s] beyond ASCII.  A name is held as the bytes
    of its UTF-8 encoding, in which U+00A0 takes two bytes and U+1680,
    U+2000 to U+200A, U+2028, U+2029, U+202F, U+205F, U+3000 and U+FEFF
    take three. *)
Definition isWideSpace2 (c1 c2 : ascii) : bool :=
  ((nat_of_ascii c1 =? 194) && (nat_of_ascii c2 =? 160))%nat.

Definition isWideSpace3 (c1 c2 c3 : ascii) : bool :=
  let n1 := nat_of_ascii c1 in
  let n2 := nat_of_ascii c2 in
  let n3 := nat_of_ascii c3 in
  ((n1 =? 225) && (n2 =? 154) && (n3 =? 128)
   || (n1 =? 226) && (n2 =? 128)
      && ((128 <=? n3) && (n3 <=? 138) || (n3 =? 168) || (n3 =? 169)
          || (n3 =? 175))
   || (n1 =? 226) && (n2 =? 129) && (n3 =? 159)
   || (n1 =? 227) && (n2 =? 128) && (n3 =? 128)
   || (n1 =? 239) && (n2 =? 187) && (n3 =? 191))%nat.

(** [.replace(/[^\w\s-]/g, '')]: word characters, hyphens and white
    space stay; every other character goes, byte by byte. *)
Fixpoint removeSpecial (s : string) : string :=
  match s with
  | EmptyString => EmptyString
  | String c s1 =>
      if isWordChar c || isSpaceChar c || (nat_of_ascii c =? 45)%nat
      then String c (removeSpecial s1)
      else
        match s1 with
        | String c2 s2 =>
            if isWideSpace2 c c2
            then String c (String c2 (removeSpecial s2))
            else
              match s2 with
              | String c3 s3 =>
                  if isWideSpace3 c c2 c3
                  then String c (String c2 (String c3 (removeSpecial s3)))
                  else removeSpecial s1
              | EmptyString => removeSpecial s1
              end
        | EmptyString => EmptyString
        end
  end.

(** What a white space character becomes: nothing inside a run of white
    space, the underscore of the run at its start. *)
Definition spaceRun (inRun : bool) (rest : string) : string :=
  if inRun then rest else String "_"%char rest.

(** [.replace(/\s+/g, '_')]; [inRun] holds inside a run of spaces. *)
Fixpoint underscoreSpaces (inRun : bool) (s : string) : string :=
  match s with
  | EmptyString => EmptyString
  | String c s1 =>
      if isSpaceChar c then spaceRun inRun (underscoreSpaces true s1)
      else
        match s1 with
        | String c2 s2 =>
            if isWideSpace2 c c2
            then spaceRun inRun (underscoreSpaces true s2)
            else
              match s2 with
              | String c3 s3 =>
                  if isWideSpace3 c c2 c3
                  then spaceRun inRun (underscoreSpaces true s3)
                  else String c (underscoreSpaces false s1)
              | EmptyString => String c (underscoreSpaces false s1)
              end
        | EmptyString => String c EmptyString
        end
  end.

Definition sanitizeName (name : string) : string :=
  underscoreSpaces false (removeSpecial name).

(** *** One template of the bulk download *)

Definition processTemplate (fuel : nat) (env : Env) (template : Template.t)
    (exportDir : string) : M (Session * World) bool :=
  let templateId := Template.id template in
  let templateName := sanitizeName (Template.name template) in
  let templateDir :=
    path_join exportDir (templateName +:+ "_" +:+ Js.show templateId) in
  mkdir env templateDir ;;
  let* folderPath :=
    match Template.folder template with
    | Some folder =>
        if Js.truthy_num (FolderRef.id folder)
        then buildFolderPath fuel env (FolderRef.id folder)
        else ret []
    | None => ret []
    end in
  let folderPathString := formatFolderPath folderPath in
  writeFile env (path_join templateDir "metadata.json")
    (MetadataJson template (Some folderPathString)) ;;
  writeFile env (path_join templateDir "metadata.txt")
    (MetadataTxt template folderPathString) ;;
  try_catch
    (let* htmlContent := getCompleteEmailContent env templateId in
     if Js.truthy_str htmlContent then
       let processedHtml :=
         enhancedMarketoEmailHtml env (default "" htmlContent) templateId in
       writeFile env (path_join templateDir (templateName +:+ ".html"))
         (Html processedHtml)
     else
       writeFile env (path_join templateDir "no_content.txt")
         (Text "No HTML content was found for this template."))
    (fun msg =>
       writeFile env (path_join templateDir "error.txt")
         (Text ("Error retrieving HTML content: " +:+ msg)) ;;
       throw msg) ;;
  ret true.

(** *** The bulk download *)

Definition MAX_PAGES : nat := 50.

Definition pageSize : nat := 200.

Definition BATCH_SIZE : nat := 5.

(** The [do { ... } while (true)] loop that fills [allTemplates]; one
    unit of fuel per iteration. *)
Fixpoint fetchAllPages (fuel : nat) (env : Env)
    (allTemplates : list Template.t) (pageCount offset : nat)
  : M (Session * World) (list Template.t) :=
  match fuel with
  | O => pending
  | S fuel =>
      let pageCount := S pageCount in
      if (MAX_PAGES <? pageCount)%nat then
        emit (ResWrite (ReachedMaximumPageLimit MAX_PAGES)) ;;
        ret allTemplates
      else
        emit (ResWrite (FetchingPage pageCount offset)) ;;
        request env (GetEmails offset) ;;
        match emails env offset with
        | Rejected err => throw (AxiosError.message err)
        | Data (Some {| ListData.result := Some result |}) =>
            let fetchedCount := length result in
            let allTemplates := allTemplates ++ result in
            emit (ResWrite (FetchedPage pageCount fetchedCount
                              (length allTemplates))) ;;
            if (fetchedCount <? pageSize)%nat then
              emit (ResWrite (ReachedEnd (length allTemplates))) ;;
              ret allTemplates
            else
              sleep 500 ;;
              fetchAllPages fuel env allTemplates pageCount (offset + pageSize)
        | Data _ =>
            emit (ResWrite (UnexpectedResponseFormat pageCount)) ;;
            ret allTemplates
        end
  end.

Record Counters := {
  processedCount : nat;
  successCount : nat;
  errorCount : nat
}.

(** [Promise.allSettled(batch.map(async (template) => ...))]: the items
    of a batch are started in order; they are run here one after the
    other, each to completion.  In the code the items of a batch
    overlap, so their lines may come in another order within the batch;
    each item still writes its one line and raises its one counter. *)
Fixpoint processBatch (fuel : nat) (env : Env) (exportDir : string)
    (total : nat) (batch : list Template.t) (c : Counters)
  : M (Session * World) Counters :=
  match batch with
  | [] => ret c
  | template :: rest =>
      let* c :=
        try_catch
          (processTemplate fuel env template exportDir ;;
           let c := {| processedCount := S (processedCount c);
                       successCount := S (successCount c);
                       errorCount := errorCount c |} in
           emit (ResWrite (ProcessedTemplate (processedCount c) total
                             (Template.id template))) ;;
           ret c)
          (fun msg =>
             let c := {| processedCount := S (processedCount c);
                         successCount := successCount c;
                         errorCount := S (errorCount c) |} in
             emit (ResWrite (ErrorProcessingTemplate (Template.id template)
                               (Template.name template) msg)) ;;
             ret c) in
      processBatch fuel env exportDir total rest c
  end.

(** The [for (let i = 0; i < allTemplates.length; i += BATCH_SIZE)] loop;
    [steps] bounds the number of iterations. *)
Fixpoint processBatches (steps fuel : nat) (env : Env) (exportDir : string)
    (allTemplates : list Template.t) (i : nat) (c : Counters)
  : M (Session * World) Counters :=
  match steps with
  | O => if (i <? length allTemplates)%nat then pending else ret c
  | S steps =>
      if (i <? length allTemplates)%nat then
        let batch := take BATCH_SIZE (drop i allTemplates) in
        let batchNumber := (i / BATCH_SIZE + 1)%nat in
        let totalBatches :=
          ((length allTemplates + BATCH_SIZE - 1) / BATCH_SIZE)%nat in
        emit (ResWrite (ProcessingBatch batchNumber totalBatches)) ;;
        let* c :=
          processBatch fuel env exportDir (length allTemplates) batch c in
        sleep 300 ;;
        (if (batchNumber mod 5 =? 0)%nat
            || (length allTemplates <=? i + BATCH_SIZE)%nat
         then emit (ResWrite (ProgressSummary (processedCount c)
                                (length allTemplates) (successCount c)
                                (errorCount c)))
         else ret tt) ;;
        processBatches steps fuel env exportDir allTemplates (i + BATCH_SIZE) c
      else ret c
  end.

(** [createZipArchive(exportDir)]: the archive is written to [exports]
    under the working directory, named after the export directory; the
    caller's export directory is itself a directory of [exports], so the
    archive stands next to it. *)
Definition createZipArchive (env : Env) (exportDir : string)
  : M (Session * World) string :=
  let zipPath := exportDir +:+ ".zip" in
  writeFile env zipPath (Archive exportDir) ;;
  ret zipPath.

Definition bulkExportTemplates (fuel : nat) (env : Env) (exportDir : string)
  : M (Session * World) unit :=
  mkdir env exportDir ;;
  emit (ResWrite CreatedExportDirectory) ;;
  let* accessToken := getMarketoAccessToken env in
  emit (ResWrite FetchingTemplatesList) ;;
  let* allTemplates := fetchAllPages fuel env [] 0 0 in
  emit (ResWrite (CompletedFetching (length allTemplates))) ;;
  emit (ResWrite StartingToProcess) ;;
  let* c :=
    processBatches (length allTemplates) fuel env exportDir allTemplates 0
      {| processedCount := 0; successCount := 0; errorCount := 0 |} in
  emit (ResWrite CreatingZip) ;;
  let* zipPath := createZipArchive env exportDir in
  emit (ResWrite (ExportComplete (processedCount c) (length allTemplates)
                    (successCount c) (errorCount c))) ;;
  emit (ResWrite DocumentEnd) ;;
  emit ResEnd.

Definition isPageLimitWarning (ev : Event) : bool :=
  match ev with ResWrite (ReachedMaximumPageLimit _) => true | _ => false end.

(* ===================================================================== *)
(** ** Fixtures: a provider that answers every request *)
(* ===================================================================== *)

Definition mkTemplate (id : Z) (name : string) : Template.t :=
  {| Template.id := id; Template.name := name; Template.status := "approved";
     Template.createdAt := "2024-01-01T00:00:00Z";
     Template.updatedAt := "2024-01-02T00:00:00Z";
     Template.folder := None; Template.subject := None;
     Template.fromName := None; Template.fromEmail := None |}.

Definition goodIdentity (t : Z) : Reply (option IdentityData.t) :=
  Data (Some {| IdentityData.access_token := Some "bearer";
                IdentityData.expires_in := Some 3600%Z |}).

(** A provider with valid credentials whose other endpoints are given. *)
Definition provider
    (emails : nat -> Reply (option ListData.t))
    (contentJson : Z -> Reply (option ContentData.t))
    (folderJson : Z -> Reply (option FolderData.t))
    (fsError : string -> option string) : Env :=
  {| identity := goodIdentity;
     emails := emails;
     contentJson := contentJson;
     fullContentJson := fun _ => Data None;
     folderJson := folderJson;
     fsError := fsError;
     latency := 20;
     MARKETO_CLIENT_ID := Some "client-id";
     MARKETO_CLIENT_SECRET := Some "client-secret";
     MARKETO_IDENTITY_URL := Some "https://example.mktorest.com/identity/oauth/token";
     MARKETO_REST_URL := Some "https://example.mktorest.com/rest";
     enhancedMarketoEmailHtml := fun html _ => html |}.

Definition noEmails (offset : nat) : Reply (option ListData.t) :=
  Data (Some {| ListData.success := true; ListData.result := Some [] |}).

Definition noContent (id : Z) : Reply (option ContentData.t) :=
  Data (Some {| ContentData.success := true; ContentData.errors := [];
                ContentData.result := Some [] |}).

Definition noFolders (id : Z) : Reply (option FolderData.t) :=
  Data (Some {| FolderData.success := true; FolderData.result := [] |}).

Definition noFsError (path : string) : option string := None.

Definition idleProvider : Env := provider noEmails noContent noFolders noFsError.

(** Every identity request is granted a usable token. *)
Definition identityGrants (env : Env) : Prop :=
  forall t, exists tok n,
    identity env t
    = Data (Some {| IdentityData.access_token := Some tok;
                    IdentityData.expires_in := Some n |})
    /\ tok <> ""%string.

(** The list endpoint serves the slices of a fixed collection. *)
Definition servesCollection (env : Env) (coll : list Template.t) : Prop :=
  forall offset,
    emails env offset
    = Data (Some {| ListData.success := true;
                    ListData.result := Some (take maxReturn (drop offset coll)) |}).

Definition slicesOf (coll : list Template.t) (offset : nat)
  : Reply (option ListData.t) :=
  Data (Some {| ListData.success := true;
                ListData.result := Some (take maxReturn (drop offset coll)) |}).

(** A collection of [n] templates with the ids 1 to [n]. *)
Definition collectionOf (n : nat) : list Template.t :=
  map (fun i => mkTemplate (Z.of_nat i) "Newsletter") (seq 1 n).

(** A provider that holds the collection [coll]. *)
Definition holding (coll : list Template.t) : Env :=
  provider (slicesOf coll) noContent noFolders noFsError.

(** A provider with one template whose content cannot be retrieved. *)
Definition refuseContent (id : Z) : Reply (option ContentData.t) :=
  Data (Some {| ContentData.success := false; ContentData.errors := [];
                ContentData.result := None |}).

Definition contentFails : Env :=
  provider (slicesOf [mkTemplate 7 "Promo Mail!"]) refuseContent noFolders
    noFsError.

(** A folder endpoint backed by a list of folders, found by id. *)
Definition folderTable (folders : list Folder.t) (id : Z)
  : Reply (option FolderData.t) :=
  Data (Some {| FolderData.success := true;
                FolderData.result :=
                  match find (fun f => (Folder.id f =? id)%Z) folders with
                  | Some f => [f]
                  | None => []
                  end |}).

Definition withFolders (folders : list Folder.t) : Env :=
  provider noEmails noContent (folderTable folders) noFsError.

(** The chain A -> B -> C -> root of the specification. *)
Definition folderRoot : Folder.t :=
  {| Folder.id := 1; Folder.name := "Marketing Activities"; Folder.parent := None |}.
Definition folderC : Folder.t :=
  {| Folder.id := 2; Folder.name := "C"; Folder.parent := Some 1%Z |}.
Definition folderB : Folder.t :=
  {| Folder.id := 3; Folder.name := "B"; Folder.parent := Some 2%Z |}.
Definition folderA : Folder.t :=
  {| Folder.id := 4; Folder.name := "A"; Folder.parent := Some 3%Z |}.

Definition fullChain : Env := withFolders [folderRoot; folderC; folderB; folderA].

(** The same tree when the lookup of B finds nothing. *)
Definition missingB : Env := withFolders [folderRoot; folderC; folderA].

(** Two folders that name each other as parent. *)
Definition cycleX : Folder.t :=
  {| Folder.id := 10; Folder.name := "X"; Folder.parent := Some 11%Z |}.
Definition cycleY : Folder.t :=
  {| Folder.id := 11; Folder.name := "Y"; Folder.parent := Some 10%Z |}.

Definition cyclicFolders : Env := withFolders [cycleX; cycleY].

(** A provider that ignores the offset and always answers a full page. *)
Definition fullPage : list Template.t := replicate maxReturn (mkTemplate 1 "Welcome").

Definition alwaysFullPage (offset : nat) : Reply (option ListData.t) :=
  Data (Some {| ListData.success := true; ListData.result := Some fullPage |}).

Definition endlessProvider : Env :=
  provider alwaysFullPage noContent noFolders noFsError.

(** The world of a run, moved to the instant [t]. *)
Definition atTime (w : World) (t : Z) : World :=
  {| clock := t; dirs := dirs w; files := files w; log := log w |}.

Definition credentialsConfigured (env : Env) : bool :=
  Js.truthy_str (MARKETO_CLIENT_ID env)
  && Js.truthy_str (MARKETO_CLIENT_SECRET env)
  && Js.truthy_str (MARKETO_IDENTITY_URL env).

(* ===================================================================== *)
(** ** Properties of the token cache *)
(* ===================================================================== *)

Section TokenCache.

Variable env : Env.

Lemma authenticate_one_call (c : Client) (w : World) :
  exists o c' w',
    authenticate env (c, w) = (o, (c', w'))
    /\ log w' = log w ++ [GetIdentity].
Proof.
  unfold authenticate, try_catch, bind, now, request, throw, ret, set_store.
  simpl.
  destruct (identity env (clock w)) as [err|[d|]]; simpl; eauto.
  destruct (Js.truthy_str (IdentityData.access_token d)); simpl; eauto.
Qed.

Lemma getAccessToken_cached (c : Client) (w : World) :
  Js.truthy_str (accessToken c) = true ->
  Js.ge_minus (clock w) (tokenExpiry c) (5 * 60 * 1000) = false ->
  getAccessToken env (c, w) = (Ret (accessToken c), (c, w)).
Proof.
  intros Htok Hfresh.
  unfold getAccessToken, bind, get_store, now, ret. simpl.
  rewrite Htok, Hfresh. reflexivity.
Qed.

Lemma getAccessToken_refresh (c : Client) (w : World) :
  Js.ge_minus (clock w) (tokenExpiry c) (5 * 60 * 1000) = true ->
  exists o c' w',
    getAccessToken env (c, w) = (o, (c', w'))
    /\ log w' = log w ++ [GetIdentity].
Proof.
  intros Hstale.
  destruct (authenticate_one_call c w) as (o & c' & w' & Ha & Hl).
  unfold getAccessToken, bind, get_store, now, ret. simpl.
  rewrite Hstale, orb_true_r, Ha.
  destruct o; simpl; eauto.
Qed.

Lemma getMarketoAccessToken_cached (s : Session) (w : World) :
  Js.truthy_str (marketoAccessToken s) = true ->
  Js.truthy_num (marketoTokenExpiry s) = true ->
  (default 0 (marketoTokenExpiry s) >? clock w + TOKEN_EXPIRY_BUFFER_MS)%Z = true ->
  getMarketoAccessToken env (s, w) = (Ret (marketoAccessToken s), (s, w)).
Proof.
  intros Htok Hexp Hfresh.
  unfold getMarketoAccessToken, bind, get_store, now, ret. simpl.
  rewrite Htok, Hexp, Hfresh. reflexivity.
Qed.

Lemma getMarketoAccessToken_refresh (s : Session) (w : World) :
  credentialsConfigured env = true ->
  (default 0 (marketoTokenExpiry s) >? clock w + TOKEN_EXPIRY_BUFFER_MS)%Z = false ->
  exists o s' w',
    getMarketoAccessToken env (s, w) = (o, (s', w'))
    /\ log w' = log w ++ [GetIdentity].
Proof.
  intros Hcred Hstale.
  unfold credentialsConfigured in Hcred.
  apply andb_prop in Hcred as [Hcred Hurl].
  apply andb_prop in Hcred as [Hid Hsecret].
  unfold getMarketoAccessToken, bind, get_store, now, ret, request, throw,
    set_store.
  simpl. rewrite Hstale, andb_false_r, Hid, Hsecret, Hurl. simpl.
  destruct (identity env (clock w)) as [err|[[tok [n|]]|]]; simpl; eauto.
  destruct (Js.truthy_str tok); simpl; eauto.
Qed.

End TokenCache.

(** The stored token of the claim, in either store. *)
Definition storedInClient (tok : string) (expiresAt : Z) : Client :=
  {| accessToken := Some tok; tokenExpiry := Some (Js.Num expiresAt) |}.

Definition storedInSession (tok : string) (expiresAt : Z) : Session :=
  {| marketoAccessToken := Some tok; marketoTokenExpiry := Some expiresAt |}.

Definition skew : Z := 5 * 60 * 1000.

(** C2. A token [tok] stored with expiry instant [expiresAt] (a positive
    epoch time) is served from the cache one second before
    [expiresAt - skew]: [getAccessToken] and [getMarketoAccessToken]
    return it and leave the store, the clock and the log untouched, so no
    authentication request is made.  One second after [expiresAt - skew]
    each of them refreshes: the log grows by exactly one identity request
    (for the session variant the three credentials must be configured,
    as otherwise it throws before the request), and the call is decided
    by the answer to that request.  When the answer grants a token
    [fresh] for [n] seconds, the call returns [fresh], not the stored
    token, and stores it with the expiry instant [n] seconds after the
    answer arrived.  The call returns a token only if the answer carried
    that token; when it throws, the store is left as it was. *)
Theorem token_skew_window (env : Env) (tok : string) (expiresAt : Z) (w : World) :
  tok <> ""%string ->
  (0 < expiresAt)%Z ->
  credentialsConfigured env = true ->
  let c := storedInClient tok expiresAt in
  let s := storedInSession tok expiresAt in
  let early := atTime w (expiresAt - skew - 1000) in
  let late := atTime w (expiresAt - skew + 1000) in
  getAccessToken env (c, early) = (Ret (Some tok), (c, early))
  /\ getMarketoAccessToken env (s, early) = (Ret (Some tok), (s, early))
  /\ (exists o c' w',
        getAccessToken env (c, late) = (o, (c', w'))
        /\ log w' = log w ++ [GetIdentity]
        /\ authCalls (log w') = S (authCalls (log w))
        /\ clock w' = (clock late + latency env)%Z
        /\ (forall fresh n,
              identity env (clock late)
              = Data (Some {| IdentityData.access_token := Some fresh;
                              IdentityData.expires_in := Some n |}) ->
              fresh <> ""%string ->
              o = Ret (Some fresh)
              /\ c' = storedInClient fresh (clock w' + n * 1000))
        /\ (forall r,
              o = Ret r ->
              exists d,
                identity env (clock late) = Data (Some d)
                /\ IdentityData.access_token d = r
                /\ Js.truthy_str r = true)
        /\ (forall msg, o = Throw msg -> c' = c)
        /\ o <> Pending)
  /\ (exists o s' w',
        getMarketoAccessToken env (s, late) = (o, (s', w'))
        /\ log w' = log w ++ [GetIdentity]
        /\ authCalls (log w') = S (authCalls (log w))
        /\ clock w' = (clock late + latency env)%Z
        /\ (forall fresh n,
              identity env (clock late)
              = Data (Some {| IdentityData.access_token := Some fresh;
                              IdentityData.expires_in := Some n |}) ->
              fresh <> ""%string ->
              o = Ret (Some fresh)
              /\ s' = storedInSession fresh (clock w' + n * 1000))
        /\ (forall r,
              o = Ret r ->
              exists d,
                identity env (clock late) = Data (Some d)
                /\ IdentityData.access_token d = r
                /\ Js.truthy_str r = true)
        /\ (forall msg, o = Throw msg -> s' = s)
        /\ o <> Pending).
Proof.
  intros Htok Hpos Hcred c s early late.
  assert (Hcount : forall l, authCalls (l ++ [GetIdentity]) = S (authCalls l)).
  { intros l. unfold authCalls. induction l as [|ev l IH]; simpl; [reflexivity|].
    rewrite IH. lia. }
  split; [|split; [|split]].
  - apply (getAccessToken_cached env c early).
    + apply Js.truthy_str_Some, Htok.
    + simpl. unfold skew. rewrite Z.geb_leb. apply Z.leb_gt. lia.
  - apply (getMarketoAccessToken_cached env s early).
    + apply Js.truthy_str_Some, Htok.
    + apply Js.truthy_num_Some. lia.
    + simpl. unfold skew, TOKEN_EXPIRY_BUFFER_MS. rewrite Z.gtb_ltb. apply Z.ltb_lt. lia.
  - assert (Hstale : Js.ge_minus (clock late) (tokenExpiry c) (5 * 60 * 1000) = true).
    { simpl. unfold skew. rewrite Z.geb_leb. apply Z.leb_le. lia. }
    unfold getAccessToken, authenticate, try_catch, bind, get_store, now,
      request, throw, ret, set_store.
    cbn [fst snd]. rewrite Hstale, orb_true_r.
    change (clock late) with (expiresAt - skew + 1000)%Z. simpl.
    destruct (identity env (expiresAt - skew + 1000)) as [err|[[[fresh|] e]|]] eqn:Hid;
      simpl;
      try destruct (Js.truthy_str (Some fresh)) eqn:Hfresh;
      simpl;
      eexists _, _, _; (split; [reflexivity|]);
      simpl; rewrite ?Hcount;
      repeat split; intros; simplify_eq; try reflexivity; try discriminate;
      try (eexists; split; [reflexivity|split; [reflexivity|assumption]]);
      try (exfalso;
           match goal with
           | Hne : ?f <> ""%string, Hf : Js.truthy_str (Some ?f) = false |- _ =>
               rewrite (Js.truthy_str_Some f Hne) in Hf; discriminate
           end).
  - assert (Hstale : (default 0 (marketoTokenExpiry s)
                      >? clock late + TOKEN_EXPIRY_BUFFER_MS)%Z = false).
    { simpl. unfold skew, TOKEN_EXPIRY_BUFFER_MS.
      rewrite Z.gtb_ltb. apply Z.ltb_ge. lia. }
    unfold credentialsConfigured in Hcred.
    apply andb_prop in Hcred as [Hcred Hurl].
    apply andb_prop in Hcred as [Hcid Hsecret].
    unfold getMarketoAccessToken, bind, get_store, now, ret, request, throw,
      set_store.
    cbn [fst snd]. rewrite Hstale, andb_false_r, Hcid, Hsecret, Hurl.
    cbn [negb orb].
    change (clock late) with (expiresAt - skew + 1000)%Z. simpl.
    destruct (identity env (expiresAt - skew + 1000)) as [err|[[[fresh|] [n|]]|]] eqn:Hid;
      simpl;
      try destruct (Js.truthy_str (Some fresh)) eqn:Hfresh;
      simpl;
      eexists _, _, _; (split; [reflexivity|]);
      simpl; rewrite ?Hcount;
      repeat split; intros; simplify_eq; try reflexivity; try discriminate;
      try (eexists; split; [reflexivity|split; [reflexivity|assumption]]);
      try (exfalso;
           match goal with
           | Hne : ?f <> ""%string, Hf : Js.truthy_str (Some ?f) = false |- _ =>
               rewrite (Js.truthy_str_Some f Hne) in Hf; discriminate
           end).
Qed.

Lemma token_skew_window_witness :
  let c := storedInClient "stale" 1700003600000 in
  let s := storedInSession "stale" 1700003600000 in
  let early := atTime (newWorld 0) (1700003600000 - skew - 1000) in
  let late := atTime (newWorld 0) (1700003600000 - skew + 1000) in
  getAccessToken idleProvider (c, early) = (Ret (Some "stale"), (c, early))
  /\ getMarketoAccessToken idleProvider (s, early)
     = (Ret (Some "stale"), (s, early))
  /\ fst (getAccessToken idleProvider (c, late)) = Ret (Some "bearer")
  /\ fst (snd (getAccessToken idleProvider (c, late)))
     = storedInClient "bearer" (clock late + 20 + 3600 * 1000)
  /\ fst (getMarketoAccessToken idleProvider (s, late)) = Ret (Some "bearer")
  /\ fst (snd (getMarketoAccessToken idleProvider (s, late)))
     = storedInSession "bearer" (clock late + 20 + 3600 * 1000).
Proof.
  intros c s early late.
  destruct (token_skew_window idleProvider "stale" 1700003600000 (newWorld 0))
    as (Hc & Hs & (o1 & c' & w1 & Hrun1 & _ & _ & Hclock1 & Hgrant1 & _)
           & (o2 & s' & w2 & Hrun2 & _ & _ & Hclock2 & Hgrant2 & _)).
  - discriminate.
  - lia.
  - reflexivity.
  - split; [exact Hc|]. split; [exact Hs|].
    destruct (Hgrant1 "bearer" 3600%Z) as (-> & ->);
      [reflexivity|discriminate|].
    destruct (Hgrant2 "bearer" 3600%Z) as (-> & ->);
      [reflexivity|discriminate|].
    fold c s early late in Hrun1, Hrun2.
    rewrite Hrun1, Hrun2, Hclock1, Hclock2. repeat split.
Defined.

(* ===================================================================== *)
(** ** Properties of the listing *)
(* ===================================================================== *)

Lemma pageOffsets_app (l1 l2 : list Event) :
  pageOffsets (l1 ++ l2) = pageOffsets l1 ++ pageOffsets l2.
Proof.
  induction l1 as [|ev l1 IH]; simpl; [reflexivity|].
  destruct ev; simpl; rewrite ?IH; reflexivity.
Qed.

Lemma pageRequests_app (l1 l2 : list Event) :
  pageRequests (l1 ++ l2) = pageRequests l1 + pageRequests l2.
Proof. unfold pageRequests. rewrite pageOffsets_app, length_app. reflexivity. Qed.

Lemma provider_grants emails contentJson folderJson fsError :
  identityGrants (provider emails contentJson folderJson fsError).
Proof. intros t. exists "bearer", 3600%Z. split; [reflexivity|discriminate]. Qed.

Section Granted.

Variable env : Env.
Hypothesis granted : identityGrants env.

(** With a granting identity endpoint the token getters always return;
    they touch neither the files nor anything in the log but identity
    requests. *)
Lemma getAccessToken_total (c : Client) (w : World) :
  exists tok c' w' extra,
    getAccessToken env (c, w) = (Ret tok, (c', w'))
    /\ dirs w' = dirs w /\ files w' = files w
    /\ log w' = log w ++ extra
    /\ Forall (eq GetIdentity) extra.
Proof.
  unfold getAccessToken, bind, get_store, now, ret. simpl.
  destruct (negb (Js.truthy_str (accessToken c))
            || Js.ge_minus (clock w) (tokenExpiry c) (5 * 60 * 1000)).
  - destruct (granted (clock w)) as (tok & n & Hid & Htok).
    unfold authenticate, try_catch, bind, now, request, throw, ret, set_store.
    simpl. rewrite Hid. simpl. rewrite (Js.truthy_str_Some _ Htok). simpl.
    eexists _, _, _, [GetIdentity]. repeat split. auto.
  - eexists _, _, _, []. simpl. rewrite app_nil_r. repeat split. constructor.
Qed.

Lemma getMarketoAccessToken_total (s : Session) (w : World) :
  credentialsConfigured env = true ->
  exists tok s' w' extra,
    getMarketoAccessToken env (s, w) = (Ret tok, (s', w'))
    /\ dirs w' = dirs w /\ files w' = files w
    /\ log w' = log w ++ extra
    /\ Forall (eq GetIdentity) extra.
Proof.
  intros Hcred. unfold credentialsConfigured in Hcred.
  apply andb_prop in Hcred as [Hcred Hurl].
  apply andb_prop in Hcred as [Hid Hsecret].
  unfold getMarketoAccessToken, bind, get_store, now, ret, request, throw,
    set_store.
  simpl.
  destruct (Js.truthy_str (marketoAccessToken s)
            && Js.truthy_num (marketoTokenExpiry s)
            && (default 0 (marketoTokenExpiry s)
                >? clock w + TOKEN_EXPIRY_BUFFER_MS)%Z).
  - eexists _, _, _, []. simpl. rewrite app_nil_r. repeat split. constructor.
  - rewrite Hid, Hsecret, Hurl. simpl.
    destruct (granted (clock w)) as (tok & n & Hgr & Htok).
    rewrite Hgr. rewrite (Js.truthy_str_Some _ Htok). simpl.
    eexists _, _, _, [GetIdentity]. repeat split. auto.
Qed.

End Granted.

Lemma pageOffsets_auth (extra : list Event) :
  Forall (eq GetIdentity) extra -> pageOffsets extra = [].
Proof.
  induction 1 as [|ev l Hev _ IH]; simpl; [reflexivity|].
  subst ev. exact IH.
Qed.

Lemma bind_Ret {S A B} (m : M S A) (k : A -> M S B) s a s' :
  m s = (Ret a, s') -> bind m k s = k a s'.
Proof. intros H. unfold bind. rewrite H. reflexivity. Qed.

Lemma bind_Pending {S A B} (m : M S A) (k : A -> M S B) s s' :
  m s = (Pending, s') -> bind m k s = (Pending, s').
Proof. intros H. unfold bind. rewrite H. reflexivity. Qed.

Lemma offsets_step (offset n : nat) :
  offset :: map (fun i => offset + maxReturn + i * maxReturn) (seq 0 n)
  = map (fun i => offset + i * maxReturn) (seq 0 (S n)).
Proof.
  simpl seq. rewrite <- seq_shift, map_cons, map_map.
  f_equal; [lia|]. apply map_ext. intros i. lia.
Qed.

Section Collection.

Variable env : Env.
Variable coll : list Template.t.
Variable progressCallback : bool.
Hypothesis granted : identityGrants env.
Hypothesis serves : servesCollection env coll.

(** From any offset the loop returns what it had plus the rest of the
    collection, asking for the pages at [offset], [offset + 200], ... *)
Lemma getAllTemplates_loop_collection (fuel : nat) :
  forall offset acc c w,
    length coll - offset < fuel * maxReturn ->
    exists c' w',
      getAllTemplates_loop fuel env progressCallback acc offset (c, w)
      = (Ret (acc ++ drop offset coll), (c', w'))
      /\ pageOffsets (log w')
         = pageOffsets (log w)
           ++ map (fun i => offset + i * maxReturn)
                (seq 0 (S ((length coll - offset) / maxReturn)))
      /\ dirs w' = dirs w /\ files w' = files w.
Proof.
  induction fuel as [|fuel IH]; intros offset acc c w Hfuel; [lia|].
  destruct (getAccessToken_total env granted c w)
    as (tok & c1 & w1 & extra & Htok & Hd & Hf & Hl & Hextra).
  cbn [getAllTemplates_loop].
  rewrite (bind_Ret _ _ _ _ _ Htok).
  unfold bind at 1, request at 1. rewrite serves.
  cbn [ListData.success ListData.result negb].
  assert (Hlen : length (take maxReturn (drop offset coll))
                 = Nat.min maxReturn (length coll - offset)).
  { rewrite length_take, length_drop. reflexivity. }
  set (w2 := {| clock := (clock w1 + latency env)%Z; dirs := dirs w1;
                files := files w1; log := log w1 ++ [GetEmails offset] |}).
  set (page := take maxReturn (drop offset coll)) in *.
  assert (Hstep : exists w3,
    (if progressCallback then emit (ProgressCount (length (acc ++ page)))
     else ret tt) (c1, w2) = (Ret tt, (c1, w3))
    /\ pageOffsets (log w3) = pageOffsets (log w) ++ [offset]
    /\ dirs w3 = dirs w /\ files w3 = files w).
  { destruct progressCallback; eexists; (split; [reflexivity|]); simpl;
      rewrite Hl, ?pageOffsets_app, (pageOffsets_auth _ Hextra); simpl;
      rewrite ?app_nil_r; auto. }
  destruct Hstep as (w3 & Hcb & Hl3 & Hd3 & Hf3).
  rewrite (bind_Ret _ _ _ _ _ Hcb).
  destruct (Nat.ltb_spec (length page) maxReturn) as [Hshort|Hfull].
  - exists c1, w3. unfold ret.
    assert (Hrest : length coll - offset < maxReturn) by lia.
    assert (Hpage : page = drop offset coll).
    { unfold page. apply take_ge. rewrite length_drop. lia. }
    rewrite Hpage, Hl3, (Nat.div_small _ _ Hrest). simpl.
    repeat split; auto. do 2 f_equal. lia.
  - assert (Hrest : maxReturn <= length coll - offset) by lia.
    destruct (IH (offset + maxReturn) (acc ++ page) c1 w3)
      as (c' & w' & Hrun & Hlog & Hd' & Hf').
    { unfold maxReturn in *. lia. }
    exists c', w'. rewrite Hrun. repeat split; try congruence.
    + do 2 f_equal. rewrite <- app_assoc. f_equal.
      unfold page. rewrite <- drop_drop. apply take_drop.
    + rewrite Hlog, Hl3, <- app_assoc. f_equal. cbn [app].
      replace ((length coll - offset) / maxReturn)
        with (S ((length coll - (offset + maxReturn)) / maxReturn)).
      * apply offsets_step.
      * replace (length coll - offset)
          with (length coll - (offset + maxReturn) + 1 * maxReturn) by lia.
        rewrite Nat.div_add by (unfold maxReturn; lia). lia.
Qed.

End Collection.

Lemma holding_serves (coll : list Template.t) : servesCollection (holding coll) coll.
Proof. intros offset. reflexivity. Qed.

Lemma pages_bound (n : nat) : n - 0 < S (n / maxReturn) * maxReturn.
Proof.
  pose proof (Nat.div_mod_eq n maxReturn) as Hdm.
  pose proof (Nat.mod_upper_bound n maxReturn) as Hub.
  unfold maxReturn in *. lia.
Qed.

(** C5. When the list endpoint serves the slices of a finite collection
    (and the identity endpoint grants tokens), [getAllTemplates]
    terminates (fuel for [length coll / 200 + 1] iterations suffices) and
    returns exactly the collection, in the order served.  It asks for
    the pages at offsets 0, 200, ..., [200 * (length coll / 200)]: every
    page before the last is full and the last one, on which the loop
    ends, is shorter than the page size.  No bound on the size of the
    collection is needed. *)
Theorem getAllTemplates_returns_collection
    (env : Env) (coll : list Template.t) (progressCallback : bool)
    (c : Client) (w : World) :
  identityGrants env ->
  servesCollection env coll ->
  let pages := length coll / maxReturn in
  exists c' w',
    getAllTemplates (S pages) env progressCallback (c, w) = (Ret coll, (c', w'))
    /\ pageOffsets (log w')
       = pageOffsets (log w) ++ map (fun i => i * maxReturn) (seq 0 (S pages))
    /\ (forall i, i < pages ->
          length (take maxReturn (drop (i * maxReturn) coll)) = maxReturn)
    /\ length (take maxReturn (drop (pages * maxReturn) coll)) < maxReturn.
Proof.
  intros granted serves pages.
  destruct (getAllTemplates_loop_collection env coll progressCallback granted
              serves (S pages) 0 [] c w (pages_bound (length coll)))
    as (c' & w' & Hrun & Hlog & _ & _).
  exists c', w'. unfold getAllTemplates. rewrite Hrun, Hlog, Nat.sub_0_r.
  pose proof (Nat.div_mod_eq (length coll) maxReturn) as Hdm.
  pose proof (Nat.mod_upper_bound (length coll) maxReturn) as Hub.
  fold pages in Hdm.
  repeat split.
  - intros i Hi. rewrite length_take, length_drop.
    assert (S i <= pages) as Hle by lia.
    apply (Nat.mul_le_mono_r _ _ maxReturn) in Hle.
    unfold maxReturn in *. lia.
  - rewrite length_take, length_drop. unfold maxReturn in *. lia.
Qed.

(** The scenario of the specification: 2 pages of 200 and 1 page of 37. *)
Lemma getAllTemplates_returns_collection_witness :
  exists c' w',
    getAllTemplates 3 (holding (collectionOf 437)) true
      (newClient, newWorld 1700000000000)
    = (Ret (collectionOf 437), (c', w'))
    /\ pageOffsets (log w') = [0; 200; 400]
    /\ (forall i, i < 2 ->
          length (take maxReturn (drop (i * maxReturn) (collectionOf 437)))
          = maxReturn)
    /\ length (take maxReturn (drop (2 * maxReturn) (collectionOf 437)))
       < maxReturn.
Proof.
  exact (getAllTemplates_returns_collection (holding (collectionOf 437))
           (collectionOf 437) true newClient (newWorld 1700000000000)
           (provider_grants _ _ _ _) (holding_serves _)).
Defined.

(** On a provider that always answers a full page the library's loop
    never leaves: every unit of fuel is spent on one more page request. *)
Lemma getAllTemplates_loop_endless (fuel : nat) :
  forall offset acc c w,
    exists c' w',
      getAllTemplates_loop fuel endlessProvider false acc offset (c, w)
      = (Pending, (c', w'))
      /\ pageRequests (log w') = pageRequests (log w) + fuel.
Proof.
  induction fuel as [|fuel IH]; intros offset acc c w.
  - exists c, w. split; [reflexivity|lia].
  - destruct (getAccessToken_total endlessProvider (provider_grants _ _ _ _) c w)
      as (tok & c1 & w1 & extra & Htok & _ & _ & Hl & Hextra).
    cbn [getAllTemplates_loop].
    rewrite (bind_Ret _ _ _ _ _ Htok).
    unfold bind at 1, request at 1.
    change (emails endlessProvider offset) with (alwaysFullPage offset).
    unfold alwaysFullPage. cbn [ListData.success ListData.result negb].
    unfold bind at 1, ret at 1.
    change (length fullPage <? maxReturn) with false. cbn iota.
    match goal with
    | |- context [getAllTemplates_loop fuel _ _ ?a ?o (?c2, ?w2)] =>
        destruct (IH o a c2 w2) as (c' & w' & Hrun & Hreq)
    end.
    exists c', w'. split; [exact Hrun|].
    rewrite Hreq. cbn [log]. rewrite Hl.
    rewrite !pageRequests_app. unfold pageRequests at 2 3.
    rewrite (pageOffsets_auth _ Hextra). simpl. lia.
Qed.

(** C1. The library's [getAllTemplates] has no page cap.  On a finite
    collection of [MAX_PAGES * pageSize + 1] templates it issues
    [MAX_PAGES + 1] page requests, and on a provider that answers every
    request with a full page it never returns: whatever the fuel, all of
    it is spent on page requests. *)
Theorem getAllTemplates_exceeds_MAX_PAGES :
  (exists c' w',
     getAllTemplates (S MAX_PAGES)
       (holding (collectionOf (MAX_PAGES * pageSize + 1))) false
       (newClient, newWorld 0)
     = (Ret (collectionOf (MAX_PAGES * pageSize + 1)), (c', w'))
     /\ pageRequests (log w') = S MAX_PAGES)
  /\ (forall fuel,
        exists c' w',
          getAllTemplates fuel endlessProvider false (newClient, newWorld 0)
          = (Pending, (c', w'))
          /\ pageRequests (log w') = fuel).
Proof.
  split.
  - set (coll := collectionOf (MAX_PAGES * pageSize + 1)).
    assert (Hlen : length coll = MAX_PAGES * pageSize + 1).
    { unfold coll, collectionOf. rewrite length_map, length_seq. reflexivity. }
    destruct (getAllTemplates_loop_collection (holding coll) coll false
                (provider_grants _ _ _ _) (holding_serves coll)
                (S MAX_PAGES) 0 [] newClient (newWorld 0))
      as (c' & w' & Hrun & Hlog & _ & _).
    { rewrite Hlen. vm_compute. lia. }
    exists c', w'. split; [exact Hrun|].
    unfold pageRequests. rewrite Hlog, Hlen. simpl pageOffsets.
    rewrite length_app, length_map, length_seq. reflexivity.
  - intros fuel.
    destruct (getAllTemplates_loop_endless fuel 0 [] newClient (newWorld 0))
      as (c' & w' & Hrun & Hreq).
    exists c', w'. split; [exact Hrun|]. rewrite Hreq. reflexivity.
Qed.

(** *** The capped loop of the bulk download *)

Lemma fetchAllPages_bounded (env : Env) (fuel : nat) :
  forall pageCount allTemplates offset s w,
    MAX_PAGES < fuel + pageCount ->
    pageCount <= MAX_PAGES ->
    exists o s' w',
      fetchAllPages fuel env allTemplates pageCount offset (s, w) = (o, (s', w'))
      /\ o <> Pending
      /\ pageRequests (log w') + pageCount <= pageRequests (log w) + MAX_PAGES.
Proof.
  induction fuel as [|fuel IH]; intros pageCount acc offset s w Hfuel Hcount;
    [lia|].
  cbn [fetchAllPages].
  destruct (Nat.ltb_spec MAX_PAGES (S pageCount)) as [Hcap|Hcap].
  - eexists _, _, _. split; [reflexivity|]. split; [discriminate|].
    cbn [log]. rewrite pageRequests_app. unfold pageRequests at 2. simpl. lia.
  - unfold bind at 1, emit at 1. unfold bind at 1, request at 1.
    destruct (emails env offset) as [err|[[success [result|]]|]].
    + eexists _, _, _. split; [reflexivity|]. split; [discriminate|].
      cbn [log]. rewrite !pageRequests_app. unfold pageRequests at 2 3.
      simpl. lia.
    + unfold bind at 1, emit at 1.
      destruct (Nat.ltb_spec (length result) pageSize) as [Hshort|Hfull].
      * eexists _, _, _. split; [reflexivity|]. split; [discriminate|].
        cbn [log]. rewrite !pageRequests_app. unfold pageRequests at 2 3 4 5.
        simpl. lia.
      * unfold bind at 1, sleep at 1.
        match goal with
        | |- context [fetchAllPages fuel env ?a ?p ?o (?s2, ?w2)] =>
            destruct (IH p a o s2 w2) as (o' & s' & w' & Hrun & Hnp & Hreq);
              [lia|lia|]
        end.
        exists o', s', w'. split; [exact Hrun|]. split; [exact Hnp|].
        cbn [log] in Hreq. rewrite !pageRequests_app in Hreq.
        unfold pageRequests at 3 4 5 in Hreq. simpl in Hreq. lia.
    + eexists _, _, _. split; [reflexivity|]. split; [discriminate|].
      cbn [log]. rewrite !pageRequests_app. unfold pageRequests at 2 3 4.
      simpl. lia.
    + eexists _, _, _. split; [reflexivity|]. split; [discriminate|].
      cbn [log]. rewrite !pageRequests_app. unfold pageRequests at 2 3 4.
      simpl. lia.
Qed.

(** Whatever the provider answers, the loop of [bulkExportTemplates]
    ends within [MAX_PAGES] page requests. *)
Lemma fetchAllPages_at_most_MAX_PAGES (env : Env) (s : Session) (w : World) :
  exists o s' w',
    fetchAllPages (S MAX_PAGES) env [] 0 0 (s, w) = (o, (s', w'))
    /\ o <> Pending
    /\ pageRequests (log w') <= pageRequests (log w) + MAX_PAGES.
Proof.
  destruct (fetchAllPages_bounded env (S MAX_PAGES) 0 [] 0 s w)
    as (o & s' & w' & Hrun & Hnp & Hreq); [lia|lia|].
  exists o, s', w'. repeat split; [exact Hrun|exact Hnp|lia].
Qed.

(* ===================================================================== *)
(** ** Properties of the flattening of content sections *)
(* ===================================================================== *)

(** The fragments of a list of sections, in input order: per section the
    values of its HTML items, then its inline HTML content. *)
Definition itemFragments (items : list Item.t) : list string :=
  flat_map (fun item =>
              if itemIsHtml item then [default "" (Item.value item)] else [])
    items.

Definition sectionFragments (section : Section.t) : list string :=
  match Section.value section with
  | Some items => itemFragments items
  | None => []
  end
  ++ (if sectionIsHtml section then [default "" (Section.content section)]
      else []).

Definition htmlFragments (sections : list Section.t) : list string :=
  flat_map sectionFragments sections.

(** Every fragment followed by [sep]. *)
Definition terminatedBy (sep : string) (fragments : list string) : string :=
  fold_right (fun fragment rest => fragment +:+ sep +:+ rest) "" fragments.

(** The fragments with [sep] between them, as the specification words it. *)
Definition joinedBy (sep : string) (fragments : list string) : string :=
  String.concat sep fragments.

(** The two sections of the specification's example. *)
Definition specSections : list Section.t :=
  [ {| Section.value :=
         Some [ {| Item.type := Some "HTML"; Item.value := Some "<p>a</p>" |} ];
       Section.contentType := None; Section.content := None |};
    {| Section.value := None; Section.contentType := Some "html";
       Section.content := Some "<p>b</p>" |} ].

Lemma string_app_assoc (a b c : string) : (a +:+ b) +:+ c = a +:+ (b +:+ c).
Proof.
  induction a as [|ch a IH]; [reflexivity|].
  change (String ch ((a +:+ b) +:+ c) = String ch (a +:+ (b +:+ c))).
  f_equal. exact IH.
Qed.

Lemma string_app_empty (a : string) : a +:+ "" = a.
Proof.
  induction a as [|ch a IH]; [reflexivity|].
  change (String ch (a +:+ "") = String ch a). f_equal. exact IH.
Qed.

Lemma terminatedBy_app (sep : string) (l1 l2 : list string) :
  terminatedBy sep (l1 ++ l2) = terminatedBy sep l1 +:+ terminatedBy sep l2.
Proof.
  induction l1 as [|f l1 IH]; simpl; [reflexivity|].
  rewrite IH, !string_app_assoc. reflexivity.
Qed.

Section Flatten.

Variable sep : string.

Let onItem (collectedHtml : string) (valItem : Item.t) : string :=
  if itemIsHtml valItem
  then collectedHtml +:+ default "" (Item.value valItem) +:+ sep
  else collectedHtml.

Lemma collect_items (items : list Item.t) (acc : string) :
  fold_left onItem items acc = acc +:+ terminatedBy sep (itemFragments items).
Proof.
  revert acc. induction items as [|item items IH]; intros acc; simpl.
  - symmetry. apply string_app_empty.
  - rewrite IH. unfold onItem, itemFragments. simpl.
    destruct (itemIsHtml item); simpl; [|reflexivity].
    rewrite !string_app_assoc. reflexivity.
Qed.

Lemma collectHtml_from (sections : list Section.t) (acc : string) :
  fold_left
    (fun collectedHtml section =>
       let collectedHtml :=
         match Section.value section with
         | Some items => fold_left onItem items collectedHtml
         | None => collectedHtml
         end in
       if sectionIsHtml section
       then collectedHtml +:+ default "" (Section.content section) +:+ sep
       else collectedHtml)
    sections acc
  = acc +:+ terminatedBy sep (htmlFragments sections).
Proof.
  revert acc. induction sections as [|section sections IH]; intros acc.
  - symmetry. apply string_app_empty.
  - cbn [fold_left]. rewrite IH. cbn [htmlFragments flat_map].
    fold (htmlFragments sections).
    rewrite terminatedBy_app. unfold sectionFragments.
    rewrite terminatedBy_app.
    destruct (Section.value section) as [items|];
      [rewrite collect_items|];
      destruct (sectionIsHtml section); simpl;
      rewrite ?string_app_assoc, ?string_app_empty; reflexivity.
Qed.

Lemma collectHtml_fragments (sections : list Section.t) :
  collectHtml sep sections = terminatedBy sep (htmlFragments sections).
Proof. unfold collectHtml. fold onItem. apply collectHtml_from. Qed.

End Flatten.

Lemma terminatedBy_joined (sep : string) (fragments : list string) :
  terminatedBy sep fragments
  = match fragments with
    | [] => ""%string
    | _ :: _ => joinedBy sep fragments +:+ sep
    end.
Proof.
  induction fragments as [|f rest IH]; [reflexivity|].
  cbn [terminatedBy fold_right]. fold (terminatedBy sep rest). rewrite IH.
  destruct rest as [|g rest]; [rewrite string_app_empty; reflexivity|].
  unfold joinedBy. cbn [String.concat].
  rewrite !string_app_assoc. reflexivity.
Qed.

Lemma string_length_app (a b : string) :
  String.length (a +:+ b) = String.length a + String.length b.
Proof.
  induction a as [|ch a IH]; [reflexivity|].
  change (S (String.length (a +:+ b)) = S (String.length a + String.length b)).
  f_equal. exact IH.
Qed.

(** What the loops of the routes collect: nothing without a fragment,
    otherwise the fragments with [sep] between them and once more at
    the end. *)
Lemma collectHtml_joined (sep : string) (sections : list Section.t) :
  collectHtml sep sections
  = match htmlFragments sections with
    | [] => ""%string
    | _ :: _ => joinedBy sep (htmlFragments sections) +:+ sep
    end.
Proof. rewrite collectHtml_fragments. apply terminatedBy_joined. Qed.

Lemma collectHtml_found (sep : string) (sections : list Section.t) :
  sep <> ""%string ->
  htmlFragments sections <> [] ->
  (0 <? String.length (collectHtml sep sections))%nat = true.
Proof.
  intros Hsep Hfound. rewrite collectHtml_joined.
  destruct (htmlFragments sections) as [|f rest]; [contradiction|].
  rewrite string_length_app. apply Nat.ltb_lt.
  destruct sep as [|ch sep]; [contradiction|]. simpl. lia.
Qed.

(** What the two content.json readers of the routes return for an
    answer without errors whose sections carry some fragment. *)
Lemma content_readers_join (env : Env) (emailId : Z) (s : Session) (w : World)
    (data : ContentData.t) (sections : list Section.t) :
  identityGrants env ->
  credentialsConfigured env = true ->
  Js.truthy_str (MARKETO_REST_URL env) = true ->
  emailId <> 0%Z ->
  contentJson env emailId = Data (Some data) ->
  ContentData.errors data = [] ->
  ContentData.result data = Some sections ->
  htmlFragments sections <> [] ->
  fst (fetchContentJsonBackup env emailId (s, w))
  = Ret (Some (joinedBy blankLine (htmlFragments sections) +:+ blankLine))
  /\ fst (fetchEmailHtmlContent env emailId (s, w))
     = Ret (Some (joinedBy sectionSeparator (htmlFragments sections)
                  +:+ sectionSeparator)).
Proof.
  intros granted configured restUrl validId Hreply Herrors Hresult Hfound.
  assert (Hblank : collectHtml blankLine sections
                   = joinedBy blankLine (htmlFragments sections) +:+ blankLine).
  { rewrite collectHtml_joined.
    destruct (htmlFragments sections); [contradiction|reflexivity]. }
  assert (Hmarker : collectHtml sectionSeparator sections
                    = joinedBy sectionSeparator (htmlFragments sections)
                      +:+ sectionSeparator).
  { rewrite collectHtml_joined.
    destruct (htmlFragments sections); [contradiction|reflexivity]. }
  split.
  - unfold fetchContentJsonBackup, bind, request.
    rewrite Hreply, Herrors, Hresult.
    rewrite (collectHtml_found blankLine sections) by (discriminate || exact Hfound).
    rewrite Hblank. reflexivity.
  - unfold fetchEmailHtmlContent. rewrite restUrl. cbn [negb].
    destruct (Z.eqb_spec emailId 0) as [Hzero|_]; [contradiction|].
    destruct (getMarketoAccessToken_total env granted s w configured)
      as (tok & s1 & w1 & extra & Htok & _).
    rewrite (bind_Ret _ _ _ _ _ Htok).
    unfold bind, request. rewrite Hreply, Herrors, Hresult.
    rewrite (collectHtml_found sectionSeparator sections)
      by (discriminate || exact Hfound).
    rewrite Hmarker. reflexivity.
Qed.

(** C6.  The loops of the routes do what the claim says, for every list
    of sections: they collect, section by section in input order, the
    values of the items typed HTML and then the inline content of a
    section of type html, and the result is these fragments with a blank
    line between them in [fetchContentJsonBackup], and with the
    separator marker between blank lines in [fetchEmailHtmlContent]
    (the separator follows the last fragment too).  The library's
    [extractHtmlContent] runs the same loop with a single newline: on the
    example of the specification it returns the two fragments on
    consecutive lines, with neither a blank line nor a separator marker
    between them. *)
Theorem extractHtmlContent_joins_by_single_newline :
  (forall sections sep,
     collectHtml sep sections
     = match htmlFragments sections with
       | [] => ""%string
       | _ :: _ => joinedBy sep (htmlFragments sections) +:+ sep
       end)
  /\ (forall env emailId s w data sections,
        identityGrants env ->
        credentialsConfigured env = true ->
        Js.truthy_str (MARKETO_REST_URL env) = true ->
        emailId <> 0%Z ->
        contentJson env emailId = Data (Some data) ->
        ContentData.errors data = [] ->
        ContentData.result data = Some sections ->
        htmlFragments sections <> [] ->
        fst (fetchContentJsonBackup env emailId (s, w))
        = Ret (Some (joinedBy blankLine (htmlFragments sections) +:+ blankLine))
        /\ fst (fetchEmailHtmlContent env emailId (s, w))
           = Ret (Some (joinedBy sectionSeparator (htmlFragments sections)
                        +:+ sectionSeparator)))
  /\ (forall sections, extractHtmlContent sections = collectHtml nl sections)
  /\ htmlFragments specSections = ["<p>a</p>"; "<p>b</p>"]%string
  /\ collectHtml blankLine specSections
     = "<p>a</p>" +:+ nl +:+ nl +:+ "<p>b</p>" +:+ nl +:+ nl
  /\ collectHtml sectionSeparator specSections
     = "<p>a</p>" +:+ nl +:+ nl +:+ "<!-- Section Separator -->" +:+ nl +:+ nl
       +:+ "<p>b</p>" +:+ nl +:+ nl +:+ "<!-- Section Separator -->" +:+ nl +:+ nl
  /\ extractHtmlContent specSections = "<p>a</p>" +:+ nl +:+ "<p>b</p>" +:+ nl
  /\ String.index 0 blankLine (extractHtmlContent specSections) = None
  /\ String.index 0 "<!--" (extractHtmlContent specSections) = None.
Proof.
  split; [intros sections sep; apply collectHtml_joined|].
  split; [intros env emailId s w data sections; apply content_readers_join|].
  split; [intros sections; reflexivity|].
  repeat split.
Qed.

(** A provider whose content.json serves the example of the
    specification. *)
Definition servesSpecSections : Env :=
  provider noEmails
    (fun _ => Data (Some {| ContentData.success := true;
                            ContentData.errors := [];
                            ContentData.result := Some specSections |}))
    noFolders noFsError.

Lemma extractHtmlContent_joins_by_single_newline_witness :
  fst (fetchContentJsonBackup servesSpecSections 7 (newSession, newWorld 0))
  = Ret (Some ("<p>a</p>" +:+ nl +:+ nl +:+ "<p>b</p>" +:+ nl +:+ nl))
  /\ fst (fetchEmailHtmlContent servesSpecSections 7 (newSession, newWorld 0))
     = Ret (Some ("<p>a</p>" +:+ nl +:+ nl +:+ "<!-- Section Separator -->"
                  +:+ nl +:+ nl +:+ "<p>b</p>" +:+ nl +:+ nl
                  +:+ "<!-- Section Separator -->" +:+ nl +:+ nl)).
Proof.
  apply (proj1 (proj2 extractHtmlContent_joins_by_single_newline)
           servesSpecSections 7%Z newSession (newWorld 0)
           {| ContentData.success := true; ContentData.errors := [];
              ContentData.result := Some specSections |}
           specSections).
  - apply provider_grants.
  - reflexivity.
  - reflexivity.
  - discriminate.
  - reflexivity.
  - reflexivity.
  - reflexivity.
  - discriminate.
Defined.

(* ===================================================================== *)
(** ** Fuel-free code settles: it returns or throws, and only adds to the log *)
(* ===================================================================== *)

Definition settles {T A} (m : M (T * World) A) : Prop :=
  forall t w, exists o t' w' extra,
    m (t, w) = (o, (t', w')) /\ o <> Pending /\ log w' = log w ++ extra.

Section Settles.

Context {T : Type}.

Lemma settles_ret {A} (a : A) : settles (@ret (T * World) A a).
Proof.
  intros t w. exists (Ret a), t, w, []. rewrite app_nil_r.
  repeat split. discriminate.
Qed.

Lemma settles_throw {A} (msg : string) : settles (@throw (T * World) A msg).
Proof.
  intros t w. exists (Throw msg), t, w, []. rewrite app_nil_r.
  repeat split. discriminate.
Qed.

Lemma settles_bind {A B} (m : M (T * World) A) (k : A -> M (T * World) B) :
  settles m -> (forall a, settles (k a)) -> settles (bind m k).
Proof.
  intros Hm Hk t w.
  destruct (Hm t w) as (o & t1 & w1 & e1 & Hrun & Hnp & Hl).
  unfold bind. rewrite Hrun. destruct o as [a|msg|].
  - destruct (Hk a t1 w1) as (o2 & t2 & w2 & e2 & Hrun2 & Hnp2 & Hl2).
    exists o2, t2, w2, (e1 ++ e2). rewrite Hrun2, Hl2, Hl, app_assoc. auto.
  - exists (Throw msg), t1, w1, e1. repeat split; [discriminate|exact Hl].
  - contradiction.
Qed.

Lemma settles_try_catch {A} (m : M (T * World) A) (h : string -> M (T * World) A) :
  settles m -> (forall msg, settles (h msg)) -> settles (try_catch m h).
Proof.
  intros Hm Hh t w.
  destruct (Hm t w) as (o & t1 & w1 & e1 & Hrun & Hnp & Hl).
  unfold try_catch. rewrite Hrun. destruct o as [a|msg|].
  - exists (Ret a), t1, w1, e1. repeat split; [discriminate|exact Hl].
  - destruct (Hh msg t1 w1) as (o2 & t2 & w2 & e2 & Hrun2 & Hnp2 & Hl2).
    exists o2, t2, w2, (e1 ++ e2). rewrite Hrun2, Hl2, Hl, app_assoc. auto.
  - contradiction.
Qed.

Lemma settles_now : settles (@now T).
Proof.
  intros t w. exists (Ret (clock w)), t, w, []. rewrite app_nil_r.
  repeat split. discriminate.
Qed.

Lemma settles_get_store : settles (@get_store T).
Proof.
  intros t w. exists (Ret t), t, w, []. rewrite app_nil_r.
  repeat split. discriminate.
Qed.

Lemma settles_set_store (t0 : T) : settles (set_store t0).
Proof.
  intros t w. exists (Ret tt), t0, w, []. rewrite app_nil_r.
  repeat split. discriminate.
Qed.

Lemma settles_emit (ev : Event) : settles (@emit T ev).
Proof.
  intros t w. eexists (Ret tt), t, _, [ev].
  repeat split. discriminate.
Qed.

Lemma settles_request (env : Env) (ev : Event) : settles (@request T env ev).
Proof.
  intros t w. eexists (Ret tt), t, _, [ev].
  repeat split. discriminate.
Qed.

Lemma settles_sleep (ms : Z) : settles (@sleep T ms).
Proof.
  intros t w. eexists (Ret tt), t, _, []. simpl. rewrite app_nil_r.
  repeat split. discriminate.
Qed.

Lemma settles_mkdir (env : Env) (path : string) : settles (@mkdir T env path).
Proof.
  intros t w. unfold mkdir, bind, emit.
  destruct (fsError env path) as [msg|];
    eexists _, t, _, [Mkdir path]; repeat split; discriminate.
Qed.

Lemma settles_writeFile (env : Env) (path : string) (data : File) :
  settles (@writeFile T env path data).
Proof.
  intros t w. unfold writeFile, bind, emit.
  destruct (fsError env path) as [msg|];
    eexists _, t, _, [WriteFile path]; repeat split; discriminate.
Qed.

End Settles.

Create HintDb settle.

#[local] Hint Resolve settles_ret settles_throw settles_now settles_get_store
  settles_set_store settles_emit settles_request settles_sleep settles_mkdir
  settles_writeFile : settle.

(** Walks through a monadic term, splitting on what it branches on. *)
Ltac settle :=
  repeat first
    [ progress eauto with settle
    | apply settles_bind; [|intros]
    | apply settles_try_catch; [|intros]
    | match goal with
      | |- settles (match ?x with _ => _ end) => destruct x
      | |- settles (let _ := _ in _) => cbv zeta
      end ].

Lemma authenticate_settles (env : Env) : settles (authenticate env).
Proof. unfold authenticate. settle. Qed.

Lemma getAccessToken_settles (env : Env) : settles (getAccessToken env).
Proof. unfold getAccessToken. pose proof (authenticate_settles env). settle. Qed.

Lemma getTemplateContent_settles (env : Env) (templateId : Z) :
  settles (getTemplateContent env templateId).
Proof.
  unfold getTemplateContent. pose proof (getAccessToken_settles env). settle.
Qed.

Lemma exportTemplate_settles (env : Env) (template : Template.t) (outputDir : string) :
  settles (exportTemplate env template outputDir).
Proof.
  unfold exportTemplate.
  pose proof (getTemplateContent_settles env (Template.id template)). settle.
Qed.

Lemma getMarketoAccessToken_settles (env : Env) : settles (getMarketoAccessToken env).
Proof. unfold getMarketoAccessToken. settle. Qed.

(* ===================================================================== *)
(** ** Properties of the sequential bulk export of the library *)
(* ===================================================================== *)

(** The two updates of [results] made by the loop. *)
Definition recordSuccess (results : ExportResult.t) : ExportResult.t :=
  {| ExportResult.total := ExportResult.total results;
     ExportResult.successful := S (ExportResult.successful results);
     ExportResult.failed := ExportResult.failed results;
     ExportResult.errors := ExportResult.errors results |}.

Definition recordFailure (results : ExportResult.t) (template : Template.t)
    (msg : string) : ExportResult.t :=
  {| ExportResult.total := ExportResult.total results;
     ExportResult.successful := ExportResult.successful results;
     ExportResult.failed := S (ExportResult.failed results);
     ExportResult.errors :=
       ExportResult.errors results ++ [(Template.id template, msg)] |}.

(** The state after the progress callback, when there is one. *)
Definition afterProgress (progressCallback : bool) (results : ExportResult.t)
    (s : Client * World) : Client * World :=
  if progressCallback
  then (fst s, {| clock := clock (snd s); dirs := dirs (snd s);
                  files := files (snd s);
                  log := log (snd s) ++ [ProgressResults results] |})
  else s.

(** The directories a log asks to create, in order. *)
Fixpoint mkdirs (l : list Event) : list string :=
  match l with
  | [] => []
  | Mkdir path :: l => path :: mkdirs l
  | _ :: l => mkdirs l
  end.

(** Five templates; the directory of the third cannot be created. *)
Definition denyThird (path : string) : option string :=
  if String.eqb path "out/template_3" then Some "EACCES: permission denied"
  else None.

Definition batchOfFive : Env :=
  provider (slicesOf (collectionOf 5)) noContent noFolders denyThird.

(** The same five templates for the route, whose directories carry the
    sanitised name. *)
Definition denyThirdNamed (path : string) : option string :=
  if String.eqb path "out/Newsletter_3" then Some "EACCES: permission denied"
  else None.

Definition batchOfFiveNamed : Env :=
  provider (slicesOf (collectionOf 5)) noContent noFolders denyThirdNamed.

Definition isItemError (ev : Event) : bool :=
  match ev with ResWrite (ErrorProcessingTemplate _ _ _) => true | _ => false end.

Section ExportLoop.

Variable env : Env.
Variable outputDir : string.
Variable progressCallback : bool.

Lemma exportTemplate_attempt (template : Template.t) (c : Client) (w : World) :
  exists o c' w' extra,
    exportTemplate env template outputDir (c, w) = (o, (c', w'))
    /\ o <> Pending
    /\ log w' = log w ++ Mkdir (templateDirOf outputDir template) :: extra.
Proof.
  unfold exportTemplate.
  set (rest := fun _ : unit => bind (writeFile env _ _) _).
  assert (Hrest : settles (rest tt)).
  { unfold rest.
    pose proof (getTemplateContent_settles env (Template.id template)).
    settle. }
  unfold bind at 1, mkdir, bind at 1, emit at 1.
  destruct (fsError env (templateDirOf outputDir template)) as [msg|].
  - eexists _, _, _, []. repeat split. discriminate.
  - match goal with
    | |- context [rest tt (?c1, ?w1)] =>
        destruct (Hrest c1 w1) as (o & c' & w' & extra & Hrun & Hnp & Hl)
    end.
    exists o, c', w', extra. rewrite Hrun, Hl. simpl.
    rewrite <- app_assoc. auto.
Qed.

Lemma body_run (template : Template.t) (results : ExportResult.t)
    (s s1 : Client * World) (o : Outcome string) :
  exportTemplate env template outputDir s = (o, s1) ->
  exportAllTemplates_body env outputDir progressCallback template results s
  = match o with
    | Ret _ =>
        (Ret (recordSuccess results),
         afterProgress progressCallback (recordSuccess results) s1)
    | Throw msg =>
        (Ret (recordFailure results template msg),
         afterProgress progressCallback (recordFailure results template msg) s1)
    | Pending => (Pending, s1)
    end.
Proof.
  intros Hrun.
  unfold exportAllTemplates_body, bind, try_catch, afterProgress.
  rewrite Hrun.
  destruct o, s1 as [c1 w1], progressCallback; reflexivity.
Qed.

Lemma afterProgress_log (results : ExportResult.t) (s : Client * World) :
  exists extra,
    log (snd (afterProgress progressCallback results s)) = log (snd s) ++ extra
    /\ mkdirs extra = [].
Proof.
  unfold afterProgress. destruct progressCallback.
  - eexists. split; reflexivity.
  - exists []. rewrite app_nil_r. split; reflexivity.
Qed.

(** The loop never stops early: it returns after attempting every
    template, one counter going up per template. *)
Lemma exportAllTemplates_loop_total (templates : list Template.t) :
  forall results s,
    exists r s' later extra,
      exportAllTemplates_loop env outputDir progressCallback templates results s
      = (Ret r, s')
      /\ ExportResult.total r = ExportResult.total results
      /\ ExportResult.errors r = ExportResult.errors results ++ later
      /\ ExportResult.failed r = ExportResult.failed results + length later
      /\ ExportResult.successful r + length later
         = ExportResult.successful results + length templates
      /\ log (snd s') = log (snd s) ++ extra
      /\ forall t, In t templates -> In (Mkdir (templateDirOf outputDir t)) extra.
Proof.
  induction templates as [|template rest IH]; intros results s.
  - exists results, s, [], []. simpl. rewrite !app_nil_r.
    repeat split; try lia; try contradiction.
  - destruct s as [c w].
    destruct (exportTemplate_attempt template c w)
      as (o & c1 & w1 & e1 & Hrun & Hnp & Hl1).
    cbn [exportAllTemplates_loop].
    pose proof (body_run template results _ _ _ Hrun) as Hbody.
    destruct o as [d|msg|]; [| |contradiction].
    + rewrite (bind_Ret _ _ _ _ _ Hbody).
      destruct (afterProgress_log (recordSuccess results) (c1, w1))
        as (e2 & Hl2 & _).
      destruct (IH (recordSuccess results)
                  (afterProgress progressCallback (recordSuccess results) (c1, w1)))
        as (r & s' & later & e3 & Hloop & Ht & He & Hf & Hs & Hl3 & Hall).
      exists r, s', later, ((Mkdir (templateDirOf outputDir template) :: e1) ++ e2 ++ e3).
      rewrite Hloop, Hl3, Hl2. cbn [snd]. rewrite Hl1.
      simpl in *. repeat split; auto; try lia.
      * rewrite <- !app_assoc. reflexivity.
      * intros t [Ht'|Ht']; [subst; left; reflexivity|].
        right. rewrite !in_app_iff. auto.
    + rewrite (bind_Ret _ _ _ _ _ Hbody).
      destruct (afterProgress_log (recordFailure results template msg) (c1, w1))
        as (e2 & Hl2 & _).
      destruct (IH (recordFailure results template msg)
                  (afterProgress progressCallback
                     (recordFailure results template msg) (c1, w1)))
        as (r & s' & later & e3 & Hloop & Ht & He & Hf & Hs & Hl3 & Hall).
      exists r, s', ((Template.id template, msg) :: later),
        ((Mkdir (templateDirOf outputDir template) :: e1) ++ e2 ++ e3).
      rewrite Hloop, Hl3, Hl2. cbn [snd]. rewrite Hl1.
      simpl in *. repeat split; auto; try lia.
      * rewrite He, <- app_assoc. reflexivity.
      * rewrite <- !app_assoc. reflexivity.
      * intros t [Ht'|Ht']; [subst; left; reflexivity|].
        right. rewrite !in_app_iff. auto.
Qed.

(** Running a list is running its prefix and then the rest. *)
Lemma exportAllTemplates_loop_app (pre post : list Template.t) :
  forall results s r1 s1,
    exportAllTemplates_loop env outputDir progressCallback pre results s
    = (Ret r1, s1) ->
    exportAllTemplates_loop env outputDir progressCallback (pre ++ post) results s
    = exportAllTemplates_loop env outputDir progressCallback post r1 s1.
Proof.
  induction pre as [|template pre IH]; intros results s r1 s1 Hpre.
  - simpl in Hpre. unfold ret in Hpre. inversion Hpre. reflexivity.
  - cbn [exportAllTemplates_loop app] in *.
    unfold bind in *.
    destruct (exportAllTemplates_body env outputDir progressCallback template
                results s) as [[r|msg|] s2]; try discriminate.
    apply IH. exact Hpre.
Qed.

End ExportLoop.

(** C7. An exception raised while exporting one template never aborts
    the run of [exportAllTemplates].  Generally: if the loop has reached
    template [t] with results [r1] and exporting [t] throws [msg], the
    loop over the whole list still returns; its errors are those of [r1],
    then [(id t, msg)], then those of later templates; the failure counter
    went up by one for [t]; and after the failure the log asks to create
    the directory of every later template, so each one was attempted.
    In particular, with five templates of which the third throws, the
    result is total 5, successful 4, failed 1, the error recorded under
    id 3, and the directories of templates 4 and 5 were asked for. *)
Theorem exportAllTemplates_survives_item_failure :
  (forall env outputDir progressCallback pre t post results s r1 msg,
     let reached :=
       exportAllTemplates_loop env outputDir progressCallback pre results s in
     let failure := exportTemplate env t outputDir (snd reached) in
     fst reached = Ret r1 ->
     fst failure = Throw msg ->
     exists r s' later extra,
       exportAllTemplates_loop env outputDir progressCallback
         (pre ++ t :: post) results s = (Ret r, s')
       /\ ExportResult.errors r
          = ExportResult.errors r1 ++ (Template.id t, msg) :: later
       /\ ExportResult.failed r = S (ExportResult.failed r1) + length later
       /\ ExportResult.successful r + length later
          = ExportResult.successful r1 + length post
       /\ log (snd s') = log (snd (snd failure)) ++ extra
       /\ forall t', In t' post -> In (Mkdir (templateDirOf outputDir t')) extra)
  /\ (let run :=
        exportAllTemplates 1 batchOfFive "out" false (newClient, newWorld 0) in
      fst run
      = Ret {| ExportResult.total := 5; ExportResult.successful := 4;
               ExportResult.failed := 1;
               ExportResult.errors := [(3%Z, "EACCES: permission denied")] |}
      /\ mkdirs (log (snd (snd run)))
         = ["out/template_1"; "out/template_2"; "out/template_3";
            "out/template_4"; "out/template_5"]).
Proof.
  split; [|split; vm_compute; reflexivity].
  intros env outputDir progressCallback pre t post results s r1 msg
    reached failure Hreached Hfailure.
  destruct reached as [o1 s1] eqn:Hpre. simpl in Hreached. subst o1.
  destruct failure as [o2 s2] eqn:Hfail. simpl in Hfailure. subst o2.
  subst failure. cbn [snd] in Hfail.
  rewrite (exportAllTemplates_loop_app env outputDir progressCallback pre
             (t :: post) results s r1 s1 Hpre).
  cbn [exportAllTemplates_loop].
  pose proof (body_run env outputDir progressCallback t r1 _ _ _ Hfail) as Hbody.
  rewrite (bind_Ret _ _ _ _ _ Hbody).
  destruct (afterProgress_log progressCallback (recordFailure r1 t msg) s2)
    as (e2 & Hl2 & _).
  destruct (exportAllTemplates_loop_total env outputDir progressCallback post
              (recordFailure r1 t msg)
              (afterProgress progressCallback (recordFailure r1 t msg) s2))
    as (r & s' & later & e3 & Hloop & Ht & He & Hf & Hs & Hl3 & Hall).
  exists r, s', later, (e2 ++ e3). rewrite Hloop. simpl in *.
  repeat split; auto; try lia.
  - rewrite He, <- app_assoc. reflexivity.
  - rewrite Hl3, Hl2, app_assoc. reflexivity.
  - intros t' Ht'. apply in_app_iff. right. auto.
Qed.

Definition firstTwo : list Template.t := take 2 (collectionOf 5).
Definition third : Template.t := mkTemplate 3 "Newsletter".
Definition lastTwo : list Template.t := drop 3 (collectionOf 5).

Definition freshResults (total : nat) : ExportResult.t :=
  {| ExportResult.total := total; ExportResult.successful := 0;
     ExportResult.failed := 0; ExportResult.errors := [] |}.

Lemma exportAllTemplates_survives_item_failure_witness :
  exists r s' later extra,
    exportAllTemplates_loop batchOfFive "out" true
      (firstTwo ++ third :: lastTwo) (freshResults 5) (newClient, newWorld 0)
    = (Ret r, s')
    /\ ExportResult.errors r
       = [] ++ (3%Z, "EACCES: permission denied") :: later
    /\ ExportResult.failed r = 1 + length later
    /\ ExportResult.successful r + length later = 2 + length lastTwo
    /\ log (snd s')
       = log (snd (snd (exportTemplate batchOfFive third "out"
                          (snd (exportAllTemplates_loop batchOfFive "out" true
                                  firstTwo (freshResults 5)
                                  (newClient, newWorld 0))))))
         ++ extra
    /\ forall t', In t' lastTwo -> In (Mkdir (templateDirOf "out" t')) extra.
Proof.
  apply (proj1 exportAllTemplates_survives_item_failure batchOfFive "out" true
           firstTwo third lastTwo (freshResults 5) (newClient, newWorld 0)
           {| ExportResult.total := 5; ExportResult.successful := 2;
              ExportResult.failed := 0; ExportResult.errors := [] |}
           "EACCES: permission denied").
  - vm_compute. reflexivity.
  - vm_compute. reflexivity.
Defined.

(** C10. Whenever [exportAllTemplates] returns, its result satisfies
    [total = successful + failed] and has one error entry per failed
    template.  Each turn of its loop returns with exactly one of the two
    counters increased by one: [successful], or [failed] together with
    one new entry [{templateId, error}] for that template. *)
Theorem exportAllTemplates_counts_add_up :
  (forall fuel env outputDir progressCallback s r,
     fst (exportAllTemplates fuel env outputDir progressCallback s) = Ret r ->
     ExportResult.total r = ExportResult.successful r + ExportResult.failed r
     /\ length (ExportResult.errors r) = ExportResult.failed r)
  /\ (forall env outputDir progressCallback template results s,
        exists results' s',
          exportAllTemplates_body env outputDir progressCallback template
            results s = (Ret results', s')
          /\ (results' = recordSuccess results
              \/ exists msg, results' = recordFailure results template msg)).
Proof.
  split.
  - intros fuel env outputDir progressCallback s r Hrun.
    unfold exportAllTemplates, bind in Hrun.
    destruct (getAllTemplates fuel env progressCallback s)
      as [[templates|msg|] s0]; try discriminate.
    destruct (exportAllTemplates_loop_total env outputDir progressCallback
                templates (freshResults (length templates)) s0)
      as (r' & s' & later & extra & Hloop & Ht & He & Hf & Hs & _).
    unfold freshResults in Hloop. rewrite Hloop in Hrun.
    simpl in Hrun. injection Hrun as ->. simpl in *.
    rewrite He. lia.
  - intros env outputDir progressCallback template results [c w].
    destruct (exportTemplate_attempt env outputDir template c w)
      as (o & c1 & w1 & e1 & Hrun & Hnp & _).
    rewrite (body_run env outputDir progressCallback template results _ _ _ Hrun).
    destruct o as [d|msg|]; [| |contradiction].
    + eexists _, _. split; [reflexivity|]. left. reflexivity.
    + eexists _, _. split; [reflexivity|]. right. exists msg. reflexivity.
Qed.

Lemma exportAllTemplates_counts_add_up_witness :
  let r := {| ExportResult.total := 5; ExportResult.successful := 4;
              ExportResult.failed := 1;
              ExportResult.errors := [(3%Z, "EACCES: permission denied"%string)] |} in
  fst (exportAllTemplates 1 batchOfFive "out" false (newClient, newWorld 0))
  = Ret r
  /\ ExportResult.total r = ExportResult.successful r + ExportResult.failed r
  /\ length (ExportResult.errors r) = ExportResult.failed r.
Proof.
  split; [vm_compute; reflexivity|].
  apply (proj1 exportAllTemplates_counts_add_up 1 batchOfFive "out"%string false
           (newClient, newWorld 0)).
  vm_compute. reflexivity.
Defined.

(* ===================================================================== *)
(** ** A failed HTML retrieval: error marker and counting *)
(* ===================================================================== *)

(** In the library, as long as the file system works, [exportTemplate]
    returns normally whatever happens to the HTML retrieval: its [catch]
    writes the marker and does not throw again. *)
Lemma exportTemplate_returns_when_fs_works (env : Env) (template : Template.t)
    (outputDir : string) (c : Client) (w : World) :
  (forall path, fsError env path = None) ->
  exists c' w',
    exportTemplate env template outputDir (c, w)
    = (Ret (templateDirOf outputDir template), (c', w')).
Proof.
  intros Hfs.
  unfold exportTemplate, mkdir, writeFile.
  unfold bind at 1. unfold bind at 1, emit at 1. rewrite Hfs.
  unfold bind at 1. unfold bind at 1, emit at 1. rewrite Hfs.
  unfold bind at 1, try_catch. unfold bind at 1.
  match goal with
  | |- context [getTemplateContent env ?i ?s0] =>
      destruct (getTemplateContent_settles env i (fst s0) (snd s0))
        as (o & c1 & w1 & e1 & Hrun & Hnp & _);
      cbn [fst snd] in Hrun; rewrite Hrun
  end.
  destruct o as [html|msg|]; [| |contradiction].
  - destruct (Js.truthy_str (Some html)).
    + unfold bind, emit. rewrite Hfs. eexists _, _. reflexivity.
    + eexists _, _. reflexivity.
  - unfold bind, emit. rewrite Hfs. eexists _, _. reflexivity.
Qed.

(** C3. A template whose content endpoint reports failure: the library
    writes error.txt and no HTML file, next to the metadata file, and
    [exportAllTemplates] counts the template as successful (failed stays
    0, no error entry).  On the same provider the route's
    [bulkExportTemplates] writes error.txt and its completion block, the
    last thing written before the page is closed, reports 1 processed of
    1, 0 successful, 1 failed. *)
Theorem content_failure_counted_as_success :
  let run :=
    exportAllTemplates 1 contentFails "out" false (newClient, newWorld 0) in
  let bulk := bulkExportTemplates 60 contentFails "out" (newSession, newWorld 0) in
  fst run
  = Ret {| ExportResult.total := 1; ExportResult.successful := 1;
           ExportResult.failed := 0; ExportResult.errors := [] |}
  /\ files (snd (snd run)) !! "out/template_7/error.txt"
     = Some (Text "Error retrieving HTML content: Failed to fetch template content for ID 7")
  /\ files (snd (snd run)) !! "out/template_7/7.html" = None
  /\ is_Some (files (snd (snd run)) !! "out/template_7/metadata.json")
  /\ fst bulk = Ret tt
  /\ ending 3 (log (snd (snd bulk)))
     = [ResWrite (ExportComplete 1 1 0 1); ResWrite DocumentEnd; ResEnd]
  /\ files (snd (snd bulk)) !! "out/Promo_Mail_7/error.txt"
     = Some (Text "Error retrieving HTML content: Could not retrieve HTML content for email ID 7 through any available API methods.")
  /\ is_Some (files (snd (snd bulk)) !! "out/Promo_Mail_7/metadata.json").
Proof.
  repeat split; try (vm_compute; reflexivity); vm_compute; eauto.
Qed.

(* ===================================================================== *)
(** ** Properties of the folder breadcrumb *)
(* ===================================================================== *)

(** What a lookup of folder [id] finds. *)
Definition folderAt (env : Env) (id : Z) : option Folder.t :=
  folderOfReply (folderJson env id).

(** [chain] lists the folders from the one referred to by [folderId] up
    to a root: every lookup finds the next folder, each folder but the
    last names the next one as its parent, and the last has no parent. *)
Fixpoint chainFrom (env : Env) (folderId : option Z) (chain : list Folder.t)
  : Prop :=
  match chain with
  | [] => False
  | f :: up =>
      Js.truthy_num folderId = true
      /\ folderAt env (default 0%Z folderId) = Some f
      /\ match up with
         | [] => Js.truthy_num (Folder.parent f) = false
         | _ :: _ =>
             Js.truthy_num (Folder.parent f) = true
             /\ chainFrom env (Folder.parent f) up
         end
  end.

(** The same walk when it ends on a lookup that finds nothing: [chain]
    lists the folders found before the missing one. *)
Fixpoint brokenChainFrom (env : Env) (folderId : option Z)
    (chain : list Folder.t) : Prop :=
  match chain with
  | [] =>
      Js.truthy_num folderId = true
      /\ folderAt env (default 0%Z folderId) = None
  | f :: up =>
      Js.truthy_num folderId = true
      /\ folderAt env (default 0%Z folderId) = Some f
      /\ Js.truthy_num (Folder.parent f) = true
      /\ brokenChainFrom env (Folder.parent f) up
  end.

(** No cycle among the folders: some rank decreases from every folder
    that is found to the parent it names. *)
Definition ranked (env : Env) (rank : Z -> nat) : Prop :=
  forall id f p,
    folderAt env id = Some f ->
    Folder.parent f = Some p ->
    p <> 0%Z ->
    rank p < rank id.

(** The ids on the parent chain of [folderId]: the id itself, and the
    parent named by every folder found on the chain. *)
Inductive onChain (env : Env) (folderId : option Z) : Z -> Prop :=
| onChain_start :
    Js.truthy_num folderId = true ->
    onChain env folderId (default 0%Z folderId)
| onChain_parent (id : Z) (f : Folder.t) (p : Z) :
    onChain env folderId id ->
    folderAt env id = Some f ->
    Folder.parent f = Some p ->
    p <> 0%Z ->
    onChain env folderId p.

(** No cycle on the parent chain of [folderId]: some rank decreases from
    every folder found on that chain to the parent it names.  Folders off
    the chain are not constrained. *)
Definition rankedFrom (env : Env) (folderId : option Z) (rank : Z -> nat)
  : Prop :=
  forall id f p,
    onChain env folderId id ->
    folderAt env id = Some f ->
    Folder.parent f = Some p ->
    p <> 0%Z ->
    rank p < rank id.

Lemma ranked_from (env : Env) (folderId : option Z) (rank : Z -> nat) :
  ranked env rank -> rankedFrom env folderId rank.
Proof. intros Hranked id f p _. apply Hranked. Qed.

Section Folders.

Variable env : Env.
Hypothesis granted : identityGrants env.
Hypothesis configured : credentialsConfigured env = true.

Lemma getFolderDetails_run (folderId : option Z) (s : Session) (w : World) :
  Js.truthy_num folderId = true ->
  exists s' w',
    getFolderDetails env folderId (s, w)
    = (Ret (folderAt env (default 0%Z folderId)), (s', w')).
Proof.
  intros Hid. unfold getFolderDetails. rewrite Hid. cbn [negb].
  destruct (getMarketoAccessToken_total env granted s w configured)
    as (tok & s1 & w1 & extra & Htok & _).
  rewrite (bind_Ret _ _ _ _ _ Htok).
  unfold bind, request, ret. eexists _, _. reflexivity.
Qed.

(** One call of [buildFolderPath] on a present id: the lookup, then the
    decision on what it found. *)
Lemma buildFolderPath_step (fuel : nat) (folderId : option Z)
    (s : Session) (w : World) :
  Js.truthy_num folderId = true ->
  exists s1 w1,
    buildFolderPath (S fuel) env folderId (s, w)
    = match folderAt env (default 0%Z folderId) with
      | None => (Ret [], (s1, w1))
      | Some folderDetails =>
          if negb (Js.truthy_num (Folder.parent folderDetails))
          then (Ret [folderDetails], (s1, w1))
          else
            bind (buildFolderPath fuel env (Folder.parent folderDetails))
              (fun parentPath => ret (parentPath ++ [folderDetails]))
              (s1, w1)
      end.
Proof.
  intros Hid.
  destruct (getFolderDetails_run folderId s w Hid) as (s1 & w1 & Hrun).
  exists s1, w1. cbn [buildFolderPath]. rewrite Hid. cbn [negb].
  rewrite (bind_Ret _ _ _ _ _ Hrun).
  destruct (folderAt env (default 0%Z folderId)) as [fd|]; [|reflexivity].
  destruct (negb (Js.truthy_num (Folder.parent fd))); reflexivity.
Qed.

Lemma buildFolderPath_chain (chain : list Folder.t) :
  forall folderId s w,
    chainFrom env folderId chain ->
    exists s' w',
      buildFolderPath (length chain) env folderId (s, w)
      = (Ret (rev chain), (s', w')).
Proof.
  induction chain as [|f up IH]; intros folderId s w Hchain; [contradiction|].
  destruct Hchain as (Hid & Hfound & Hup).
  destruct (buildFolderPath_step (length up) folderId s w Hid)
    as (s1 & w1 & Hstep).
  cbn [length]. rewrite Hstep, Hfound.
  destruct up as [|g up'].
  - rewrite Hup. cbn [negb]. eexists _, _. reflexivity.
  - destruct Hup as (Hparent & Hrest). rewrite Hparent. cbn [negb].
    destruct (IH (Folder.parent f) s1 w1 Hrest) as (s' & w' & Hrun).
    rewrite (bind_Ret _ _ _ _ _ Hrun). eexists _, _. reflexivity.
Qed.

Lemma buildFolderPath_broken_chain (chain : list Folder.t) :
  forall folderId s w,
    brokenChainFrom env folderId chain ->
    exists s' w',
      buildFolderPath (S (length chain)) env folderId (s, w)
      = (Ret (rev chain), (s', w')).
Proof.
  induction chain as [|f up IH]; intros folderId s w Hchain.
  - destruct Hchain as (Hid & Hmissing).
    destruct (buildFolderPath_step 0 folderId s w Hid) as (s1 & w1 & Hstep).
    cbn [length]. rewrite Hstep, Hmissing. eexists _, _. reflexivity.
  - destruct Hchain as (Hid & Hfound & Hparent & Hrest).
    destruct (buildFolderPath_step (S (length up)) folderId s w Hid)
      as (s1 & w1 & Hstep).
    cbn [length]. rewrite Hstep, Hfound, Hparent. cbn [negb].
    destruct (IH (Folder.parent f) s1 w1 Hrest) as (s' & w' & Hrun).
    rewrite (bind_Ret _ _ _ _ _ Hrun). eexists _, _. reflexivity.
Qed.

Lemma buildFolderPath_ranked (rank : Z -> nat) (fuel : nat) :
  ranked env rank ->
  forall folderId s w,
    rank (default 0%Z folderId) < fuel ->
    exists path s' w',
      buildFolderPath fuel env folderId (s, w) = (Ret path, (s', w')).
Proof.
  intros Hranked.
  induction fuel as [|fuel IH]; intros folderId s w Hfuel; [lia|].
  destruct (Js.truthy_num folderId) eqn:Hid.
  - destruct (buildFolderPath_step fuel folderId s w Hid) as (s1 & w1 & Hstep).
    rewrite Hstep.
    destruct (folderAt env (default 0%Z folderId)) as [fd|] eqn:Hfound;
      [|eexists _, _, _; reflexivity].
    destruct (Js.truthy_num (Folder.parent fd)) eqn:Hparent; cbn [negb];
      [|eexists _, _, _; reflexivity].
    destruct (Folder.parent fd) as [p|] eqn:Hp; [|discriminate].
    assert (Hnz : p <> 0%Z).
    { intros ->. discriminate. }
    destruct (IH (Some p) s1 w1) as (path & s' & w' & Hrun).
    { pose proof (Hranked _ _ _ Hfound Hp Hnz). simpl. lia. }
    rewrite (bind_Ret _ _ _ _ _ Hrun). eexists _, _, _. reflexivity.
  - cbn [buildFolderPath]. rewrite Hid. eexists _, _, _. reflexivity.
Qed.

(** The same with a rank on the parent chain of [start] only: every call
    of the walk is made on an id of that chain. *)
Lemma buildFolderPath_ranked_from (start : option Z) (rank : Z -> nat)
    (fuel : nat) :
  rankedFrom env start rank ->
  forall folderId s w,
    (Js.truthy_num folderId = true ->
     onChain env start (default 0%Z folderId)) ->
    rank (default 0%Z folderId) < fuel ->
    exists path s' w',
      buildFolderPath fuel env folderId (s, w) = (Ret path, (s', w')).
Proof.
  intros Hranked.
  induction fuel as [|fuel IH]; intros folderId s w Hon Hfuel; [lia|].
  destruct (Js.truthy_num folderId) eqn:Hid.
  - specialize (Hon eq_refl).
    destruct (buildFolderPath_step fuel folderId s w Hid) as (s1 & w1 & Hstep).
    rewrite Hstep.
    destruct (folderAt env (default 0%Z folderId)) as [fd|] eqn:Hfound;
      [|eexists _, _, _; reflexivity].
    destruct (Js.truthy_num (Folder.parent fd)) eqn:Hparent; cbn [negb];
      [|eexists _, _, _; reflexivity].
    destruct (Folder.parent fd) as [p|] eqn:Hp; [|discriminate].
    assert (Hnz : p <> 0%Z).
    { intros ->. discriminate. }
    destruct (IH (Some p) s1 w1) as (path & s' & w' & Hrun).
    { intros _. apply (onChain_parent env start _ fd p Hon Hfound Hp Hnz). }
    { pose proof (Hranked _ _ _ Hon Hfound Hp Hnz). simpl. lia. }
    rewrite (bind_Ret _ _ _ _ _ Hrun). eexists _, _, _. reflexivity.
  - cbn [buildFolderPath]. rewrite Hid. eexists _, _, _. reflexivity.
Qed.

End Folders.

Lemma withFolders_configured (folders : list Folder.t) :
  credentialsConfigured (withFolders folders) = true.
Proof. reflexivity. Qed.

(** C8. For a folder chain that reaches a root (every lookup finds its
    folder, tokens are granted), [buildFolderPath] returns the folders
    root first: the reverse of the chain as walked from the given folder,
    with fuel for one call per folder.  For an absent [folderId] it
    returns the empty list.  For the chain A -> B -> C -> root it returns
    [root, C, B, A]. *)
Theorem buildFolderPath_root_first :
  (forall env chain folderId s w,
     identityGrants env ->
     credentialsConfigured env = true ->
     chainFrom env folderId chain ->
     exists s' w',
       buildFolderPath (length chain) env folderId (s, w)
       = (Ret (rev chain), (s', w')))
  /\ (forall env fuel s,
        buildFolderPath (S fuel) env None s = (Ret [], s))
  /\ fst (buildFolderPath 4 fullChain (Some 4%Z) (newSession, newWorld 0))
     = Ret [folderRoot; folderC; folderB; folderA].
Proof.
  split; [|split].
  - intros env chain folderId s w granted configured Hchain.
    apply buildFolderPath_chain; assumption.
  - intros env fuel s. reflexivity.
  - vm_compute. reflexivity.
Qed.

Lemma buildFolderPath_root_first_witness :
  exists s' w',
    buildFolderPath 4 fullChain (Some 4%Z) (newSession, newWorld 0)
    = (Ret (rev [folderA; folderB; folderC; folderRoot]), (s', w')).
Proof.
  apply (proj1 buildFolderPath_root_first fullChain
           [folderA; folderB; folderC; folderRoot] (Some 4%Z)
           newSession (newWorld 0)).
  - apply provider_grants.
  - reflexivity.
  - simpl. repeat split; reflexivity.
Defined.

(** C4 fails as stated: when the lookup of B (the parent of A) finds
    nothing, the path of A is not empty; it is [A], which the caller
    formats as the name of A and not as the sentinel. *)
Lemma buildFolderPath_keeps_found_folders :
  folderAt missingB 3 = None
  /\ fst (buildFolderPath 5 missingB (Some 4%Z) (newSession, newWorld 0))
     = Ret [folderA]
  /\ fst (buildFolderPath 5 missingB (Some 4%Z) (newSession, newWorld 0))
     <> Ret []
  /\ formatFolderPath [folderA] = "A"%string
  /\ formatFolderPath [folderA] <> "Unknown Location"%string.
Proof. repeat split; try (vm_compute; reflexivity); vm_compute; discriminate. Qed.

(** C4, as the code has it.  When the walk from [folderId] ends on a
    lookup that finds nothing (tokens being granted), [buildFolderPath]
    does not raise: it returns the folders found before the missing one,
    root-most first, ending with the given folder.  That path is empty
    exactly when the lookup of [folderId] itself finds nothing, and the
    caller formats the empty path as "Unknown Location". *)
Theorem buildFolderPath_tolerates_missing_folder :
  (forall env chain folderId s w,
     identityGrants env ->
     credentialsConfigured env = true ->
     brokenChainFrom env folderId chain ->
     exists s' w',
       buildFolderPath (S (length chain)) env folderId (s, w)
       = (Ret (rev chain), (s', w'))
       /\ (rev chain = [] <-> folderAt env (default 0%Z folderId) = None))
  /\ formatFolderPath [] = "Unknown Location"%string.
Proof.
  split; [|reflexivity].
  intros env chain folderId s w granted configured Hchain.
  destruct (buildFolderPath_broken_chain env granted configured chain
              folderId s w Hchain) as (s' & w' & Hrun).
  exists s', w'. split; [exact Hrun|].
  destruct chain as [|f up].
  - destruct Hchain as (_ & Hmissing). split; auto.
  - destruct Hchain as (_ & Hfound & _). rewrite Hfound. split.
    + intros Hnil. apply (f_equal (@length _)) in Hnil.
      rewrite length_rev in Hnil. discriminate.
    + discriminate.
Qed.

Lemma buildFolderPath_tolerates_missing_folder_witness :
  exists s' w',
    buildFolderPath 2 missingB (Some 4%Z) (newSession, newWorld 0)
    = (Ret (rev [folderA]), (s', w'))
    /\ (rev [folderA] = [] <-> folderAt missingB (default 0%Z (Some 4%Z)) = None).
Proof.
  apply (proj1 buildFolderPath_tolerates_missing_folder missingB [folderA]
           (Some 4%Z) newSession (newWorld 0)).
  - apply provider_grants.
  - reflexivity.
  - simpl. repeat split; reflexivity.
Defined.

(** On the two-folder cycle every call goes on to the other folder. *)
Lemma buildFolderPath_cycle_pending (fuel : nat) :
  forall id s w,
    id = 10%Z \/ id = 11%Z ->
    exists s' w',
      buildFolderPath fuel cyclicFolders (Some id) (s, w) = (Pending, (s', w')).
Proof.
  induction fuel as [|fuel IH]; intros id s w Hid.
  - eexists _, _. reflexivity.
  - destruct (buildFolderPath_step cyclicFolders (provider_grants _ _ _ _)
                (withFolders_configured _) fuel (Some id) s w)
      as (s1 & w1 & Hstep).
    { destruct Hid; subst; reflexivity. }
    rewrite Hstep.
    destruct Hid; subst id.
    + change (folderAt cyclicFolders (default 0%Z (Some 10%Z))) with (Some cycleX).
      cbn [negb Folder.parent cycleX].
      change (Js.truthy_num (Some 11%Z)) with true. cbn [negb].
      destruct (IH 11%Z s1 w1) as (s' & w' & Hrun); [auto|].
      rewrite (bind_Pending _ _ _ _ Hrun). eexists _, _. reflexivity.
    + change (folderAt cyclicFolders (default 0%Z (Some 11%Z))) with (Some cycleY).
      cbn [negb Folder.parent cycleY].
      change (Js.truthy_num (Some 10%Z)) with true. cbn [negb].
      destruct (IH 10%Z s1 w1) as (s' & w' & Hrun); [auto|].
      rewrite (bind_Pending _ _ _ _ Hrun). eexists _, _. reflexivity.
Qed.

(** C9 fails as stated: on two folders that name each other as parent
    the resolution returns for no amount of fuel. *)
Lemma buildFolderPath_loops_on_cycle :
  ~ exists fuel path s',
      buildFolderPath fuel cyclicFolders (Some 10%Z) (newSession, newWorld 0)
      = (Ret path, s').
Proof.
  intros (fuel & path & s' & Hrun).
  destruct (buildFolderPath_cycle_pending fuel 10%Z newSession (newWorld 0))
    as (s1 & w1 & Hpending); [auto|].
  rewrite Hpending in Hrun. discriminate.
Qed.

(** C9, as the code has it.  The code keeps no set of visited folders.
    When the parent chain of the given folder has no cycle (a rank
    decreases from every folder found on that chain to the parent it
    names; cycles among other folders do not matter) and tokens are
    granted, the resolution terminates: fuel for [rank + 1] calls is
    enough and it returns a path. *)
Theorem buildFolderPath_terminates_without_cycle
    (env : Env) (rank : Z -> nat) (folderId : option Z)
    (s : Session) (w : World) :
  identityGrants env ->
  credentialsConfigured env = true ->
  rankedFrom env folderId rank ->
  exists path s' w',
    buildFolderPath (S (rank (default 0%Z folderId))) env folderId (s, w)
    = (Ret path, (s', w')).
Proof.
  intros granted configured Hranked.
  apply (buildFolderPath_ranked_from env granted configured folderId rank);
    [assumption| |lia].
  intros Hid. apply onChain_start, Hid.
Qed.

Lemma fullChain_ranked : ranked fullChain Z.to_nat.
Proof.
  intros id f p Hfound Hparent Hnz.
  unfold folderAt, fullChain, withFolders, provider, folderTable in Hfound.
  cbn [folderJson find Folder.id folderRoot folderC folderB folderA] in Hfound.
  repeat match type of Hfound with
         | context [(?k =? id)%Z] =>
             destruct (Z.eqb_spec k id) as [<-|_]
         end;
    cbn in Hfound; try discriminate;
    injection Hfound as <-; cbn in Hparent; try discriminate;
    injection Hparent as <-; lia.
Qed.

(** The chain A -> B -> C -> root next to two folders that name each
    other as parent: a graph with a cycle, but not on the chain of A. *)
Definition strayCycle : Env :=
  withFolders [folderRoot; folderC; folderB; folderA; cycleX; cycleY].

(** From either folder of its cycle the walk goes on for ever. *)
Lemma strayCycle_pending (fuel : nat) :
  forall id s w,
    id = 10%Z \/ id = 11%Z ->
    exists s' w',
      buildFolderPath fuel strayCycle (Some id) (s, w) = (Pending, (s', w')).
Proof.
  induction fuel as [|fuel IH]; intros id s w Hid.
  - eexists _, _. reflexivity.
  - destruct (buildFolderPath_step strayCycle (provider_grants _ _ _ _)
                (withFolders_configured _) fuel (Some id) s w)
      as (s1 & w1 & Hstep).
    { destruct Hid; subst; reflexivity. }
    rewrite Hstep.
    destruct Hid; subst id.
    + change (folderAt strayCycle (default 0%Z (Some 10%Z))) with (Some cycleX).
      cbn [negb Folder.parent cycleX].
      change (Js.truthy_num (Some 11%Z)) with true. cbn [negb].
      destruct (IH 11%Z s1 w1) as (s' & w' & Hrun); [auto|].
      rewrite (bind_Pending _ _ _ _ Hrun). eexists _, _. reflexivity.
    + change (folderAt strayCycle (default 0%Z (Some 11%Z))) with (Some cycleY).
      cbn [negb Folder.parent cycleY].
      change (Js.truthy_num (Some 10%Z)) with true. cbn [negb].
      destruct (IH 10%Z s1 w1) as (s' & w' & Hrun); [auto|].
      rewrite (bind_Pending _ _ _ _ Hrun). eexists _, _. reflexivity.
Qed.

Lemma strayCycle_chain (id : Z) :
  onChain strayCycle (Some 4%Z) id ->
  id = 4%Z \/ id = 3%Z \/ id = 2%Z \/ id = 1%Z.
Proof.
  intros Hon. induction Hon as [Hid|id f p Hon IH Hfound Hparent Hnz].
  - left. reflexivity.
  - destruct IH as [-> | [-> | [-> | ->]]]; vm_compute in Hfound;
      injection Hfound as <-; vm_compute in Hparent; simplify_eq; auto.
Qed.

Lemma strayCycle_ranked : rankedFrom strayCycle (Some 4%Z) Z.to_nat.
Proof.
  intros id f p Hon Hfound Hparent Hnz.
  destruct (strayCycle_chain id Hon) as [-> | [-> | [-> | ->]]];
    vm_compute in Hfound; injection Hfound as <-;
    vm_compute in Hparent; simplify_eq; lia.
Qed.

Lemma buildFolderPath_terminates_without_cycle_witness :
  (forall fuel s w,
     exists s' w',
       buildFolderPath fuel strayCycle (Some 10%Z) (s, w) = (Pending, (s', w')))
  /\ exists path s' w',
       buildFolderPath (S (Z.to_nat (default 0%Z (Some 4%Z)))) strayCycle
         (Some 4%Z) (newSession, newWorld 0)
       = (Ret path, (s', w')).
Proof.
  split.
  - intros fuel s w. apply strayCycle_pending. left. reflexivity.
  - apply (buildFolderPath_terminates_without_cycle strayCycle Z.to_nat
             (Some 4%Z) newSession (newWorld 0)).
    + apply provider_grants.
    + reflexivity.
    + exact strayCycle_ranked.
Defined.

(* ===================================================================== *)
(** ** The batched bulk export of the routes *)
(* ===================================================================== *)

(** A batch never throws: whatever [processTemplate] does for an item,
    the item is counted once, as a success or as an error, and the next
    one is started (unless the folder walk of an item is still running
    when the fuel ends). *)
Lemma processBatch_isolates_failures (fuel : nat) (env : Env)
    (exportDir : string) (total : nat) (batch : list Template.t) :
  forall c s,
    exists o s',
      processBatch fuel env exportDir total batch c s = (o, s')
      /\ match o with
         | Ret c' =>
             processedCount c' = processedCount c + length batch
             /\ successCount c' + errorCount c'
                = successCount c + errorCount c + length batch
         | Throw _ => False
         | Pending => True
         end.
Proof.
  induction batch as [|template rest IH]; intros c s.
  - exists (Ret c), s. split; [reflexivity|]. simpl. lia.
  - cbn [processBatch]. unfold bind at 1, try_catch, bind at 1.
    destruct (processTemplate fuel env template exportDir s)
      as [[b|msg|] [s1 w1]].
    + unfold bind at 1, emit at 1, ret at 1.
      match goal with
      | |- context [processBatch fuel env exportDir total rest ?c2 ?s2] =>
          destruct (IH c2 s2) as (o & s' & Hrun & Hcount)
      end.
      exists o, s'. split; [exact Hrun|].
      destruct o; simpl in *; auto. lia.
    + unfold bind at 1, emit at 1, ret at 1.
      match goal with
      | |- context [processBatch fuel env exportDir total rest ?c2 ?s2] =>
          destruct (IH c2 s2) as (o & s' & Hrun & Hcount)
      end.
      exists o, s'. split; [exact Hrun|].
      destruct o; simpl in *; auto. lia.
    + eexists _, _. split; [reflexivity|]. exact I.
Qed.

(** The capped loop on a provider that never stops serving full pages:
    it ends after [MAX_PAGES] requests with the templates of those pages
    and the warning as its last line; it does not throw. *)
Example fetchAllPages_warns_at_the_cap :
  let run := fetchAllPages (S MAX_PAGES) endlessProvider [] 0 0
               (newSession, newWorld 0) in
  match fst run with
  | Ret allTemplates => length allTemplates = MAX_PAGES * pageSize
  | _ => False
  end
  /\ pageRequests (log (snd (snd run))) = MAX_PAGES
  /\ count isPageLimitWarning (log (snd (snd run))) = 1
  /\ last (log (snd (snd run)))
     = Some (ResWrite (ReachedMaximumPageLimit MAX_PAGES)).
Proof. vm_compute. repeat split. Qed.

(** Five templates of which the third cannot be processed, in the route. *)
Example bulkExportTemplates_batch_of_five :
  let run := bulkExportTemplates 2 batchOfFiveNamed "out"
               (newSession, newWorld 0) in
  fst run = Ret tt
  /\ ending 3 (log (snd (snd run)))
     = [ResWrite (ExportComplete 5 5 4 1); ResWrite DocumentEnd; ResEnd]
  /\ mkdirs (log (snd (snd run)))
     = ["out"; "out/Newsletter_1"; "out/Newsletter_2"; "out/Newsletter_3";
        "out/Newsletter_4"; "out/Newsletter_5"]
  /\ count isItemError (log (snd (snd run))) = 1.
Proof. vm_compute. repeat split. Qed.

(** Below the cap the capped loop lists a finite collection in full. *)
Lemma fetchAllPages_collection (env : Env) (coll : list Template.t) (fuel : nat) :
  servesCollection env coll ->
  forall pageCount offset acc s w,
    (length coll - offset) / pageSize + pageCount < MAX_PAGES ->
    (length coll - offset) / pageSize < fuel ->
    exists s' w',
      fetchAllPages fuel env acc pageCount offset (s, w)
      = (Ret (acc ++ drop offset coll), (s', w')).
Proof.
  intros serves.
  induction fuel as [|fuel IH]; intros pageCount offset acc s w Hcap Hfuel;
    [lia|].
  cbn [fetchAllPages].
  destruct (Nat.ltb_spec MAX_PAGES (S pageCount)) as [Hover|_]; [lia|].
  unfold bind at 1, emit at 1. unfold bind at 1, request at 1.
  rewrite serves. change maxReturn with pageSize.
  unfold bind at 1, emit at 1.
  set (page := take pageSize (drop offset coll)).
  assert (Hlen : length page = Nat.min pageSize (length coll - offset)).
  { unfold page. rewrite length_take, length_drop. reflexivity. }
  destruct (Nat.ltb_spec (length page) pageSize) as [Hshort|Hfull].
  - assert (Hpage : page = drop offset coll).
    { unfold page. apply take_ge. rewrite length_drop. lia. }
    rewrite Hpage. eexists _, _. reflexivity.
  - unfold bind at 1, sleep at 1.
    assert (Hdiv : (length coll - offset) / pageSize
                   = S ((length coll - (offset + pageSize)) / pageSize)).
    { replace (length coll - offset)
        with (length coll - (offset + pageSize) + 1 * pageSize) by lia.
      rewrite Nat.div_add by (unfold pageSize; lia). lia. }
    match goal with
    | |- context [fetchAllPages fuel env ?a ?p ?o (?s2, ?w2)] =>
        destruct (IH p o a s2 w2) as (s' & w' & Hrun); [lia|lia|]
    end.
    exists s', w'. rewrite Hrun. do 2 f_equal. rewrite <- app_assoc. f_equal.
    unfold page. rewrite <- drop_drop. apply take_drop.
Qed.

(** At exactly [MAX_PAGES * pageSize] templates the capped loop still
    collects them all, but it ends on the cap, with the warning, instead
    of on a short page. *)
Example fetchAllPages_at_the_bound :
  let run := fetchAllPages (S MAX_PAGES)
               (holding (collectionOf (MAX_PAGES * pageSize))) [] 0 0
               (newSession, newWorld 0) in
  match fst run with
  | Ret allTemplates => length allTemplates = MAX_PAGES * pageSize
  | _ => False
  end
  /\ pageRequests (log (snd (snd run))) = MAX_PAGES
  /\ count isPageLimitWarning (log (snd (snd run))) = 1.
Proof. vm_compute. repeat split. Qed.


(* ===================================================================== *)
(** * Further properties of the code *)
(* ===================================================================== *)

(** ** The token caches after a refresh *)

(** What [authenticate] stores for a reply that carries a token. *)
Definition issuedClient (tok : string) (t1 : Z) (expires_in : option Z) : Client :=
  {| accessToken := Some tok;
     tokenExpiry :=
       Some match expires_in with
            | Some n => Js.Num (t1 + n * 1000)
            | None => Js.NaN
            end |}.

(** The world once the identity request made at [w] has been answered. *)
Definition answered (env : Env) (w : World) : World :=
  {| clock := (clock w + latency env)%Z; dirs := dirs w; files := files w;
     log := log w ++ [GetIdentity] |}.

Lemma authenticate_granted (env : Env) (c : Client) (w : World)
    (tok : string) (expires_in : option Z) :
  identity env (clock w)
  = Data (Some {| IdentityData.access_token := Some tok;
                  IdentityData.expires_in := expires_in |}) ->
  tok <> ""%string ->
  authenticate env (c, w)
  = (Ret (Some tok),
     (issuedClient tok (clock (answered env w)) expires_in, answered env w)).
Proof.
  intros Hid Htok.
  unfold authenticate, try_catch, bind, now, request, throw, ret, set_store.
  simpl. rewrite Hid. simpl. rewrite (Js.truthy_str_Some _ Htok). reflexivity.
Qed.

(** X1. A token obtained by [authenticate] at the instant [t1] with a
    time-to-live of [n] seconds is served from the cache, without any
    request, at every instant before [t1 + 1000 n - 5 min], and
    refreshed by one identity request at every instant from then on. *)
Theorem refreshed_token_window (env : Env) (c : Client) (w : World)
    (tok : string) (n : Z) :
  identity env (clock w)
  = Data (Some {| IdentityData.access_token := Some tok;
                  IdentityData.expires_in := Some n |}) ->
  tok <> ""%string ->
  exists c1 w1,
    authenticate env (c, w) = (Ret (Some tok), (c1, w1))
    /\ log w1 = log w ++ [GetIdentity]
    /\ (forall t,
          (t < clock w1 + n * 1000 - 5 * 60 * 1000)%Z ->
          getAccessToken env (c1, atTime w1 t)
          = (Ret (Some tok), (c1, atTime w1 t)))
    /\ (forall t,
          (clock w1 + n * 1000 - 5 * 60 * 1000 <= t)%Z ->
          exists o c' w',
            getAccessToken env (c1, atTime w1 t) = (o, (c', w'))
            /\ log w' = log w1 ++ [GetIdentity]).
Proof.
  intros Hid Htok.
  exists (issuedClient tok (clock (answered env w)) (Some n)), (answered env w).
  split; [apply authenticate_granted; assumption|].
  split; [reflexivity|].
  assert (Hstale : forall t,
    (clock (answered env w) + n * 1000 - 5 * 60 * 1000 <= t)%Z ->
    exists o c' w',
      getAccessToken env
        (issuedClient tok (clock (answered env w)) (Some n),
         atTime (answered env w) t) = (o, (c', w'))
      /\ log w' = log (answered env w) ++ [GetIdentity]).
  { intros t Ht.
    destruct (getAccessToken_refresh env
                (issuedClient tok (clock (answered env w)) (Some n))
                (atTime (answered env w) t)) as (o & c' & w' & Hrun & Hl).
    - cbn [tokenExpiry issuedClient Js.ge_minus atTime clock].
      rewrite Z.geb_leb. apply Z.leb_le. cbn [clock answered] in *. lia.
    - exists o, c', w'. split; [exact Hrun|exact Hl]. }
  split.
  - intros t Ht. apply (getAccessToken_cached env).
    + apply Js.truthy_str_Some, Htok.
    + cbn [tokenExpiry issuedClient Js.ge_minus atTime clock].
      rewrite Z.geb_leb. apply Z.leb_gt. cbn [clock answered] in *. lia.
  - exact Hstale.
Qed.

Lemma refreshed_token_window_witness :
  exists c1 w1,
    authenticate idleProvider (newClient, newWorld 1700000000000)
    = (Ret (Some "bearer"), (c1, w1))
    /\ log w1 = log (newWorld 1700000000000) ++ [GetIdentity]
    /\ (forall t,
          (t < clock w1 + 3600 * 1000 - 5 * 60 * 1000)%Z ->
          getAccessToken idleProvider (c1, atTime w1 t)
          = (Ret (Some "bearer"), (c1, atTime w1 t)))
    /\ (forall t,
          (clock w1 + 3600 * 1000 - 5 * 60 * 1000 <= t)%Z ->
          exists o c' w',
            getAccessToken idleProvider (c1, atTime w1 t) = (o, (c', w'))
            /\ log w' = log w1 ++ [GetIdentity]).
Proof.
  apply (refreshed_token_window idleProvider newClient (newWorld 1700000000000)
           "bearer" 3600).
  - reflexivity.
  - discriminate.
Defined.

(** An identity endpoint whose answer lacks [expires_in]. *)
Definition noTtlIdentity (t : Z) : Reply (option IdentityData.t) :=
  Data (Some {| IdentityData.access_token := Some "bearer";
                IdentityData.expires_in := None |}).

Definition noTtlProvider : Env :=
  {| identity := noTtlIdentity;
     emails := noEmails;
     contentJson := noContent;
     fullContentJson := fun _ => Data None;
     folderJson := noFolders;
     fsError := noFsError;
     latency := 20;
     MARKETO_CLIENT_ID := Some "client-id";
     MARKETO_CLIENT_SECRET := Some "client-secret";
     MARKETO_IDENTITY_URL := Some "https://example.mktorest.com/identity/oauth/token";
     MARKETO_REST_URL := Some "https://example.mktorest.com/rest";
     enhancedMarketoEmailHtml := fun html _ => html |}.

(** The cache test of [getMarketoAccessToken]. *)
Definition sessionFresh (session : Session) (t : Z) : bool :=
  Js.truthy_str (marketoAccessToken session)
  && Js.truthy_num (marketoTokenExpiry session)
  && (default 0 (marketoTokenExpiry session) >? t + TOKEN_EXPIRY_BUFFER_MS)%Z.

(** X2. When the identity answer carries a token but no [expires_in], the
    two caches part ways.  The library stores the token with a
    not-a-number expiry and from then on serves it from the cache at
    every instant, never asking again.  The session variant makes its
    one request, rejects the answer as lacking required fields and
    leaves the session as it was. *)
Theorem token_without_ttl (env : Env) (c : Client) (s : Session) (w : World)
    (tok : string) :
  identity env (clock w)
  = Data (Some {| IdentityData.access_token := Some tok;
                  IdentityData.expires_in := None |}) ->
  tok <> ""%string ->
  credentialsConfigured env = true ->
  sessionFresh s (clock w) = false ->
  (exists c1 w1,
     authenticate env (c, w) = (Ret (Some tok), (c1, w1))
     /\ forall t,
          getAccessToken env (c1, atTime w1 t)
          = (Ret (Some tok), (c1, atTime w1 t)))
  /\ getMarketoAccessToken env (s, w)
     = (Throw "Failed to authenticate with Marketo API: Marketo token response missing required fields.",
        (s, answered env w)).
Proof.
  intros Hid Htok Hcred Hstale. split.
  - exists (issuedClient tok (clock (answered env w)) None), (answered env w).
    split; [apply authenticate_granted; assumption|].
    intros t. apply (getAccessToken_cached env).
    + apply Js.truthy_str_Some, Htok.
    + reflexivity.
  - unfold credentialsConfigured in Hcred.
    apply andb_prop in Hcred as [Hcred Hurl].
    apply andb_prop in Hcred as [Hcid Hsecret].
    unfold sessionFresh in Hstale.
    unfold getMarketoAccessToken, bind, get_store, now, ret, request, throw.
    simpl. rewrite Hstale, Hcid, Hsecret, Hurl. simpl. rewrite Hid.
    reflexivity.
Qed.

Lemma token_without_ttl_witness :
  (exists c1 w1,
     authenticate noTtlProvider (newClient, newWorld 0)
     = (Ret (Some "bearer"), (c1, w1))
     /\ forall t,
          getAccessToken noTtlProvider (c1, atTime w1 t)
          = (Ret (Some "bearer"), (c1, atTime w1 t)))
  /\ getMarketoAccessToken noTtlProvider (newSession, newWorld 0)
     = (Throw "Failed to authenticate with Marketo API: Marketo token response missing required fields.",
        (newSession, answered noTtlProvider (newWorld 0))).
Proof.
  apply (token_without_ttl noTtlProvider newClient newSession (newWorld 0) "bearer").
  - reflexivity.
  - discriminate.
  - reflexivity.
  - reflexivity.
Defined.

(** ** The listing loops when the provider misbehaves *)

(** The endpoint answers the first [k] page requests with full pages
    [pages 0], ..., [pages (k - 1)]. *)
Definition servesFullPages (env : Env) (pages : nat -> list Template.t)
    (k : nat) : Prop :=
  forall i, i < k ->
    emails env (i * maxReturn)
    = Data (Some {| ListData.success := true;
                    ListData.result := Some (pages i) |})
    /\ length (pages i) = maxReturn.

(** The pages [from], ..., [from + n - 1], one after the other. *)
Definition pagesFrom (pages : nat -> list Template.t) (from n : nat)
  : list Template.t :=
  flat_map pages (seq from n).

(** The capped loop of the bulk download only throws on a rejected
    request: a malformed answer ends the listing with what was fetched. *)
Lemma fetchAllPages_tolerant (env : Env) (fuel : nat) :
  (forall offset, exists data, emails env offset = Data data) ->
  forall pageCount allTemplates offset s w,
    MAX_PAGES < fuel + pageCount ->
    pageCount <= MAX_PAGES ->
    exists allTemplates' s' w',
      fetchAllPages fuel env allTemplates pageCount offset (s, w)
      = (Ret allTemplates', (s', w')).
Proof.
  intros Hdata.
  induction fuel as [|fuel IH]; intros pageCount acc offset s w Hfuel Hcount;
    [lia|].
  - cbn [fetchAllPages].
    destruct (Nat.ltb_spec MAX_PAGES (S pageCount)) as [Hcap|Hcap].
    + eexists _, _, _. reflexivity.
    + unfold bind at 1, emit at 1. unfold bind at 1, request at 1.
      destruct (Hdata offset) as (data & Hreply). rewrite Hreply.
      destruct data as [[success [result|]]|];
        try (eexists _, _, _; reflexivity).
      unfold bind at 1, emit at 1.
      destruct (Nat.ltb_spec (length result) pageSize) as [Hshort|Hfull].
      * eexists _, _, _. reflexivity.
      * unfold bind at 1, sleep at 1. apply IH; lia.
Qed.

(** X3. Whatever the provider answers, the listing loop of
    [bulkExportTemplates] stops by itself after at most [MAX_PAGES] = 50
    page requests, and it throws only if a request is rejected: when
    every request is answered, however malformed the answers, it returns
    a (possibly partial) list. *)
Theorem bulk_listing_is_capped (env : Env) (s : Session) (w : World) :
  (exists o s' w',
     fetchAllPages (S MAX_PAGES) env [] 0 0 (s, w) = (o, (s', w'))
     /\ o <> Pending
     /\ pageRequests (log w') <= pageRequests (log w) + MAX_PAGES)
  /\ ((forall offset, exists data, emails env offset = Data data) ->
      exists allTemplates s' w',
        fetchAllPages (S MAX_PAGES) env [] 0 0 (s, w)
        = (Ret allTemplates, (s', w'))).
Proof.
  split.
  - destruct (fetchAllPages_bounded env (S MAX_PAGES) 0 [] 0 s w)
      as (o & s' & w' & Hrun & Hnp & Hreq); [lia|lia|].
    exists o, s', w'. repeat split; [exact Hrun|exact Hnp|lia].
  - intros Hdata. apply fetchAllPages_tolerant; [exact Hdata|lia|lia].
Qed.

(** X4. Below the cap the loop of [bulkExportTemplates] lists a finite
    collection in full: when the endpoint serves the slices of a
    collection of fewer than [MAX_PAGES * pageSize] = 10000 templates,
    the loop returns exactly that collection, in order. *)
Theorem bulk_listing_returns_collection (env : Env) (coll : list Template.t)
    (s : Session) (w : World) :
  servesCollection env coll ->
  length coll < MAX_PAGES * pageSize ->
  exists s' w',
    fetchAllPages (S MAX_PAGES) env [] 0 0 (s, w) = (Ret coll, (s', w')).
Proof.
  intros serves Hlen.
  assert (Hpages : length coll / pageSize < MAX_PAGES).
  { apply Nat.Div0.div_lt_upper_bound. unfold MAX_PAGES, pageSize in *. lia. }
  destruct (fetchAllPages_collection env coll (S MAX_PAGES) serves 0 0 [] s w)
    as (s' & w' & Hrun).
  - rewrite Nat.sub_0_r. lia.
  - rewrite Nat.sub_0_r. lia.
  - exists s', w'. exact Hrun.
Qed.

Lemma bulk_listing_returns_collection_witness :
  exists s' w',
    fetchAllPages (S MAX_PAGES) (holding (collectionOf 437)) [] 0 0
      (newSession, newWorld 0)
    = (Ret (collectionOf 437), (s', w')).
Proof.
  apply (bulk_listing_returns_collection (holding (collectionOf 437))
           (collectionOf 437) newSession (newWorld 0)).
  - apply holding_serves.
  - vm_compute. lia.
Defined.

Lemma bulk_listing_is_capped_witness :
  exists allTemplates s' w',
    fetchAllPages (S MAX_PAGES) endlessProvider [] 0 0 (newSession, newWorld 0)
    = (Ret allTemplates, (s', w')).
Proof.
  apply (proj2 (bulk_listing_is_capped endlessProvider newSession (newWorld 0))).
  intros offset. eexists. reflexivity.
Defined.

(** A provider that serves [k] full pages and then reports a failure. *)
Definition failureReply : Reply (option ListData.t) :=
  Data (Some {| ListData.success := false; ListData.result := None |}).

Definition failsAfter (k : nat) (offset : nat) : Reply (option ListData.t) :=
  if (offset <? k * maxReturn)%nat then alwaysFullPage offset else failureReply.

Definition failingProvider (k : nat) : Env :=
  provider (failsAfter k) noContent noFolders noFsError.

Lemma pagesFrom_snoc (pages : nat -> list Template.t) (from n : nat) :
  pagesFrom pages from (S n) = pages from ++ pagesFrom pages (S from) n.
Proof. reflexivity. Qed.

Section FullPages.

Variable env : Env.
Variable pages : nat -> list Template.t.
Variable k : nat.
Hypothesis serves : servesFullPages env pages k.

(** [n] turns of the library's loop over full pages. *)
Lemma getAllTemplates_loop_full_pages (progressCallback : bool) (n : nat) :
  identityGrants env ->
  forall from fuel acc c w,
    from + n <= k ->
    exists c' w',
      getAllTemplates_loop (n + fuel) env progressCallback acc
        (from * maxReturn) (c, w)
      = getAllTemplates_loop fuel env progressCallback
          (acc ++ pagesFrom pages from n) ((from + n) * maxReturn) (c', w').
Proof.
  intros granted.
  induction n as [|n IH]; intros from fuel acc c w Hk.
  - exists c, w. rewrite Nat.add_0_r. unfold pagesFrom. simpl.
    rewrite app_nil_r. reflexivity.
  - destruct (serves from) as (Hreply & Hlen); [lia|].
    destruct (getAccessToken_total env granted c w)
      as (tok & c1 & w1 & extra & Htok & _).
    cbn [Nat.add getAllTemplates_loop].
    rewrite (bind_Ret _ _ _ _ _ Htok).
    unfold bind at 1, request at 1. rewrite Hreply.
    cbn [ListData.success ListData.result negb].
    rewrite Hlen, Nat.ltb_irrefl.
    set (w2 := {| clock := (clock w1 + latency env)%Z; dirs := dirs w1;
                  files := files w1;
                  log := log w1 ++ [GetEmails (from * maxReturn)] |}).
    assert (Hcb : exists w3,
      (if progressCallback
       then emit (ProgressCount (length (acc ++ pages from)))
       else ret tt) (c1, w2) = (Ret tt, (c1, w3))).
    { destruct progressCallback; eexists; reflexivity. }
    destruct Hcb as (w3 & Hcb). rewrite (bind_Ret _ _ _ _ _ Hcb).
    destruct (IH (S from) fuel (acc ++ pages from) c1 w3) as (c' & w' & Hrun);
      [lia|].
    exists c', w'.
    replace (from * maxReturn + maxReturn) with (S from * maxReturn) by lia.
    rewrite Hrun, pagesFrom_snoc, app_assoc.
    replace (S from + n) with (from + S n) by lia. reflexivity.
Qed.

(** [n] turns of the capped loop over full pages. *)
Lemma fetchAllPages_full_pages (n : nat) :
  forall from fuel acc pageCount s w,
    from + n <= k ->
    pageCount + n <= MAX_PAGES ->
    exists s' w',
      fetchAllPages (n + fuel) env acc pageCount (from * pageSize) (s, w)
      = fetchAllPages fuel env (acc ++ pagesFrom pages from n) (pageCount + n)
          ((from + n) * pageSize) (s', w').
Proof.
  induction n as [|n IH]; intros from fuel acc pageCount s w Hk Hcap.
  - exists s, w. rewrite !Nat.add_0_r. unfold pagesFrom. simpl.
    rewrite app_nil_r. reflexivity.
  - destruct (serves from) as (Hreply & Hlen); [lia|].
    cbn [Nat.add fetchAllPages].
    destruct (Nat.ltb_spec MAX_PAGES (S pageCount)) as [Hover|_]; [lia|].
    unfold bind at 1, emit at 1. unfold bind at 1, request at 1.
    change pageSize with maxReturn. rewrite Hreply.
    unfold bind at 1, emit at 1. rewrite Hlen, Nat.ltb_irrefl.
    unfold bind at 1, sleep at 1.
    match goal with
    | |- context [fetchAllPages (n + fuel) env ?a ?p ?o (?s2, ?w2)] =>
        replace o with (S from * pageSize) by (unfold pageSize, maxReturn; lia);
        destruct (IH (S from) fuel a p s2 w2) as (s' & w' & Hrun); [lia|lia|]
    end.
    exists s', w'. rewrite Hrun, pagesFrom_snoc, app_assoc.
    replace (S from + n) with (from + S n) by lia.
    replace (S pageCount + n) with (pageCount + S n) by lia.
    reflexivity.
Qed.

End FullPages.

(** X5. A page that reports failure, after [k] full pages.  The
    library's [getAllTemplates] throws "Failed to fetch templates": the
    pages already fetched are lost to the caller.  The loop of
    [bulkExportTemplates] (for [k] below the cap, with a failure answer
    that carries no result array) does not throw: it writes the
    unexpected-format line and returns the [k] pages fetched so far. *)
Theorem listing_on_failing_page (env : Env) (pages : nat -> list Template.t)
    (k : nat) (progressCallback : bool) (c : Client) (s : Session) (w : World) :
  identityGrants env ->
  servesFullPages env pages k ->
  k < MAX_PAGES ->
  emails env (k * maxReturn) = failureReply ->
  (exists c' w',
     getAllTemplates (S k) env progressCallback (c, w)
     = (Throw "Failed to fetch templates", (c', w')))
  /\ (exists s' w',
        fetchAllPages (S MAX_PAGES) env [] 0 0 (s, w)
        = (Ret (pagesFrom pages 0 k), (s', w'))
        /\ last (log w') = Some (ResWrite (UnexpectedResponseFormat (S k)))).
Proof.
  intros granted serves Hk Hfail. split.
  - destruct (getAllTemplates_loop_full_pages env pages k serves
                progressCallback k granted 0 1 [] c w) as (c1 & w1 & Hrun);
      [lia|].
    cbn [Nat.mul Nat.add app] in Hrun.
    unfold getAllTemplates. replace (S k) with (k + 1) by lia. rewrite Hrun.
    destruct (getAccessToken_total env granted c1 w1)
      as (tok & c2 & w2 & extra & Htok & _).
    cbn [getAllTemplates_loop Nat.add].
    rewrite (bind_Ret _ _ _ _ _ Htok).
    unfold bind at 1, request at 1. rewrite Hfail. unfold failureReply.
    cbn [ListData.success negb]. eexists _, _. reflexivity.
  - destruct (fetchAllPages_full_pages env pages k serves k 0
                (S MAX_PAGES - k) [] 0 s w) as (s1 & w1 & Hrun); [lia|lia|].
    cbn [Nat.mul Nat.add app] in Hrun.
    replace (k + (S MAX_PAGES - k)) with (S MAX_PAGES) in Hrun by lia.
    rewrite Hrun.
    replace (S MAX_PAGES - k) with (S (MAX_PAGES - k)) by lia.
    cbn [fetchAllPages Nat.add app].
    destruct (Nat.ltb_spec MAX_PAGES (S k)) as [Hover|_]; [lia|].
    unfold bind at 1, emit at 1. unfold bind at 1, request at 1.
    change pageSize with maxReturn. rewrite Hfail. unfold failureReply.
    eexists _, _. split; [reflexivity|].
    cbn [log]. rewrite last_snoc. reflexivity.
Qed.

Lemma failingProvider_serves (k : nat) :
  servesFullPages (failingProvider k) (fun _ => fullPage) k.
Proof.
  intros i Hi. split; [|reflexivity].
  cbn [emails failingProvider provider]. unfold failsAfter.
  destruct (Nat.ltb_spec (i * maxReturn) (k * maxReturn)) as [_|Hge];
    [reflexivity|].
  apply (Nat.mul_lt_mono_pos_r maxReturn) in Hi; [lia|unfold maxReturn; lia].
Qed.

Lemma listing_on_failing_page_witness :
  (exists c' w',
     getAllTemplates 3 (failingProvider 2) true (newClient, newWorld 0)
     = (Throw "Failed to fetch templates", (c', w')))
  /\ (exists s' w',
        fetchAllPages (S MAX_PAGES) (failingProvider 2) [] 0 0
          (newSession, newWorld 0)
        = (Ret (pagesFrom (fun _ => fullPage) 0 2), (s', w'))
        /\ last (log w') = Some (ResWrite (UnexpectedResponseFormat 3))).
Proof.
  apply (listing_on_failing_page (failingProvider 2) (fun _ => fullPage) 2 true
           newClient newSession (newWorld 0)).
  - apply provider_grants.
  - apply failingProvider_serves.
  - vm_compute. lia.
  - reflexivity.
Defined.

(** ** Flattening: composition and emptiness *)

Lemma htmlFragments_app (a b : list Section.t) :
  htmlFragments (a ++ b) = htmlFragments a ++ htmlFragments b.
Proof. unfold htmlFragments. apply flat_map_app. Qed.

(** X6. Flattening distributes over concatenation: the HTML of two
    lists of sections put one after the other is the HTML of the first
    followed by the HTML of the second, for the library's
    [extractHtmlContent] and for the routes' loops with any separator. *)
Theorem flattening_distributes (a b : list Section.t) (sep : string) :
  extractHtmlContent (a ++ b) = extractHtmlContent a +:+ extractHtmlContent b
  /\ collectHtml sep (a ++ b) = collectHtml sep a +:+ collectHtml sep b.
Proof.
  change extractHtmlContent with (collectHtml nl).
  rewrite !collectHtml_fragments, htmlFragments_app, !terminatedBy_app.
  split; reflexivity.
Qed.

(** No section carries an HTML fragment. *)
Definition noHtml (sections : list Section.t) : Prop :=
  forall section, In section sections ->
    sectionIsHtml section = false
    /\ forall items, Section.value section = Some items ->
         forall item, In item items -> itemIsHtml item = false.

Lemma truthy_default_nonempty (s : option string) :
  Js.truthy_str s = true -> default "" s <> ""%string.
Proof.
  destruct s as [s|]; [|discriminate]. unfold Js.truthy_str. simpl.
  destruct (String.eqb_spec s ""); [discriminate|auto].
Qed.

Lemma itemFragments_nonempty (items : list Item.t) :
  Forall (fun fragment => fragment <> ""%string) (itemFragments items).
Proof.
  unfold itemFragments.
  induction items as [|item items IH]; simpl; [constructor|].
  destruct (itemIsHtml item) eqn:Hitem; [|exact IH].
  constructor; [|exact IH].
  unfold itemIsHtml in Hitem. destruct (Item.type item); [|discriminate].
  apply andb_prop in Hitem as [_ Hvalue].
  apply truthy_default_nonempty, Hvalue.
Qed.

Lemma htmlFragments_nonempty (sections : list Section.t) :
  Forall (fun fragment => fragment <> ""%string) (htmlFragments sections).
Proof.
  unfold htmlFragments.
  induction sections as [|section sections IH]; simpl; [constructor|].
  apply Forall_app. split; [|exact IH].
  unfold sectionFragments. apply Forall_app. split.
  - destruct (Section.value section); [apply itemFragments_nonempty|constructor].
  - destruct (sectionIsHtml section) eqn:Hsec; [|constructor].
    constructor; [|constructor].
    unfold sectionIsHtml in Hsec.
    destruct (Section.contentType section); [|discriminate].
    apply andb_prop in Hsec as [_ Hcontent].
    apply truthy_default_nonempty, Hcontent.
Qed.

Lemma itemFragments_nil (items : list Item.t) :
  itemFragments items = [] <->
  forall item, In item items -> itemIsHtml item = false.
Proof.
  unfold itemFragments.
  induction items as [|item items IH]; simpl.
  - split; [intros _ item []|reflexivity].
  - destruct (itemIsHtml item) eqn:Hitem; simpl.
    + split; [discriminate|].
      intros Hall. specialize (Hall item (or_introl eq_refl)). congruence.
    + rewrite IH. split.
      * intros Hall i [<-|Hi]; auto.
      * intros Hall i Hi. auto.
Qed.

Lemma htmlFragments_nil (sections : list Section.t) :
  htmlFragments sections = [] <-> noHtml sections.
Proof.
  unfold htmlFragments, noHtml.
  induction sections as [|section sections IH]; simpl.
  - split; [intros _ section []|reflexivity].
  - split.
    + intros Hnil. apply app_eq_nil in Hnil as [Hsec Hrest].
      unfold sectionFragments in Hsec. apply app_eq_nil in Hsec as [Hitems Hinline].
      intros sec [<-|Hin]; [|apply IH; assumption].
      split.
      * destruct (sectionIsHtml section); [discriminate|reflexivity].
      * intros items Hvalue. rewrite Hvalue in Hitems.
        apply itemFragments_nil, Hitems.
    + intros Hall.
      destruct (Hall section (or_introl eq_refl)) as [Hinline Hitems].
      assert (Hrest : flat_map sectionFragments sections = []).
      { apply IH. intros sec Hin. apply Hall. right. exact Hin. }
      rewrite Hrest, app_nil_r.
      unfold sectionFragments. rewrite Hinline, app_nil_r.
      destruct (Section.value section) as [items|]; [|reflexivity].
      apply itemFragments_nil, (Hitems items eq_refl).
Qed.

Lemma collectHtml_empty_iff (sections : list Section.t) (sep : string) :
  collectHtml sep sections = ""%string <-> noHtml sections.
Proof.
  rewrite collectHtml_fragments, <- htmlFragments_nil.
  pose proof (htmlFragments_nonempty sections) as Hne.
  destruct (htmlFragments sections) as [|f l]; [split; reflexivity|].
  split; [|discriminate].
  inversion Hne as [|? ? Hf _]; subst. simpl.
  destruct f; [contradiction|discriminate].
Qed.

Lemma collectHtml_length_test (sections : list Section.t) (sep : string) :
  (0 <? String.length (collectHtml sep sections))%nat = false
  <-> noHtml sections.
Proof.
  rewrite <- (collectHtml_empty_iff sections sep).
  destruct (collectHtml sep sections); simpl; split; auto; discriminate.
Qed.

(** X7. The flattened HTML is the empty string exactly when no section
    carries an HTML fragment (no item typed HTML with a non-empty value,
    no non-empty inline content of type html).  So the routes' test
    [collectedHtml.length > 0], and the library's [if (htmlContent)],
    hold exactly when some fragment was found. *)
Theorem flattening_empty_iff_no_html (sections : list Section.t) (sep : string) :
  (collectHtml sep sections = ""%string <-> noHtml sections)
  /\ (extractHtmlContent sections = ""%string <-> noHtml sections)
  /\ ((0 <? String.length (collectHtml sep sections))%nat = false
      <-> noHtml sections).
Proof.
  split; [apply collectHtml_empty_iff|].
  split; [apply (collectHtml_empty_iff sections nl)|].
  apply collectHtml_length_test.
Qed.

(** ** The content fallback chain of the routes *)

(** The full-content endpoint does not deliver: the request is rejected,
    the answer is empty or reports failure, or its result has no element. *)
Definition fullContentFails (env : Env) (emailId : Z) : bool :=
  match fullContentJson env emailId with
  | Rejected _ => true
  | Data None => true
  | Data (Some data) =>
      negb (FullContentData.success data)
      || match FullContentData.result data with
         | [] => true
         | _ :: _ => false
         end
  end.

Definition unavailableMessage (emailId : Z) : string :=
  "Could not retrieve HTML content for email ID " +:+ Js.show emailId
    +:+ " through any available API methods.".

(** The content requests of a log, in order. *)
Fixpoint contentRequests (l : list Event) : list Event :=
  match l with
  | [] => []
  | GetContent id :: l => GetContent id :: contentRequests l
  | GetFullContent id :: l => GetFullContent id :: contentRequests l
  | _ :: l => contentRequests l
  end.

Lemma contentRequests_app (l1 l2 : list Event) :
  contentRequests (l1 ++ l2) = contentRequests l1 ++ contentRequests l2.
Proof.
  induction l1 as [|ev l1 IH]; simpl; [reflexivity|].
  destruct ev; simpl; rewrite ?IH; reflexivity.
Qed.

Lemma contentRequests_auth (extra : list Event) :
  Forall (eq GetIdentity) extra -> contentRequests extra = [].
Proof.
  induction 1 as [|ev l Hev _ IH]; simpl; [reflexivity|].
  subst ev. exact IH.
Qed.

Section ContentChain.

Variable env : Env.
Variable emailId : Z.
Hypothesis granted : identityGrants env.
Hypothesis configured : credentialsConfigured env = true.
Hypothesis restUrl : Js.truthy_str (MARKETO_REST_URL env) = true.
Hypothesis validId : emailId <> 0%Z.

Lemma validId_eqb : (emailId =? 0)%Z = false.
Proof. apply Z.eqb_neq. exact validId. Qed.

(** Up to the answer of the full-content endpoint. *)
Lemma getCompleteEmailContent_start (s : Session) (w : World) :
  exists s1 w1,
    contentRequests (log w1) = contentRequests (log w) ++ [GetFullContent emailId]
    /\ getCompleteEmailContent env emailId (s, w)
       = match fullContentJson env emailId with
         | Data (Some data) =>
             if FullContentData.success data then
               match FullContentData.result data with
               | first :: _ => (Ret first, (s1, w1))
               | [] => fetchContentJsonBackup env emailId (s1, w1)
               end
             else fetchContentJsonBackup env emailId (s1, w1)
         | _ => fetchContentJsonBackup env emailId (s1, w1)
         end.
Proof.
  destruct (getMarketoAccessToken_total env granted s w configured)
    as (tok & s1 & w1 & extra & Htok & _ & _ & Hl & Hextra).
  eexists s1, _. split; [|
    unfold getCompleteEmailContent; rewrite restUrl, validId_eqb; cbn [negb];
    rewrite (bind_Ret _ _ _ _ _ Htok);
    unfold bind at 1, try_catch, bind at 1, request at 1;
    destruct (fullContentJson env emailId) as [err|[data|]];
      [reflexivity| |reflexivity];
    destruct (FullContentData.success data); [|reflexivity];
    destruct (FullContentData.result data); reflexivity].
  cbn [log]. rewrite Hl, !contentRequests_app, (contentRequests_auth _ Hextra).
  rewrite app_nil_r. reflexivity.
Qed.

Lemma fetchEmailHtmlContent_no_html (s : Session) (w : World)
    (data : ContentData.t) (sections : list Section.t) :
  contentJson env emailId = Data (Some data) ->
  ContentData.errors data = [] ->
  ContentData.result data = Some sections ->
  noHtml sections ->
  exists s' w',
    fetchEmailHtmlContent env emailId (s, w) = (Ret None, (s', w'))
    /\ contentRequests (log w') = contentRequests (log w) ++ [GetContent emailId].
Proof.
  intros Hreply Herrors Hresult Hnone.
  destruct (getMarketoAccessToken_total env granted s w configured)
    as (tok & s1 & w1 & extra & Htok & _ & _ & Hl & Hextra).
  unfold fetchEmailHtmlContent. rewrite restUrl, validId_eqb. cbn [negb].
  rewrite (bind_Ret _ _ _ _ _ Htok).
  unfold bind at 1, request at 1. rewrite Hreply, Herrors, Hresult.
  rewrite (proj2 (collectHtml_length_test sections sectionSeparator) Hnone).
  eexists _, _. split; [reflexivity|].
  cbn [log]. rewrite Hl, !contentRequests_app, (contentRequests_auth _ Hextra).
  rewrite app_nil_r. reflexivity.
Qed.

End ContentChain.

(** X8. [getCompleteEmailContent] prefers the full-content endpoint:
    when it answers with success and a non-empty result, the content of
    the first element is returned as it is and content.json is not
    requested at all. *)
Theorem getCompleteEmailContent_prefers_full_content
    (env : Env) (emailId : Z) (s : Session) (w : World)
    (data : FullContentData.t) (first : option string) (rest : list (option string)) :
  identityGrants env ->
  credentialsConfigured env = true ->
  Js.truthy_str (MARKETO_REST_URL env) = true ->
  emailId <> 0%Z ->
  fullContentJson env emailId = Data (Some data) ->
  FullContentData.success data = true ->
  FullContentData.result data = first :: rest ->
  exists s' w',
    getCompleteEmailContent env emailId (s, w) = (Ret first, (s', w'))
    /\ contentRequests (log w')
       = contentRequests (log w) ++ [GetFullContent emailId].
Proof.
  intros granted configured restUrl validId Hreply Hsuccess Hresult.
  destruct (getCompleteEmailContent_start env emailId granted configured
              restUrl validId s w) as (s1 & w1 & Hlog & Hrun).
  rewrite Hreply, Hsuccess, Hresult in Hrun.
  exists s1, w1. split; assumption.
Qed.

(** A provider whose full-content endpoint delivers. *)
Definition fullContentProvider : Env :=
  {| identity := goodIdentity;
     emails := noEmails;
     contentJson := refuseContent;
     fullContentJson :=
       fun _ => Data (Some {| FullContentData.success := true;
                              FullContentData.result := [Some "<html>full</html>"] |});
     folderJson := noFolders;
     fsError := noFsError;
     latency := 20;
     MARKETO_CLIENT_ID := Some "client-id";
     MARKETO_CLIENT_SECRET := Some "client-secret";
     MARKETO_IDENTITY_URL := Some "https://example.mktorest.com/identity/oauth/token";
     MARKETO_REST_URL := Some "https://example.mktorest.com/rest";
     enhancedMarketoEmailHtml := fun html _ => html |}.

Lemma getCompleteEmailContent_prefers_full_content_witness :
  exists s' w',
    getCompleteEmailContent fullContentProvider 7 (newSession, newWorld 0)
    = (Ret (Some "<html>full</html>"), (s', w'))
    /\ contentRequests (log w')
       = contentRequests (log (newWorld 0)) ++ [GetFullContent 7].
Proof.
  apply (getCompleteEmailContent_prefers_full_content fullContentProvider 7
           newSession (newWorld 0)
           {| FullContentData.success := true;
              FullContentData.result := [Some "<html>full</html>"] |}
           (Some "<html>full</html>") []).
  - intros t. exists "bearer", 3600%Z. split; [reflexivity|discriminate].
  - reflexivity.
  - reflexivity.
  - discriminate.
  - reflexivity.
  - reflexivity.
  - reflexivity.
Defined.

(** X9. When the full-content endpoint does not deliver,
    [getCompleteEmailContent] is decided by content.json.  A rejected
    request throws its message.  Errors reported by the provider are
    thrown as "Marketo API Error (code): message" of the first one,
    whatever else the answer holds.  Without errors, the fragments of the
    sections are returned, each followed by a blank line; when the
    sections hold no fragment the result is null, after content.json has
    been requested a second time; and an answer without a result array
    throws the could-not-retrieve message. *)
Theorem getCompleteEmailContent_falls_back
    (env : Env) (emailId : Z) (s : Session) (w : World) :
  identityGrants env ->
  credentialsConfigured env = true ->
  Js.truthy_str (MARKETO_REST_URL env) = true ->
  emailId <> 0%Z ->
  fullContentFails env emailId = true ->
  exists o s' w',
    getCompleteEmailContent env emailId (s, w) = (o, (s', w'))
    /\ (forall err,
          contentJson env emailId = Rejected err ->
          o = Throw (AxiosError.message err))
    /\ (forall data apiError others,
          contentJson env emailId = Data (Some data) ->
          ContentData.errors data = apiError :: others ->
          o = Throw (apiErrorMessage apiError)
          /\ contentRequests (log w')
             = contentRequests (log w)
               ++ [GetFullContent emailId; GetContent emailId])
    /\ (forall data sections,
          contentJson env emailId = Data (Some data) ->
          ContentData.errors data = [] ->
          ContentData.result data = Some sections ->
          ~ noHtml sections ->
          o = Ret (Some (collectHtml blankLine sections))
          /\ contentRequests (log w')
             = contentRequests (log w)
               ++ [GetFullContent emailId; GetContent emailId])
    /\ (forall data sections,
          contentJson env emailId = Data (Some data) ->
          ContentData.errors data = [] ->
          ContentData.result data = Some sections ->
          noHtml sections ->
          o = Ret None
          /\ contentRequests (log w')
             = contentRequests (log w)
               ++ [GetFullContent emailId; GetContent emailId; GetContent emailId])
    /\ (forall data,
          contentJson env emailId = Data (Some data) ->
          ContentData.errors data = [] ->
          ContentData.result data = None ->
          o = Throw (unavailableMessage emailId)).
Proof.
  intros granted configured restUrl validId Hfails.
  destruct (getCompleteEmailContent_start env emailId granted configured
              restUrl validId s w) as (s1 & w1 & Hlog & Hrun).
  assert (Hback : getCompleteEmailContent env emailId (s, w)
                  = fetchContentJsonBackup env emailId (s1, w1)).
  { rewrite Hrun. unfold fullContentFails in Hfails.
    destruct (fullContentJson env emailId) as [err|[data|]]; try reflexivity.
    destruct (FullContentData.success data); [|reflexivity].
    destruct (FullContentData.result data); [reflexivity|discriminate]. }
  rewrite Hback. clear Hrun Hback.
  unfold fetchContentJsonBackup. unfold bind at 1, request at 1.
  set (w2 := {| clock := (clock w1 + latency env)%Z; dirs := dirs w1;
                files := files w1; log := log w1 ++ [GetContent emailId] |}).
  assert (Hlog2 : contentRequests (log w2)
                  = contentRequests (log w)
                    ++ [GetFullContent emailId; GetContent emailId]).
  { cbn [log w2]. rewrite contentRequests_app, Hlog, <- app_assoc. reflexivity. }
  destruct (contentJson env emailId) as [err|[data|]] eqn:Hreply.
  - eexists _, _, _. split; [reflexivity|].
    repeat split; intros; simplify_eq; reflexivity.
  - destruct (ContentData.errors data) as [|apiError others] eqn:Herrors.
    + destruct (ContentData.result data) as [sections|] eqn:Hresult.
      * destruct (0 <? String.length (collectHtml blankLine sections))%nat
          eqn:Htest.
        -- eexists _, _, _. split; [reflexivity|].
           assert (Hsome : ~ noHtml sections).
           { intros Hnone.
             apply (collectHtml_length_test sections blankLine) in Hnone.
             congruence. }
           repeat split; intros; simplify_eq;
             try contradiction; try assumption; congruence.
        -- assert (Hnone : noHtml sections).
           { apply (collectHtml_length_test sections blankLine). exact Htest. }
           destruct (fetchEmailHtmlContent_no_html env emailId granted configured
                       restUrl validId s1 w2 data sections Hreply Herrors
                       Hresult Hnone) as (s' & w' & Hrun & Hlog3).
           exists (Ret None), s', w'. split; [exact Hrun|].
           repeat split; intros; simplify_eq;
             try contradiction; try reflexivity;
             try (rewrite Hlog3, Hlog2, <- app_assoc; reflexivity);
             congruence.
      * eexists _, _, _. split; [reflexivity|].
        repeat split; intros; simplify_eq; try reflexivity; congruence.
    + eexists _, _, _. split; [reflexivity|].
      repeat split; intros; simplify_eq; try assumption; try reflexivity;
        congruence.
  - eexists _, _, _. split; [reflexivity|].
    repeat split; intros; simplify_eq.
Qed.

Lemma getCompleteEmailContent_falls_back_witness :
  exists s' w',
    getCompleteEmailContent idleProvider 7 (newSession, newWorld 0)
    = (Ret None, (s', w'))
    /\ contentRequests (log w')
       = [GetFullContent 7; GetContent 7; GetContent 7].
Proof.
  destruct (getCompleteEmailContent_falls_back idleProvider 7 newSession
              (newWorld 0))
    as (o & s' & w' & Hrun & _ & _ & _ & Hnone & _).
  - apply provider_grants.
  - reflexivity.
  - reflexivity.
  - discriminate.
  - reflexivity.
  - destruct (Hnone {| ContentData.success := true; ContentData.errors := [];
                       ContentData.result := Some [] |} [])
      as (Ho & Hlog); try reflexivity.
    + intros section [].
    + subst o. exists s', w'. split; [exact Hrun|exact Hlog].
Defined.

(** ** What the library's [exportTemplate] leaves on disk *)

(** What [getTemplateContent] makes of the answer of content.json, once
    it holds a token. *)
Definition libraryContent (templateId : Z) (reply : Reply (option ContentData.t))
  : Outcome string :=
  match reply with
  | Rejected err => Throw (AxiosError.message err)
  | Data None => Throw "Cannot read properties of undefined (reading 'success')"
  | Data (Some data) =>
      if negb (ContentData.success data)
      then Throw ("Failed to fetch template content for ID " +:+ Js.show templateId)
      else
        match ContentData.result data with
        | None => Throw "contentSections is not iterable"
        | Some result => Ret (extractHtmlContent result)
        end
  end.

Lemma libraryContent_settles (templateId : Z) (reply : Reply (option ContentData.t)) :
  libraryContent templateId reply <> Pending.
Proof.
  unfold libraryContent. destruct reply as [err|[data|]]; try discriminate.
  destruct (negb (ContentData.success data)); [discriminate|].
  destruct (ContentData.result data); discriminate.
Qed.

Lemma getTemplateContent_run (env : Env) (templateId : Z) (c : Client) (w : World) :
  identityGrants env ->
  exists c1 w1,
    getTemplateContent env templateId (c, w)
    = (libraryContent templateId (contentJson env templateId), (c1, w1))
    /\ dirs w1 = dirs w /\ files w1 = files w.
Proof.
  intros granted.
  destruct (getAccessToken_total env granted c w)
    as (tok & c1 & w1 & extra & Htok & Hd & Hf & _).
  unfold getTemplateContent. rewrite (bind_Ret _ _ _ _ _ Htok).
  unfold bind, request, libraryContent.
  destruct (contentJson env templateId) as [err|[data|]];
    try (eexists _, _; split; [reflexivity|split; assumption]).
  destruct (negb (ContentData.success data));
    [eexists _, _; split; [reflexivity|split; assumption]|].
  destruct (ContentData.result data);
    eexists _, _; (split; [reflexivity|split; assumption]).
Qed.

(** The files left by one call of the library's [exportTemplate]. *)
Lemma exportTemplate_files (env : Env) (template : Template.t)
    (outputDir : string) (c : Client) (w : World) :
  identityGrants env ->
  (forall path, fsError env path = None) ->
  let templateDir := templateDirOf outputDir template in
  let base :=
    <[path_join templateDir "metadata.json" := MetadataJson template None]>
      (files w) in
  exists c' w',
    exportTemplate env template outputDir (c, w) = (Ret templateDir, (c', w'))
    /\ dirs w' = {[templateDir]} ∪ dirs w
    /\ files w'
       = match libraryContent (Template.id template)
                 (contentJson env (Template.id template)) with
         | Ret htmlContent =>
             if Js.truthy_str (Some htmlContent)
             then <[path_join templateDir
                      (Js.show (Template.id template) +:+ ".html")
                    := Html htmlContent]> base
             else base
         | Throw msg =>
             <[path_join templateDir "error.txt"
               := Text ("Error retrieving HTML content: " +:+ msg)]> base
         | Pending => base
         end.
Proof.
  intros granted Hfs templateDir base.
  unfold exportTemplate, mkdir, writeFile.
  unfold bind at 1. unfold bind at 1, emit at 1. rewrite Hfs.
  unfold bind at 1. unfold bind at 1, emit at 1. rewrite Hfs.
  unfold bind at 1, try_catch. unfold bind at 1.
  match goal with
  | |- context [getTemplateContent env ?i (?c0, ?w0)] =>
      destruct (getTemplateContent_run env i c0 w0 granted)
        as (c1 & w1 & Hrun & Hd & Hf);
      rewrite Hrun
  end.
  cbn [dirs files] in Hd, Hf.
  pose proof (libraryContent_settles (Template.id template)
                (contentJson env (Template.id template))) as Hsettles.
  destruct (libraryContent (Template.id template)
              (contentJson env (Template.id template))) as [html|msg|].
  - destruct (Js.truthy_str (Some html)).
    + unfold bind, emit, ret. rewrite Hfs. eexists _, _.
      split; [reflexivity|]. cbn [dirs files]. rewrite Hd, Hf. auto.
    + unfold ret. eexists _, _. split; [reflexivity|]. rewrite Hd, Hf. auto.
  - unfold bind, emit, ret. rewrite Hfs. eexists _, _.
    split; [reflexivity|]. cbn [dirs files]. rewrite Hd, Hf. auto.
  - contradiction.
Qed.

(** X10. With a working file system and tokens granted, the library's
    [exportTemplate] always returns the template's directory, and the
    files it leaves are exactly: metadata.json; next to it
    [<id>.html] with the flattened HTML when that is not empty, or
    error.txt with "Error retrieving HTML content: " and the message when
    the retrieval threw; and nothing but metadata.json when the content
    is the empty string.  No other file is touched. *)
Theorem exportTemplate_layout (env : Env) (template : Template.t)
    (outputDir : string) (c : Client) (w : World) :
  identityGrants env ->
  (forall path, fsError env path = None) ->
  let templateDir := templateDirOf outputDir template in
  let base :=
    <[path_join templateDir "metadata.json" := MetadataJson template None]>
      (files w) in
  exists c' w',
    exportTemplate env template outputDir (c, w) = (Ret templateDir, (c', w'))
    /\ dirs w' = {[templateDir]} ∪ dirs w
    /\ files w'
       = match libraryContent (Template.id template)
                 (contentJson env (Template.id template)) with
         | Ret htmlContent =>
             if Js.truthy_str (Some htmlContent)
             then <[path_join templateDir
                      (Js.show (Template.id template) +:+ ".html")
                    := Html htmlContent]> base
             else base
         | Throw msg =>
             <[path_join templateDir "error.txt"
               := Text ("Error retrieving HTML content: " +:+ msg)]> base
         | Pending => base
         end.
Proof.
  intros granted Hfs. apply exportTemplate_files; assumption.
Qed.

Lemma exportTemplate_layout_witness :
  let template := mkTemplate 7 "Promo Mail!" in
  let base :=
    <[path_join "out/template_7" "metadata.json" := MetadataJson template None]>
      (files (newWorld 0)) in
  exists c' w',
    exportTemplate contentFails template "out" (newClient, newWorld 0)
    = (Ret "out/template_7"%string, (c', w'))
    /\ dirs w' = {["out/template_7"%string]} ∪ dirs (newWorld 0)
    /\ files w'
       = <[path_join "out/template_7" "error.txt"
           := Text "Error retrieving HTML content: Failed to fetch template content for ID 7"]>
           base.
Proof.
  exact (exportTemplate_layout contentFails (mkTemplate 7 "Promo Mail!") "out"
           newClient (newWorld 0) (provider_grants _ _ _ _) (fun _ => eq_refl)).
Defined.

(** X11. The library names the directory of a template after its id
    alone: two templates share a directory exactly when they have the
    same id, whatever their names. *)
Theorem templateDirOf_same_iff_same_id (outputDir : string) (t1 t2 : Template.t) :
  templateDirOf outputDir t1 = templateDirOf outputDir t2
  <-> Template.id t1 = Template.id t2.
Proof.
  unfold templateDirOf, path_join, Js.show. split.
  - intros Heq.
    apply (String.app_inj outputDir) in Heq.
    apply (String.app_inj "/") in Heq.
    apply (String.app_inj "template_") in Heq.
    apply (inj pretty) in Heq. exact Heq.
  - intros ->. reflexivity.
Qed.

(** ** File names made from template names *)

(** A character that may appear in a sanitised name. *)
Definition isNameChar (c : ascii) : bool :=
  isWordChar c || (nat_of_ascii c =? 45)%nat.

Fixpoint allChars (p : ascii -> bool) (s : string) : bool :=
  match s with
  | EmptyString => true
  | String c s => p c && allChars p s
  end.

Lemma nameChar_not_space (c : ascii) : isNameChar c = true -> isSpaceChar c = false.
Proof.
  destruct c as [[] [] [] [] [] [] [] []]; vm_compute; intros H;
    first [reflexivity | discriminate H].
Qed.

Lemma nameChar_is_ascii (c : ascii) : isNameChar c = true -> nat_of_ascii c < 128.
Proof.
  destruct c as [[] [] [] [] [] [] [] []]; vm_compute; intros H;
    first [discriminate H | lia].
Qed.

Lemma spaceChar_is_ascii (c : ascii) : isSpaceChar c = true -> nat_of_ascii c < 128.
Proof.
  destruct c as [[] [] [] [] [] [] [] []]; vm_compute; intros H;
    first [discriminate H | lia].
Qed.

(** The first byte of a white space character beyond ASCII. *)
Lemma wideSpace2_lead (c1 c2 : ascii) :
  isWideSpace2 c1 c2 = true -> nat_of_ascii c1 = 194.
Proof.
  unfold isWideSpace2. intros H. apply andb_prop in H as [H _].
  apply Nat.eqb_eq, H.
Qed.

Lemma wideSpace3_lead (c1 c2 c3 : ascii) :
  isWideSpace3 c1 c2 c3 = true -> 224 < nat_of_ascii c1.
Proof.
  unfold isWideSpace3. intros H.
  repeat match type of H with
         | (_ || _)%bool = true => apply orb_prop in H as [H|H]
         end;
    repeat match type of H with
           | (_ && _)%bool = true => apply andb_prop in H as [H _]
           end;
    apply Nat.eqb_eq in H; lia.
Qed.

Lemma ascii_not_wide2 (c1 c2 : ascii) :
  nat_of_ascii c1 < 128 -> isWideSpace2 c1 c2 = false.
Proof.
  intros Hc. destruct (isWideSpace2 c1 c2) eqn:H; [|reflexivity].
  apply wideSpace2_lead in H. lia.
Qed.

Lemma ascii_not_wide3 (c1 c2 c3 : ascii) :
  nat_of_ascii c1 < 128 -> isWideSpace3 c1 c2 c3 = false.
Proof.
  intros Hc. destruct (isWideSpace3 c1 c2 c3) eqn:H; [|reflexivity].
  apply wideSpace3_lead in H. lia.
Qed.

Lemma lead_not_space (c : ascii) : 128 <= nat_of_ascii c -> isSpaceChar c = false.
Proof.
  intros Hc. destruct (isSpaceChar c) eqn:H; [|reflexivity].
  apply spaceChar_is_ascii in H. lia.
Qed.

Lemma wideSpace3_not_wide2 (c1 c2 c3 : ascii) :
  isWideSpace3 c1 c2 c3 = true -> isWideSpace2 c1 c2 = false.
Proof.
  intros H3. destruct (isWideSpace2 c1 c2) eqn:H2; [|reflexivity].
  apply wideSpace2_lead in H2. apply wideSpace3_lead in H3. lia.
Qed.

Lemma underscore_is_nameChar : isNameChar "_"%char = true.
Proof. reflexivity. Qed.

(** What [removeSpecial] leaves: name characters and white space, the
    white space beyond ASCII in whole characters. *)
Inductive kept : string -> Prop :=
| kept_nil : kept EmptyString
| kept_char (c : ascii) (s : string) :
    isNameChar c || isSpaceChar c = true -> kept s -> kept (String c s)
| kept_wide2 (c1 c2 : ascii) (s : string) :
    isWideSpace2 c1 c2 = true -> kept s -> kept (String c1 (String c2 s))
| kept_wide3 (c1 c2 c3 : ascii) (s : string) :
    isWideSpace3 c1 c2 c3 = true -> kept s ->
    kept (String c1 (String c2 (String c3 s))).

Lemma removeSpecial_kept (s : string) : kept (removeSpecial s).
Proof.
  assert (Hall : forall n s, String.length s <= n -> kept (removeSpecial s)).
  { clear s. induction n as [|n IH]; intros s Hlen.
    - destruct s; [apply kept_nil|simpl in Hlen; lia].
    - destruct s as [|c s1]; [apply kept_nil|]. cbn [String.length] in Hlen.
      cbn [removeSpecial].
      destruct (isWordChar c || isSpaceChar c || (nat_of_ascii c =? 45)%nat)
        eqn:Hkeep.
      + apply kept_char; [|apply IH; lia]. unfold isNameChar.
        destruct (isWordChar c), (isSpaceChar c), (nat_of_ascii c =? 45)%nat;
          simpl in *; congruence.
      + destruct s1 as [|c2 s2]; [apply kept_nil|].
        cbn [String.length] in Hlen.
        destruct (isWideSpace2 c c2) eqn:Hwide2;
          [apply kept_wide2; [exact Hwide2|apply IH; lia]|].
        destruct s2 as [|c3 s3]; [apply IH; simpl; lia|].
        cbn [String.length] in Hlen.
        destruct (isWideSpace3 c c2 c3) eqn:Hwide3;
          [apply kept_wide3; [exact Hwide3|apply IH; lia]|].
        apply IH. simpl. lia. }
  apply (Hall (String.length s)). lia.
Qed.

Lemma spaceRun_chars (inRun : bool) (rest : string) :
  allChars isNameChar rest = true ->
  allChars isNameChar (spaceRun inRun rest) = true.
Proof.
  intros Hrest. destruct inRun; cbn [spaceRun allChars];
    rewrite ?underscore_is_nameChar; exact Hrest.
Qed.

(** One step of [underscoreSpaces] on a character that is no white
    space and starts none. *)
Lemma underscoreSpaces_plain (c : ascii) (s : string) (inRun : bool) :
  isSpaceChar c = false ->
  nat_of_ascii c < 128 ->
  underscoreSpaces inRun (String c s) = String c (underscoreSpaces false s).
Proof.
  intros Hspace Hascii. cbn [underscoreSpaces]. rewrite Hspace.
  destruct s as [|c2 s2]; [reflexivity|].
  rewrite (ascii_not_wide2 c c2 Hascii).
  destruct s2 as [|c3 s3]; [reflexivity|].
  rewrite (ascii_not_wide3 c c2 c3 Hascii). reflexivity.
Qed.

Lemma underscoreSpaces_chars (s : string) :
  kept s ->
  forall inRun, allChars isNameChar (underscoreSpaces inRun s) = true.
Proof.
  induction 1 as [|c s Hc _ IH|c1 c2 s Hwide _ IH|c1 c2 c3 s Hwide _ IH];
    intros inRun.
  - reflexivity.
  - destruct (isSpaceChar c) eqn:Hspace.
    + cbn [underscoreSpaces]. rewrite Hspace. apply spaceRun_chars, IH.
    + rewrite orb_false_r in Hc.
      rewrite (underscoreSpaces_plain c s inRun Hspace
                 (nameChar_is_ascii c Hc)).
      cbn [allChars]. rewrite Hc, IH. reflexivity.
  - cbn [underscoreSpaces].
    rewrite lead_not_space by (rewrite (wideSpace2_lead c1 c2 Hwide); lia).
    rewrite Hwide. apply spaceRun_chars, IH.
  - cbn [underscoreSpaces].
    rewrite lead_not_space by (pose proof (wideSpace3_lead c1 c2 c3 Hwide); lia).
    rewrite (wideSpace3_not_wide2 c1 c2 c3 Hwide), Hwide.
    apply spaceRun_chars, IH.
Qed.

Lemma removeSpecial_clean (s : string) :
  allChars isNameChar s = true -> removeSpecial s = s.
Proof.
  induction s as [|c s IH]; intros Hall; [reflexivity|].
  cbn [allChars] in Hall. apply andb_prop in Hall as [Hc Hs].
  cbn [removeSpecial].
  replace (isWordChar c || isSpaceChar c || (nat_of_ascii c =? 45)%nat)
    with true.
  - rewrite (IH Hs). reflexivity.
  - unfold isNameChar in Hc.
    destruct (isWordChar c), (isSpaceChar c), (nat_of_ascii c =? 45)%nat;
      simpl in *; congruence.
Qed.

Lemma underscoreSpaces_clean (s : string) :
  allChars isNameChar s = true ->
  forall inRun, underscoreSpaces inRun s = s.
Proof.
  induction s as [|c s IH]; intros Hall inRun; [reflexivity|].
  cbn [allChars] in Hall. apply andb_prop in Hall as [Hc Hs].
  rewrite (underscoreSpaces_plain c s inRun (nameChar_not_space c Hc)
             (nameChar_is_ascii c Hc)).
  rewrite (IH Hs false). reflexivity.
Qed.

(** X12. The name [processTemplate] gives to a template's directory and
    HTML file is made of letters, digits, underscores and hyphens only:
    whatever the template is called, [sanitizeName] leaves no white
    space (within ASCII or beyond), no path separator and no other
    special character.  A name that already has this form is returned
    unchanged, so sanitising twice is the same as sanitising once. *)
Theorem sanitizeName_is_safe (name : string) :
  allChars isNameChar (sanitizeName name) = true
  /\ (allChars isNameChar name = true -> sanitizeName name = name)
  /\ sanitizeName (sanitizeName name) = sanitizeName name.
Proof.
  assert (Hsafe : forall s, allChars isNameChar (sanitizeName s) = true).
  { intros s. unfold sanitizeName.
    apply underscoreSpaces_chars, removeSpecial_kept. }
  assert (Hclean : forall s, allChars isNameChar s = true -> sanitizeName s = s).
  { intros s Hs. unfold sanitizeName.
    rewrite (removeSpecial_clean s Hs). apply underscoreSpaces_clean, Hs. }
  split; [apply Hsafe|]. split; [apply Hclean|]. apply Hclean, Hsafe.
Qed.

Lemma sanitizeName_is_safe_witness :
  allChars isNameChar (sanitizeName "Promo Mail!") = true
  /\ sanitizeName "Promo_Mail" = "Promo_Mail"%string
  /\ sanitizeName (sanitizeName "Promo Mail!") = sanitizeName "Promo Mail!".
Proof.
  destruct (sanitizeName_is_safe "Promo Mail!") as (Hsafe & _ & Hidem).
  destruct (sanitizeName_is_safe "Promo_Mail") as (_ & Hclean & _).
  split; [exact Hsafe|]. split; [|exact Hidem].
  apply Hclean. reflexivity.
Defined.

(** A name with a no-break space, an em space and an accented letter:
    the run of white space becomes one underscore, the accented letters
    go. *)
Example sanitizeName_beyond_ascii :
  sanitizeName
    ("Spring" +:+ String "194" (String "160" (String "226" (String "128"
       (String "131" ("Sale " +:+ String "195" (String "169" ("t"
          +:+ String "195" (String "169" "!")))))))))
  = "Spring_Sale_t"%string.
Proof. reflexivity. Qed.

(** ** The folder breadcrumb: requests and formatting *)

(** The folder ids a log asks for, in order. *)
Fixpoint folderRequests (l : list Event) : list Z :=
  match l with
  | [] => []
  | GetFolder id :: l => id :: folderRequests l
  | _ :: l => folderRequests l
  end.

Lemma folderRequests_app (l1 l2 : list Event) :
  folderRequests (l1 ++ l2) = folderRequests l1 ++ folderRequests l2.
Proof.
  induction l1 as [|ev l1 IH]; simpl; [reflexivity|].
  destruct ev; simpl; rewrite ?IH; reflexivity.
Qed.

Lemma folderRequests_auth (extra : list Event) :
  Forall (eq GetIdentity) extra -> folderRequests extra = [].
Proof.
  induction 1 as [|ev l Hev _ IH]; simpl; [reflexivity|].
  subst ev. exact IH.
Qed.

(** The ids looked up along a chain: the given one, then the parent
    named by each folder but the last. *)
Fixpoint lookedUp (folderId : option Z) (chain : list Folder.t) : list Z :=
  match chain with
  | [] => []
  | f :: up => default 0%Z folderId :: lookedUp (Folder.parent f) up
  end.

Section FolderRequests.

Variable env : Env.
Hypothesis granted : identityGrants env.
Hypothesis configured : credentialsConfigured env = true.

Lemma getFolderDetails_request (folderId : option Z) (s : Session) (w : World) :
  Js.truthy_num folderId = true ->
  exists s' w',
    getFolderDetails env folderId (s, w)
    = (Ret (folderAt env (default 0%Z folderId)), (s', w'))
    /\ folderRequests (log w')
       = folderRequests (log w) ++ [default 0%Z folderId].
Proof.
  intros Hid. unfold getFolderDetails. rewrite Hid. cbn [negb].
  destruct (getMarketoAccessToken_total env granted s w configured)
    as (tok & s1 & w1 & extra & Htok & _ & _ & Hl & Hextra).
  rewrite (bind_Ret _ _ _ _ _ Htok).
  unfold bind, request, ret. eexists _, _. split; [reflexivity|].
  cbn [log]. rewrite Hl, !folderRequests_app, (folderRequests_auth _ Hextra).
  rewrite app_nil_r. reflexivity.
Qed.

Lemma buildFolderPath_chain_requests (chain : list Folder.t) :
  forall folderId s w,
    chainFrom env folderId chain ->
    exists s' w',
      buildFolderPath (length chain) env folderId (s, w)
      = (Ret (rev chain), (s', w'))
      /\ folderRequests (log w')
         = folderRequests (log w) ++ lookedUp folderId chain.
Proof.
  induction chain as [|f up IH]; intros folderId s w Hchain; [contradiction|].
  destruct Hchain as (Hid & Hfound & Hup).
  destruct (getFolderDetails_request folderId s w Hid)
    as (s1 & w1 & Hrun & Hlog).
  cbn [length buildFolderPath lookedUp]. rewrite Hid. cbn [negb].
  rewrite (bind_Ret _ _ _ _ _ Hrun), Hfound.
  destruct up as [|g up'].
  - rewrite Hup. cbn [negb]. exists s1, w1. split; [reflexivity|exact Hlog].
  - destruct Hup as (Hparent & Hrest). rewrite Hparent. cbn [negb].
    destruct (IH (Folder.parent f) s1 w1 Hrest) as (s' & w' & Hrun' & Hlog').
    rewrite (bind_Ret _ _ _ _ _ Hrun'). exists s', w'.
    split; [reflexivity|]. rewrite Hlog', Hlog, <- app_assoc. reflexivity.
Qed.

End FolderRequests.

(** X13. Resolving a folder chain asks the folder endpoint once per
    folder of the chain, from the given folder up to the root, and
    nothing is remembered: the requests are the given id followed by the
    parent id named by each folder below the root, so a chain of [n]
    folders costs [n] requests on every resolution. *)
Theorem buildFolderPath_one_request_per_folder
    (env : Env) (chain : list Folder.t) (folderId : option Z)
    (s : Session) (w : World) :
  identityGrants env ->
  credentialsConfigured env = true ->
  chainFrom env folderId chain ->
  exists s' w',
    buildFolderPath (length chain) env folderId (s, w)
    = (Ret (rev chain), (s', w'))
    /\ folderRequests (log w') = folderRequests (log w) ++ lookedUp folderId chain
    /\ length (folderRequests (log w'))
       = length (folderRequests (log w)) + length chain
    /\ exists s'' w'',
         buildFolderPath (length chain) env folderId (s', w')
         = (Ret (rev chain), (s'', w''))
         /\ folderRequests (log w'')
            = folderRequests (log w) ++ lookedUp folderId chain
              ++ lookedUp folderId chain.
Proof.
  intros granted configured Hchain.
  destruct (buildFolderPath_chain_requests env granted configured chain
              folderId s w Hchain) as (s' & w' & Hrun & Hlog).
  destruct (buildFolderPath_chain_requests env granted configured chain
              folderId s' w' Hchain) as (s'' & w'' & Hrun' & Hlog').
  assert (Hlen : forall fid, length (lookedUp fid chain) = length chain).
  { clear. induction chain as [|f up IH]; intros fid; simpl; auto. }
  exists s', w'. split; [exact Hrun|]. split; [exact Hlog|]. split.
  - rewrite Hlog, length_app, Hlen. reflexivity.
  - exists s'', w''. split; [exact Hrun'|].
    rewrite Hlog', Hlog, <- app_assoc. reflexivity.
Qed.

Lemma buildFolderPath_one_request_per_folder_witness :
  exists s' w',
    buildFolderPath 4 fullChain (Some 4%Z) (newSession, newWorld 0)
    = (Ret (rev [folderA; folderB; folderC; folderRoot]), (s', w'))
    /\ folderRequests (log w')
       = folderRequests (log (newWorld 0))
         ++ lookedUp (Some 4%Z) [folderA; folderB; folderC; folderRoot]
    /\ length (folderRequests (log w'))
       = length (folderRequests (log (newWorld 0))) + 4
    /\ exists s'' w'',
         buildFolderPath 4 fullChain (Some 4%Z) (s', w')
         = (Ret (rev [folderA; folderB; folderC; folderRoot]), (s'', w''))
         /\ folderRequests (log w'')
            = folderRequests (log (newWorld 0))
              ++ lookedUp (Some 4%Z) [folderA; folderB; folderC; folderRoot]
              ++ lookedUp (Some 4%Z) [folderA; folderB; folderC; folderRoot].
Proof.
  apply (buildFolderPath_one_request_per_folder fullChain
           [folderA; folderB; folderC; folderRoot] (Some 4%Z)
           newSession (newWorld 0)).
  - apply provider_grants.
  - reflexivity.
  - simpl. repeat split; reflexivity.
Defined.

Lemma concat_snoc (sep : string) (l : list string) (x : string) :
  l <> [] ->
  String.concat sep (l ++ [x]) = String.concat sep l +:+ sep +:+ x.
Proof.
  induction l as [|a l IH]; intros Hne; [contradiction|].
  destruct l as [|b l].
  - reflexivity.
  - change (String.concat sep ((a :: b :: l) ++ [x]))
      with (a +:+ sep +:+ String.concat sep ((b :: l) ++ [x])).
    rewrite IH by discriminate.
    change (String.concat sep (a :: b :: l))
      with (a +:+ sep +:+ String.concat sep (b :: l)).
    rewrite !string_app_assoc. reflexivity.
Qed.

(** X14. The breadcrumb of a folder is the breadcrumb of its parent
    path followed by " > " and the folder's name: [formatFolderPath]
    agrees with the way [buildFolderPath] appends the folder to the path
    of its parent.  A path of a single folder is formatted as its
    name. *)
Theorem formatFolderPath_appends (parentPath : list Folder.t) (folder : Folder.t) :
  formatFolderPath (parentPath ++ [folder])
  = match parentPath with
    | [] => Folder.name folder
    | _ :: _ =>
        formatFolderPath parentPath +:+ " > " +:+ Folder.name folder
    end.
Proof.
  destruct parentPath as [|g path].
  - simpl. reflexivity.
  - unfold formatFolderPath. cbn [app].
    change (g :: path ++ [folder]) with ((g :: path) ++ [folder]).
    rewrite map_app. cbn [map]. apply concat_snoc. discriminate.
Qed.

(** ** The batched bulk export: accounting and error markers *)

(** The per-template lines of a response, in the order they were
    written: the id of the template and whether the line reports it as
    processed ([true]) or as failed ([false]). *)
Fixpoint itemOutcomes (l : list Event) : list (Z * bool) :=
  match l with
  | [] => []
  | ResWrite (ProcessedTemplate _ _ id) :: l => (id, true) :: itemOutcomes l
  | ResWrite (ErrorProcessingTemplate id _ _) :: l =>
      (id, false) :: itemOutcomes l
  | _ :: l => itemOutcomes l
  end.

Definition successes (outcomes : list (Z * bool)) : nat :=
  length (List.filter snd outcomes).

Definition failures (outcomes : list (Z * bool)) : nat :=
  length (List.filter (fun outcome => negb (snd outcome)) outcomes).

Lemma itemOutcomes_app (l1 l2 : list Event) :
  itemOutcomes (l1 ++ l2) = itemOutcomes l1 ++ itemOutcomes l2.
Proof.
  induction l1 as [|ev l1 IH]; [reflexivity|].
  destruct ev as [| | | | | | | | |line|]; simpl; try exact IH.
  destruct line; simpl; rewrite ?IH; reflexivity.
Qed.

Lemma outcomes_add_up (outcomes : list (Z * bool)) :
  successes outcomes + failures outcomes = length outcomes.
Proof.
  unfold successes, failures.
  induction outcomes as [|[id [|]] outcomes IH]; simpl; lia.
Qed.

Lemma ending_three (l : list Event) (a b c : Event) :
  ending 3 (((l ++ [a]) ++ [b]) ++ [c]) = [a; b; c].
Proof.
  unfold ending. rewrite <- !app_assoc. cbn [app].
  rewrite length_app. cbn [length].
  replace (length l + 3 - 3) with (length l) by lia.
  apply drop_app_length.
Qed.

Section Quiet.

Context {T : Type}.

(** [m] writes no per-template line. *)
Definition quiet {A} (m : M (T * World) A) : Prop :=
  forall s, itemOutcomes (log (snd (snd (m s)))) = itemOutcomes (log (snd s)).

Lemma quiet_ret {A} (a : A) : quiet (@ret (T * World) A a).
Proof. intros s. reflexivity. Qed.

Lemma quiet_throw {A} (msg : string) : quiet (@throw (T * World) A msg).
Proof. intros s. reflexivity. Qed.

Lemma quiet_pending {A} : quiet (@pending T A).
Proof. intros s. reflexivity. Qed.

Lemma quiet_now : quiet (@now T).
Proof. intros s. reflexivity. Qed.

Lemma quiet_get_store : quiet (@get_store T).
Proof. intros s. reflexivity. Qed.

Lemma quiet_set_store (t0 : T) : quiet (set_store t0).
Proof. intros s. reflexivity. Qed.

Lemma quiet_sleep (ms : Z) : quiet (@sleep T ms).
Proof. intros [t w]. reflexivity. Qed.

Lemma quiet_emit (ev : Event) : itemOutcomes [ev] = [] -> quiet (@emit T ev).
Proof.
  intros Hev [t w]. cbn [emit snd log]. rewrite itemOutcomes_app, Hev.
  apply app_nil_r.
Qed.

Lemma quiet_request (env : Env) (ev : Event) :
  itemOutcomes [ev] = [] -> quiet (@request T env ev).
Proof.
  intros Hev [t w]. cbn [request snd log]. rewrite itemOutcomes_app, Hev.
  apply app_nil_r.
Qed.

Lemma quiet_bind {A B} (m : M (T * World) A) (k : A -> M (T * World) B) :
  quiet m -> (forall a, quiet (k a)) -> quiet (bind m k).
Proof.
  intros Hm Hk s. unfold bind. specialize (Hm s).
  destruct (m s) as [[a|msg|] s1]; cbn [snd] in *; try exact Hm.
  rewrite Hk. exact Hm.
Qed.

Lemma quiet_try_catch {A} (m : M (T * World) A) (h : string -> M (T * World) A) :
  quiet m -> (forall msg, quiet (h msg)) -> quiet (try_catch m h).
Proof.
  intros Hm Hh s. unfold try_catch. specialize (Hm s).
  destruct (m s) as [[a|msg|] s1]; cbn [snd] in *; try exact Hm.
  rewrite Hh. exact Hm.
Qed.

Lemma quiet_mkdir (env : Env) (path : string) : quiet (@mkdir T env path).
Proof.
  intros [t w]. unfold mkdir, bind, emit.
  destruct (fsError env path); cbn [snd log];
    rewrite itemOutcomes_app; apply app_nil_r.
Qed.

Lemma quiet_writeFile (env : Env) (path : string) (data : File) :
  quiet (@writeFile T env path data).
Proof.
  intros [t w]. unfold writeFile, bind, emit.
  destruct (fsError env path); cbn [snd log];
    rewrite itemOutcomes_app; apply app_nil_r.
Qed.

End Quiet.

Create HintDb quiet.

#[local] Hint Resolve quiet_ret quiet_throw quiet_pending quiet_now
  quiet_get_store quiet_set_store quiet_sleep quiet_emit quiet_request
  quiet_mkdir quiet_writeFile : quiet.

#[local] Hint Extern 1 (itemOutcomes _ = []) => reflexivity : quiet.

(** Walks through a monadic term, splitting on what it branches on. *)
Ltac hush :=
  repeat first
    [ progress eauto with quiet
    | apply quiet_bind; [|intros]
    | apply quiet_try_catch; [|intros]
    | match goal with
      | |- quiet (match ?x with _ => _ end) => destruct x
      | |- quiet (let _ := _ in _) => cbv zeta
      end ].

Lemma getMarketoAccessToken_quiet (env : Env) : quiet (getMarketoAccessToken env).
Proof. unfold getMarketoAccessToken. hush. Qed.

Lemma getFolderDetails_quiet (env : Env) (folderId : option Z) :
  quiet (getFolderDetails env folderId).
Proof.
  unfold getFolderDetails. pose proof (getMarketoAccessToken_quiet env). hush.
Qed.

Lemma buildFolderPath_quiet (env : Env) (fuel : nat) :
  forall folderId, quiet (buildFolderPath fuel env folderId).
Proof.
  induction fuel as [|fuel IH]; intros folderId; cbn [buildFolderPath];
    [apply quiet_pending|].
  pose proof (getFolderDetails_quiet env folderId). hush.
Qed.

Lemma fetchEmailHtmlContent_quiet (env : Env) (emailId : Z) :
  quiet (fetchEmailHtmlContent env emailId).
Proof.
  unfold fetchEmailHtmlContent. pose proof (getMarketoAccessToken_quiet env).
  hush.
Qed.

Lemma fetchContentJsonBackup_quiet (env : Env) (emailId : Z) :
  quiet (fetchContentJsonBackup env emailId).
Proof.
  unfold fetchContentJsonBackup.
  pose proof (fetchEmailHtmlContent_quiet env emailId). hush.
Qed.

Lemma getCompleteEmailContent_quiet (env : Env) (emailId : Z) :
  quiet (getCompleteEmailContent env emailId).
Proof.
  unfold getCompleteEmailContent.
  pose proof (getMarketoAccessToken_quiet env).
  pose proof (fetchContentJsonBackup_quiet env emailId). hush.
Qed.

(** [processTemplate] writes files and makes requests; the lines of the
    response are left to its caller. *)
Lemma processTemplate_quiet (fuel : nat) (env : Env) (template : Template.t)
    (exportDir : string) :
  quiet (processTemplate fuel env template exportDir).
Proof.
  unfold processTemplate.
  pose proof (buildFolderPath_quiet env fuel).
  pose proof (getCompleteEmailContent_quiet env (Template.id template)).
  hush.
Qed.

Lemma fetchAllPages_quiet (env : Env) (fuel : nat) :
  forall allTemplates pageCount offset,
    quiet (fetchAllPages fuel env allTemplates pageCount offset).
Proof.
  induction fuel as [|fuel IH]; intros allTemplates pageCount offset;
    cbn [fetchAllPages]; [apply quiet_pending|].
  hush.
Qed.

Lemma createZipArchive_quiet (env : Env) (exportDir : string) :
  quiet (createZipArchive env exportDir).
Proof. unfold createZipArchive. hush. Qed.

(** What the listing loop returns depends on the answers of the list
    endpoint alone, not on the session or on what was logged before. *)
Lemma fetchAllPages_result (env : Env) (fuel : nat) :
  forall allTemplates pageCount offset s1 s2,
    fst (fetchAllPages fuel env allTemplates pageCount offset s1)
    = fst (fetchAllPages fuel env allTemplates pageCount offset s2).
Proof.
  induction fuel as [|fuel IH];
    intros allTemplates pageCount offset [t1 w1] [t2 w2]; [reflexivity|].
  cbn [fetchAllPages].
  destruct (MAX_PAGES <? S pageCount)%nat; [reflexivity|].
  unfold bind at 1 3, emit at 1 3. unfold bind at 1 3, request at 1 2.
  destruct (emails env offset) as [err|[[success [result|]]|]];
    try reflexivity.
  unfold bind at 1 3, emit at 1 3.
  destruct (length result <? pageSize)%nat; [reflexivity|].
  unfold bind at 1 2, sleep at 1 2. apply IH.
Qed.

(** A batch writes one line per template, and counts it as the line
    says. *)
Lemma processBatch_outcomes (fuel : nat) (env : Env) (exportDir : string)
    (total : nat) (batch : list Template.t) :
  forall c s,
    exists o s',
      processBatch fuel env exportDir total batch c s = (o, s')
      /\ match o with
         | Ret c' =>
             exists outcomes,
               itemOutcomes (log (snd s'))
               = itemOutcomes (log (snd s)) ++ outcomes
               /\ map fst outcomes = map Template.id batch
               /\ processedCount c' = processedCount c + length batch
               /\ successCount c' = successCount c + successes outcomes
               /\ errorCount c' = errorCount c + failures outcomes
         | Throw _ => False
         | Pending => True
         end.
Proof.
  induction batch as [|template rest IH]; intros c s.
  - exists (Ret c), s. split; [reflexivity|]. exists [].
    rewrite app_nil_r. cbn. repeat split; lia.
  - cbn [processBatch]. unfold bind at 1, try_catch, bind at 1.
    pose proof (processTemplate_quiet fuel env template exportDir s) as Hq.
    destruct (processTemplate fuel env template exportDir s)
      as [[b|msg|] [s1 w1]]; cbn [snd] in Hq.
    + unfold bind at 1, emit at 1, ret at 1.
      match goal with
      | |- context [processBatch fuel env exportDir total rest ?c2 ?s2] =>
          destruct (IH c2 s2) as (o & s' & Hrun & Hcount)
      end.
      exists o, s'. split; [exact Hrun|].
      destruct o as [c'|msg|]; [|exact Hcount|exact I].
      destruct Hcount as (outcomes & Hlines & Hids & Hp & Hs & He).
      exists ((Template.id template, true) :: outcomes).
      cbn [snd log] in Hlines. rewrite itemOutcomes_app, Hq in Hlines.
      cbn [itemOutcomes] in Hlines. rewrite <- app_assoc in Hlines.
      cbn [processedCount successCount errorCount] in Hp, Hs, He.
      unfold successes, failures in *. cbn.
      repeat split; [exact Hlines|f_equal; exact Hids|lia|lia|lia].
    + unfold bind at 1, emit at 1, ret at 1.
      match goal with
      | |- context [processBatch fuel env exportDir total rest ?c2 ?s2] =>
          destruct (IH c2 s2) as (o & s' & Hrun & Hcount)
      end.
      exists o, s'. split; [exact Hrun|].
      destruct o as [c'|msg'|]; [|exact Hcount|exact I].
      destruct Hcount as (outcomes & Hlines & Hids & Hp & Hs & He).
      exists ((Template.id template, false) :: outcomes).
      cbn [snd log] in Hlines. rewrite itemOutcomes_app, Hq in Hlines.
      cbn [itemOutcomes] in Hlines. rewrite <- app_assoc in Hlines.
      cbn [processedCount successCount errorCount] in Hp, Hs, He.
      unfold successes, failures in *. cbn.
      repeat split; [exact Hlines|f_equal; exact Hids|lia|lia|lia].
    + eexists _, _. split; [reflexivity|]. exact I.
Qed.

Lemma successes_app (a b : list (Z * bool)) :
  successes (a ++ b) = successes a + successes b.
Proof. unfold successes. rewrite List.filter_app, length_app. reflexivity. Qed.

Lemma failures_app (a b : list (Z * bool)) :
  failures (a ++ b) = failures a + failures b.
Proof. unfold failures. rewrite List.filter_app, length_app. reflexivity. Qed.

(** The batches from index [i] on write one line for every template
    from [i] on, whatever the batches they fall in. *)
Lemma processBatches_outcomes (fuel : nat) (env : Env) (exportDir : string)
    (allTemplates : list Template.t) (steps : nat) :
  forall i c s,
    exists o s',
      processBatches steps fuel env exportDir allTemplates i c s = (o, s')
      /\ match o with
         | Ret c' =>
             exists outcomes,
               itemOutcomes (log (snd s'))
               = itemOutcomes (log (snd s)) ++ outcomes
               /\ map fst outcomes = map Template.id (drop i allTemplates)
               /\ processedCount c'
                  = processedCount c + length (drop i allTemplates)
               /\ successCount c' = successCount c + successes outcomes
               /\ errorCount c' = errorCount c + failures outcomes
         | Throw _ => False
         | Pending => True
         end.
Proof.
  assert (Hdone : forall i c (s : Session * World),
            length allTemplates <= i ->
            exists outcomes,
              itemOutcomes (log (snd s)) = itemOutcomes (log (snd s)) ++ outcomes
              /\ map fst outcomes = map Template.id (drop i allTemplates)
              /\ processedCount c
                 = processedCount c + length (drop i allTemplates)
              /\ successCount c = successCount c + successes outcomes
              /\ errorCount c = errorCount c + failures outcomes).
  { intros i c s Hge. exists []. rewrite app_nil_r, drop_ge by exact Hge.
    cbn. repeat split; lia. }
  induction steps as [|steps IH]; intros i c s.
  - cbn [processBatches].
    destruct (Nat.ltb_spec i (length allTemplates)) as [Hlt|Hge].
    + eexists _, _. split; [reflexivity|exact I].
    + exists (Ret c), s. split; [reflexivity|]. apply Hdone, Hge.
  - cbn [processBatches].
    destruct (Nat.ltb_spec i (length allTemplates)) as [Hlt|Hge];
      [|exists (Ret c), s; split; [reflexivity|apply Hdone, Hge]].
    unfold bind at 1. destruct s as [s0 w0]. unfold emit at 1.
    unfold bind at 1.
    match goal with
    | |- context [processBatch fuel env exportDir ?t ?b c ?s1] =>
        destruct (processBatch_outcomes fuel env exportDir t b c s1)
          as (o1 & [s1' w1'] & Hbatch & Hcount1);
        rewrite Hbatch
    end.
    destruct o1 as [c1|msg|]; [|contradiction|];
      [|eexists _, _; split; [reflexivity|exact I]].
    destruct Hcount1 as (outcomes1 & Hlines1 & Hids1 & Hp1 & Hs1 & He1).
    cbn [snd log] in Hlines1. rewrite itemOutcomes_app in Hlines1.
    cbn [itemOutcomes] in Hlines1. rewrite app_nil_r in Hlines1.
    unfold bind at 1, sleep at 1. unfold bind at 1.
    match goal with
    | |- context [(if ?b then emit ?e else ret tt) ?s2] =>
        assert (Hsum : exists s3,
                  (if b then emit e else ret tt) s2 = (Ret tt, s3)
                  /\ itemOutcomes (log (snd s3)) = itemOutcomes (log w1'))
          by (destruct b; eexists; (split; [reflexivity|]);
              cbn [snd log]; rewrite ?itemOutcomes_app; cbn [itemOutcomes];
              rewrite ?app_nil_r; reflexivity);
        destruct Hsum as (s3 & Hsum & Hlines3); rewrite Hsum
    end.
    destruct (IH (i + BATCH_SIZE) c1 s3) as (o & s' & Hrun & Hcount).
    exists o, s'. split; [exact Hrun|].
    destruct o as [c'|msg|]; [|exact Hcount|exact I].
    destruct Hcount as (outcomes2 & Hlines2 & Hids2 & Hp2 & Hs2 & He2).
    exists (outcomes1 ++ outcomes2).
    assert (Hsplit : take BATCH_SIZE (drop i allTemplates)
                     ++ drop (i + BATCH_SIZE) allTemplates
                     = drop i allTemplates).
    { rewrite <- drop_drop. apply take_drop. }
    assert (Hlen : length (drop i allTemplates)
                   = length (take BATCH_SIZE (drop i allTemplates))
                     + length (drop (i + BATCH_SIZE) allTemplates)).
    { rewrite <- Hsplit at 1. apply length_app. }
    rewrite successes_app, failures_app, map_app, Hids1, Hids2, <- map_app,
      Hsplit.
    rewrite Hlines2, Hlines3, Hlines1, <- app_assoc.
    repeat split; lia.
Qed.

Lemma bulkExportTemplates_closing (fuel : nat) (env : Env)
    (exportDir : string) (s : Session * World) (s' : Session) (w' : World) :
  bulkExportTemplates fuel env exportDir s = (Ret tt, (s', w')) ->
  exists allTemplates outcomes,
    fst (fetchAllPages fuel env [] 0 0 s) = Ret allTemplates
    /\ itemOutcomes (log w') = itemOutcomes (log (snd s)) ++ outcomes
    /\ map fst outcomes = map Template.id allTemplates
    /\ successes outcomes + failures outcomes = length allTemplates
    /\ ending 3 (log w')
       = [ResWrite (ExportComplete (length allTemplates) (length allTemplates)
                      (successes outcomes) (failures outcomes));
          ResWrite DocumentEnd; ResEnd].
Proof.
  unfold bulkExportTemplates.
  unfold bind at 1.
  pose proof (quiet_mkdir (T := Session) env exportDir s) as Hq1.
  destruct (mkdir env exportDir s) as [[[]|msg|] [s1 w1]]; try discriminate.
  cbn [snd] in Hq1.
  unfold bind at 1, emit at 1. unfold bind at 1.
  match goal with
  | |- context [getMarketoAccessToken env ?s2] =>
      pose proof (getMarketoAccessToken_quiet env s2) as Hq2;
      destruct (getMarketoAccessToken env s2) as [[tok|msg|] [s3 w3]];
        try discriminate
  end.
  cbn [snd log] in Hq2. rewrite itemOutcomes_app in Hq2.
  cbn [itemOutcomes] in Hq2. rewrite app_nil_r in Hq2.
  unfold bind at 1, emit at 1. unfold bind at 1.
  match goal with
  | |- context [fetchAllPages fuel env [] 0 0 ?s4] =>
      pose proof (fetchAllPages_quiet env fuel [] 0 0 s4) as Hq3;
      pose proof (fetchAllPages_result env fuel [] 0 0 s s4) as Hsame;
      destruct (fetchAllPages fuel env [] 0 0 s4)
        as [[allTemplates|msg|] [s5 w5]]; try discriminate
  end.
  cbn [fst] in Hsame. cbn [snd log] in Hq3. rewrite itemOutcomes_app in Hq3.
  cbn [itemOutcomes] in Hq3. rewrite app_nil_r in Hq3.
  unfold bind at 1, emit at 1. unfold bind at 1, emit at 1. unfold bind at 1.
  match goal with
  | |- context [processBatches ?st fuel env exportDir allTemplates 0 ?c0 ?s6] =>
      destruct (processBatches_outcomes fuel env exportDir allTemplates st 0 c0 s6)
        as (o & [s7 w7] & Hrun & Hcount);
      rewrite Hrun
  end.
  destruct o as [c|msg|]; try discriminate.
  destruct Hcount as (outcomes & Hlines & Hids & Hp & Hs & He).
  cbn [snd log] in Hlines. rewrite !itemOutcomes_app in Hlines.
  cbn [itemOutcomes] in Hlines. rewrite !app_nil_r in Hlines.
  cbn [drop processedCount successCount errorCount Nat.add] in Hids, Hp, Hs, He.
  unfold bind at 1, emit at 1. unfold bind at 1.
  unfold createZipArchive, writeFile.
  unfold bind at 1. unfold bind at 1, emit at 1.
  destruct (fsError env (exportDir +:+ ".zip")) as [msg|]; [discriminate|].
  unfold ret at 1. unfold bind at 1, emit at 1. unfold bind, emit.
  intros Hend. injection Hend as <- <-.
  exists allTemplates, outcomes. cbn [log].
  split; [exact Hsame|].
  split.
  { rewrite !itemOutcomes_app. cbn [itemOutcomes]. rewrite !app_nil_r.
    rewrite Hlines, Hq3, Hq2, Hq1. reflexivity. }
  split; [exact Hids|].
  assert (Hsum : successes outcomes + failures outcomes = length allTemplates).
  { rewrite outcomes_add_up, <- (length_map fst), Hids, length_map.
    reflexivity. }
  split; [exact Hsum|].
  rewrite ending_three, Hp, Hs, He. reflexivity.
Qed.

(** X15. Whenever [bulkExportTemplates] returns, it has accounted for
    every template of the listing exactly once.  The per-template lines
    it wrote (one "processed" or "error" line each) carry the ids of
    the templates that the listing loop returned, each as often as the
    listing holds it; the completion block, the last thing written before
    the page is closed and the response ended, reports as processed and as
    total the number of templates listed, as successful the number of
    "processed" lines and as failed the number of "error" lines. *)
Theorem bulkExportTemplates_accounts_for_all (fuel : nat) (env : Env)
    (exportDir : string) (s : Session * World) :
  fst (bulkExportTemplates fuel env exportDir s) = Ret tt ->
  exists allTemplates outcomes,
    fst (fetchAllPages fuel env [] 0 0 s) = Ret allTemplates
    /\ itemOutcomes (log (snd (snd (bulkExportTemplates fuel env exportDir s))))
       = itemOutcomes (log (snd s)) ++ outcomes
    /\ map fst outcomes ≡ₚ map Template.id allTemplates
    /\ successes outcomes + failures outcomes = length allTemplates
    /\ ending 3 (log (snd (snd (bulkExportTemplates fuel env exportDir s))))
       = [ResWrite (ExportComplete (length allTemplates) (length allTemplates)
                      (successes outcomes) (failures outcomes));
          ResWrite DocumentEnd; ResEnd].
Proof.
  intros Hret.
  destruct (bulkExportTemplates fuel env exportDir s) as [o [s' w']] eqn:Hrun.
  simpl in Hret. subst o.
  destruct (bulkExportTemplates_closing fuel env exportDir s s' w' Hrun)
    as (allTemplates & outcomes & Hlist & Hlines & Hids & Hsum & Hend).
  exists allTemplates, outcomes. cbn [snd].
  repeat split; try assumption. rewrite Hids. reflexivity.
Qed.

Lemma bulkExportTemplates_accounts_for_all_witness :
  exists allTemplates outcomes,
    fst (fetchAllPages 2 batchOfFiveNamed [] 0 0 (newSession, newWorld 0))
    = Ret allTemplates
    /\ itemOutcomes (log (snd (snd (bulkExportTemplates 2 batchOfFiveNamed "out"
                                      (newSession, newWorld 0)))))
       = itemOutcomes (log (snd (newSession, newWorld 0))) ++ outcomes
    /\ map fst outcomes ≡ₚ map Template.id allTemplates
    /\ successes outcomes + failures outcomes = length allTemplates
    /\ ending 3 (log (snd (snd (bulkExportTemplates 2 batchOfFiveNamed "out"
                                  (newSession, newWorld 0)))))
       = [ResWrite (ExportComplete (length allTemplates) (length allTemplates)
                      (successes outcomes) (failures outcomes));
          ResWrite DocumentEnd; ResEnd].
Proof.
  apply (bulkExportTemplates_accounts_for_all 2 batchOfFiveNamed "out"
           (newSession, newWorld 0)).
  vm_compute. reflexivity.
Defined.

(** The run on five templates of which the third fails: the lines
    written and what the completion block reports. *)
Example bulkExportTemplates_five_outcomes :
  let run := bulkExportTemplates 2 batchOfFiveNamed "out"
               (newSession, newWorld 0) in
  itemOutcomes (log (snd (snd run)))
  = [(1, true); (2, true); (3, false); (4, true); (5, true)]%Z.
Proof. vm_compute. reflexivity. Qed.

Lemma buildFolderPath_never_throws (env : Env) (fuel : nat) :
  identityGrants env ->
  credentialsConfigured env = true ->
  forall folderId s w msg s',
    buildFolderPath fuel env folderId (s, w) <> (Throw msg, s').
Proof.
  intros granted configured.
  induction fuel as [|fuel IH]; intros folderId s w msg s'; [discriminate|].
  destruct (Js.truthy_num folderId) eqn:Hid.
  - destruct (buildFolderPath_step env granted configured fuel folderId s w Hid)
      as (s1 & w1 & Hstep).
    rewrite Hstep.
    destruct (folderAt env (default 0%Z folderId)) as [fd|]; [|discriminate].
    destruct (negb (Js.truthy_num (Folder.parent fd))); [discriminate|].
    unfold bind.
    destruct (buildFolderPath fuel env (Folder.parent fd) (s1, w1))
      as [[path|msg'|] s2] eqn:Hrec; try discriminate.
    exfalso. exact (IH _ _ _ _ _ Hrec).
  - cbn [buildFolderPath]. rewrite Hid. discriminate.
Qed.

Definition errorMarkerOf (exportDir : string) (template : Template.t) : string :=
  path_join
    (path_join exportDir
       (sanitizeName (Template.name template) +:+ "_"
          +:+ Js.show (Template.id template)))
    "error.txt".

Lemma processTemplate_throw_marker (fuel : nat) (env : Env)
    (template : Template.t) (exportDir : string)
    (s : Session * World) (msg : string) (s' : Session) (w' : World) :
  identityGrants env ->
  credentialsConfigured env = true ->
  (forall path, fsError env path = None) ->
  processTemplate fuel env template exportDir s = (Throw msg, (s', w')) ->
  files w' !! errorMarkerOf exportDir template
  = Some (Text ("Error retrieving HTML content: " +:+ msg)).
Proof.
  intros granted configured Hfs. destruct s as [s0 w0].
  unfold processTemplate, mkdir, writeFile.
  unfold bind at 1. unfold bind at 1, emit at 1. rewrite Hfs.
  unfold bind at 1.
  match goal with
  | |- context [match ?m ?st with _ => _ end] =>
      destruct (m st) as [[folderPath|msg0|] [s1 w1]] eqn:Hfolder
  end; [| |discriminate].
  - unfold bind at 1. unfold bind at 1, emit at 1. rewrite Hfs.
    unfold bind at 1. unfold bind at 1, emit at 1. rewrite Hfs.
    unfold bind at 1, try_catch. unfold bind at 1.
    match goal with
    | |- context [getCompleteEmailContent env ?i ?st] =>
        destruct (getCompleteEmailContent env i st)
          as [[htmlContent|msg0|] [s2 w2]]
    end; [| |discriminate].
    + destruct (Js.truthy_str htmlContent);
        unfold bind, emit; rewrite Hfs; discriminate.
    + unfold bind, emit, throw. rewrite Hfs.
      intros Hend. injection Hend as <- <- <-.
      cbn [files]. apply lookup_insert_eq.
  - exfalso. revert Hfolder.
    destruct (Template.folder template) as [folder|]; [|discriminate].
    destruct (Js.truthy_num (FolderRef.id folder)); [|discriminate].
    apply buildFolderPath_never_throws; assumption.
Qed.

(** X16. In the route, with a working file system and tokens granted,
    every failure that [processTemplate] reports for a template has its
    marker on disk: if it throws [msg], then error.txt in the template's
    directory holds "Error retrieving HTML content: " followed by that
    same [msg]. *)
Theorem processTemplate_failure_has_marker (fuel : nat) (env : Env)
    (template : Template.t) (exportDir : string)
    (s : Session * World) (msg : string) :
  identityGrants env ->
  credentialsConfigured env = true ->
  (forall path, fsError env path = None) ->
  fst (processTemplate fuel env template exportDir s) = Throw msg ->
  files (snd (snd (processTemplate fuel env template exportDir s)))
    !! errorMarkerOf exportDir template
  = Some (Text ("Error retrieving HTML content: " +:+ msg)).
Proof.
  intros granted configured Hfs Hthrow.
  destruct (processTemplate fuel env template exportDir s)
    as [o [s' w']] eqn:Hrun.
  simpl in Hthrow. subst o.
  apply (processTemplate_throw_marker fuel env template exportDir s msg s' w'
           granted configured Hfs Hrun).
Qed.

Lemma processTemplate_failure_has_marker_witness :
  files (snd (snd (processTemplate 1 contentFails (mkTemplate 7 "Promo Mail!")
                     "out" (newSession, newWorld 0))))
    !! errorMarkerOf "out" (mkTemplate 7 "Promo Mail!")
  = Some (Text ("Error retrieving HTML content: "
                +:+ "Could not retrieve HTML content for email ID 7 through any available API methods.")).
Proof.
  apply (processTemplate_failure_has_marker 1 contentFails
           (mkTemplate 7 "Promo Mail!") "out" (newSession, newWorld 0)).
  - apply provider_grants.
  - reflexivity.
  - intros path. reflexivity.
  - vm_compute. reflexivity.
Defined.

(** ** cli.js: the [export] command *)

(** How the command ends: the summary of a completed export (exit code
    0), or "Export failed: " with a message and exit code 1. *)
Inductive CliExit : Type :=
| Succeeded (results : ExportResult.t)
| Failed (message : string).

Definition requiredEnvVars (env : Env) : list (string * option string) :=
  [ ("MARKETO_CLIENT_ID"%string, MARKETO_CLIENT_ID env);
    ("MARKETO_CLIENT_SECRET"%string, MARKETO_CLIENT_SECRET env);
    ("MARKETO_IDENTITY_URL"%string, MARKETO_IDENTITY_URL env);
    ("MARKETO_REST_URL"%string, MARKETO_REST_URL env) ].

(** [requiredEnvVars.filter(varName => !process.env[varName])] *)
Definition missingVars (env : Env) : list string :=
  map fst (List.filter (fun v => negb (Js.truthy_str (snd v)))
             (requiredEnvVars env)).

(** The action of the [export] command, with the options [--output] and
    [--zip]. *)
Definition exportCommand (fuel : nat) (env : Env) (output : string) (zip : bool)
  : M (Client * World) CliExit :=
  try_catch
    (match missingVars env with
     | _ :: _ =>
         throw ("Missing required environment variables: "
                +:+ String.concat ", " (missingVars env))
     | [] =>
         set_store newClient ;;
         authenticate env ;;
         let* results := exportAllTemplates fuel env output true in
         (if zip then
            let* t := now in
            let zipPath :=
              path_join output ("marketo-templates-" +:+ Js.show t +:+ ".zip") in
            createArchive env output zipPath ;;
            ret tt
          else ret tt) ;;
         ret (Succeeded results)
     end)
    (fun msg => ret (Failed msg)).

Lemma authenticate_returns (env : Env) (c : Client) (w : World) :
  identityGrants env ->
  exists tok c' w',
    authenticate env (c, w) = (Ret tok, (c', w'))
    /\ dirs w' = dirs w /\ files w' = files w.
Proof.
  intros granted. destruct (granted (clock w)) as (tok & n & Hid & Htok).
  rewrite (authenticate_granted env c w tok (Some n) Hid Htok).
  eexists _, _, _. repeat split.
Qed.

Lemma exportAllTemplates_of_collection (env : Env) (coll : list Template.t)
    (outputDir : string) (progressCallback : bool) (s : Client * World) :
  identityGrants env ->
  servesCollection env coll ->
  exists r s',
    exportAllTemplates (S (length coll / maxReturn)) env outputDir
      progressCallback s = (Ret r, s')
    /\ ExportResult.total r = length coll
    /\ ExportResult.successful r + ExportResult.failed r = length coll
    /\ length (ExportResult.errors r) = ExportResult.failed r.
Proof.
  intros granted serves. destruct s as [c w].
  destruct (getAllTemplates_loop_collection env coll progressCallback granted
              serves (S (length coll / maxReturn)) 0 [] c w
              (pages_bound (length coll)))
    as (c1 & w1 & Hlist & _).
  unfold exportAllTemplates, getAllTemplates.
  rewrite (bind_Ret _ _ _ _ _ Hlist). cbn [app drop].
  destruct (exportAllTemplates_loop_total env outputDir progressCallback coll
              (freshResults (length coll)) (c1, w1))
    as (r & s' & later & extra & Hloop & Ht & He & Hf & Hs & _).
  unfold freshResults in Hloop. exists r, s'.
  split; [exact Hloop|]. simpl in *. rewrite He. repeat split; lia.
Qed.

(** X17. The exit status of the [export] command without [--zip].
    When a required environment variable is missing or empty, the
    command fails at once, naming the missing variables in the order of
    the list, before any request is made or any file written.  When all
    four are set, tokens are granted and the provider serves a finite
    collection, the command succeeds and its summary counts every
    template of the collection, as exported or as failed: templates that
    fail to export never make the command fail. *)
Theorem exportCommand_exit_status (env : Env) (output : string)
    (s : Client * World) :
  (forall fuel zip,
     missingVars env <> [] ->
     exportCommand fuel env output zip s
     = (Ret (Failed ("Missing required environment variables: "
                     +:+ String.concat ", " (missingVars env))), s))
  /\ (forall coll,
        missingVars env = [] ->
        identityGrants env ->
        servesCollection env coll ->
        exists r s',
          exportCommand (S (length coll / maxReturn)) env output false s
          = (Ret (Succeeded r), s')
          /\ ExportResult.total r = length coll
          /\ ExportResult.successful r + ExportResult.failed r = length coll
          /\ length (ExportResult.errors r) = ExportResult.failed r).
Proof.
  split.
  - intros fuel zip Hmissing. unfold exportCommand, try_catch.
    destruct (missingVars env) as [|v vs]; [contradiction|]. reflexivity.
  - intros coll Hnone granted serves. destruct s as [c w].
    unfold exportCommand, try_catch. rewrite Hnone.
    unfold bind at 1, set_store at 1. cbn [snd].
    destruct (authenticate_returns env newClient w granted)
      as (tok & c1 & w1 & Hauth & _).
    rewrite (bind_Ret _ _ _ _ _ Hauth).
    destruct (exportAllTemplates_of_collection env coll output true (c1, w1)
                granted serves) as (r & s' & Hrun & Htotal & Hsum & Herrors).
    rewrite (bind_Ret _ _ _ _ _ Hrun).
    exists r, s'. split; [reflexivity|]. auto.
Qed.

Lemma exportCommand_exit_status_witness :
  exists r s',
    exportCommand (S (length (collectionOf 5) / maxReturn)) batchOfFive "out"
      false (newClient, newWorld 0)
    = (Ret (Succeeded r), s')
    /\ ExportResult.total r = length (collectionOf 5)
    /\ ExportResult.successful r + ExportResult.failed r
       = length (collectionOf 5)
    /\ length (ExportResult.errors r) = ExportResult.failed r.
Proof.
  apply (proj2 (exportCommand_exit_status batchOfFive "out"
                  (newClient, newWorld 0)) (collectionOf 5)).
  - reflexivity.
  - apply provider_grants.
  - intros offset. reflexivity.
Defined.

(** X18. With [--zip] the [export] command never reports success.
    The archive step calls [createWriteStream] on the promise flavour of
    [fs], which has no such function; so even when all four variables are
    set and the whole collection has been exported, the command ends
    with "fs.createWriteStream is not a function" and exit code 1. *)
Theorem exportCommand_zip_always_fails (fuel : nat) (env : Env) (output : string)
    (s : Client * World) :
  (forall r s',
     exportCommand fuel env output true s <> (Ret (Succeeded r), s'))
  /\ (forall coll,
        missingVars env = [] ->
        identityGrants env ->
        servesCollection env coll ->
        exists s',
          exportCommand (S (length coll / maxReturn)) env output true s
          = (Ret (Failed "fs.createWriteStream is not a function"), s')).
Proof.
  split.
  - intros r s'. unfold exportCommand, try_catch.
    destruct (missingVars env) as [|v vs]; [|discriminate].
    unfold bind at 1, set_store at 1.
    unfold bind at 1.
    destruct (authenticate env (newClient, snd s)) as [[tok|msg|] s1];
      try discriminate.
    unfold bind at 1.
    destruct (exportAllTemplates fuel env output true s1) as [[res|msg|] s2];
      discriminate.
  - intros coll Hnone granted serves. destruct s as [c w].
    unfold exportCommand, try_catch. rewrite Hnone.
    unfold bind at 1, set_store at 1. cbn [snd].
    destruct (authenticate_returns env newClient w granted)
      as (tok & c1 & w1 & Hauth & _).
    rewrite (bind_Ret _ _ _ _ _ Hauth).
    destruct (exportAllTemplates_of_collection env coll output true (c1, w1)
                granted serves) as (r & [c2 w2] & Hrun & _).
    rewrite (bind_Ret _ _ _ _ _ Hrun).
    eexists. reflexivity.
Qed.

Lemma exportCommand_zip_always_fails_witness :
  exists s',
    exportCommand (S (length (collectionOf 5) / maxReturn)) batchOfFive "out"
      true (newClient, newWorld 0)
    = (Ret (Failed "fs.createWriteStream is not a function"), s').
Proof.
  apply (proj2 (exportCommand_zip_always_fails 1 batchOfFive "out"
                  (newClient, newWorld 0)) (collectionOf 5)).
  - reflexivity.
  - apply provider_grants.
  - intros offset. reflexivity.
Defined.

(** ** routes/marketo-export.js: the [/template-count] handler *)

(** Whatever the identity endpoint answers, [getMarketoAccessToken]
    settles and adds nothing to the log but identity requests. *)
Lemma getMarketoAccessToken_only_identity (env : Env) (s : Session) (w : World) :
  exists o s' w' extra,
    getMarketoAccessToken env (s, w) = (o, (s', w'))
    /\ o <> Pending
    /\ log w' = log w ++ extra
    /\ Forall (eq GetIdentity) extra.
Proof.
  unfold getMarketoAccessToken, bind, get_store, now, ret, request, throw,
    set_store.
  simpl.
  destruct (Js.truthy_str (marketoAccessToken s)
            && Js.truthy_num (marketoTokenExpiry s)
            && (default 0 (marketoTokenExpiry s)
                >? clock w + TOKEN_EXPIRY_BUFFER_MS)%Z).
  - eexists _, _, _, []. rewrite app_nil_r.
    repeat split; [discriminate|constructor].
  - destruct (negb (Js.truthy_str (MARKETO_CLIENT_ID env))
              || negb (Js.truthy_str (MARKETO_CLIENT_SECRET env))
              || negb (Js.truthy_str (MARKETO_IDENTITY_URL env))).
    + eexists _, _, _, []. rewrite app_nil_r.
      repeat split; [discriminate|constructor].
    + simpl.
      destruct (identity env (clock w)) as [err|[[tok [n|]]|]]; simpl;
        try (eexists _, _, _, [GetIdentity];
             repeat split; [discriminate|auto]).
      destruct (Js.truthy_str tok); simpl;
        eexists _, _, _, [GetIdentity]; repeat split; (discriminate || auto).
Qed.

Module TemplateCount.

(** [const MAX_PAGES = 100] of the handler. *)
Definition MAX_PAGES : nat := 100.

(** The variables of the handler's loop. *)
Record vars := {
  totalTemplates : nat;
  pageCount : nat;
  moreResults : bool;
  offset : nat;
  allTemplates : option (list Template.t)   (* [null] unless includeData *)
}.

(** The answer of the handler: status 200 with the counts, or status 500
    with a message. *)
Inductive response : Type :=
| Counted (totalTemplates pagesChecked : nat) (hasMore : bool)
    (templates : option (list Template.t))
| CountFailed (message : string).

(** The [while (moreResults && pageCount < MAX_PAGES)] loop; one unit of
    fuel per test of the condition. *)
Fixpoint loop (fuel : nat) (env : Env) (includeData : bool) (v : vars)
  : M (Session * World) vars :=
  match fuel with
  | O => pending
  | S fuel =>
      if moreResults v && (pageCount v <? MAX_PAGES)%nat then
        let pageCount := S (pageCount v) in
        request env (GetEmails (offset v)) ;;
        match emails env (offset v) with
        | Rejected err => throw (AxiosError.message err)
        | Data (Some {| ListData.result := Some result |}) =>
            let pageTemplates := length result in
            let totalTemplates := totalTemplates v + pageTemplates in
            let allTemplates :=
              if includeData
              then option_map (fun l => l ++ result) (allTemplates v)
              else allTemplates v in
            if (pageTemplates <? maxReturn)%nat then
              loop fuel env includeData
                {| totalTemplates := totalTemplates; pageCount := pageCount;
                   moreResults := false; offset := offset v;
                   allTemplates := allTemplates |}
            else
              loop fuel env includeData
                {| totalTemplates := totalTemplates; pageCount := pageCount;
                   moreResults := true; offset := offset v + maxReturn;
                   allTemplates := allTemplates |}
        | Data _ =>
            loop fuel env includeData
              {| totalTemplates := totalTemplates v; pageCount := pageCount;
                 moreResults := false; offset := offset v;
                 allTemplates := allTemplates v |}
        end
      else ret v
  end.

Definition start (includeData : bool) : vars :=
  {| totalTemplates := 0; pageCount := 0; moreResults := true; offset := 0;
     allTemplates := if includeData then Some [] else None |}.

(** [router.get('/template-count', ...)]: [includeData] is
    [req.query.includeData === 'true']. *)
Definition handler (env : Env) (includeData : bool)
  : M (Session * World) response :=
  if negb (Js.truthy_str (MARKETO_REST_URL env))
  then ret (CountFailed "Marketo REST API URL is not configured.")
  else
    try_catch
      (let* accessToken := getMarketoAccessToken env in
       let* v := loop (S (S MAX_PAGES)) env includeData (start includeData) in
       ret (Counted (totalTemplates v) (pageCount v) (moreResults v)
              (if includeData then allTemplates v else None)))
      (fun msg =>
         ret (CountFailed
                (if Js.truthy_str (Some msg) then msg
                 else "An unexpected error occurred while counting templates."))).

(** The list kept by the loop, when there is one, has as many elements
    as were counted. *)
Definition consistent (includeData : bool) (v : vars) : Prop :=
  if includeData
  then exists l, allTemplates v = Some l /\ length l = totalTemplates v
  else allTemplates v = None.

Lemma loop_invariant (env : Env) (includeData : bool) (fuel : nat) :
  forall v s w,
    MAX_PAGES < fuel + pageCount v ->
    pageCount v <= MAX_PAGES ->
    consistent includeData v ->
    exists o s' w',
      loop fuel env includeData v (s, w) = (o, (s', w'))
      /\ pageRequests (log w') + pageCount v
         <= pageRequests (log w) + MAX_PAGES
      /\ match o with
         | Ret v' =>
             pageRequests (log w') + pageCount v
             = pageRequests (log w) + pageCount v'
             /\ pageCount v' <= MAX_PAGES
             /\ consistent includeData v'
             /\ (moreResults v' = true -> pageCount v' = MAX_PAGES)
         | Throw _ => True
         | Pending => False
         end.
Proof.
  induction fuel as [|fuel IH]; intros v s w Hfuel Hcount Hcons; [lia|].
  cbn [loop].
  destruct (moreResults v) eqn:Hmore; cbn [andb].
  - destruct (Nat.ltb_spec (pageCount v) MAX_PAGES) as [Hlt|Hge].
    + unfold bind at 1, request at 1.
      assert (Hstep : forall v1,
        pageCount v1 = S (pageCount v) ->
        consistent includeData v1 ->
        exists o s' w',
          loop fuel env includeData v1
            (s, {| clock := (clock w + latency env)%Z; dirs := dirs w;
                   files := files w; log := log w ++ [GetEmails (offset v)] |})
          = (o, (s', w'))
          /\ pageRequests (log w') + pageCount v
             <= pageRequests (log w) + MAX_PAGES
          /\ match o with
             | Ret v' =>
                 pageRequests (log w') + pageCount v
                 = pageRequests (log w) + pageCount v'
                 /\ pageCount v' <= MAX_PAGES
                 /\ consistent includeData v'
                 /\ (moreResults v' = true -> pageCount v' = MAX_PAGES)
             | Throw _ => True
             | Pending => False
             end).
      { intros v1 Hpc Hcons1.
        match goal with
        | |- context [loop fuel env includeData v1 (s, ?w1)] =>
            destruct (IH v1 s w1) as (o & s' & w' & Hrun & Hreq & Hpost);
              [lia|lia|exact Hcons1|]
        end.
        exists o, s', w'. split; [exact Hrun|].
        cbn [log] in Hreq, Hpost. rewrite pageRequests_app in Hreq, Hpost.
        change (pageRequests [GetEmails (offset v)]) with 1 in Hreq, Hpost.
        split; [lia|].
        destruct o as [v'| |]; auto.
        destruct Hpost as (Hp & Hrest). split; [lia|exact Hrest]. }
      destruct (emails env (offset v)) as [err|[[success [result|]]|]].
      * eexists _, _, _. split; [reflexivity|]. cbn [log].
        rewrite pageRequests_app.
        change (pageRequests [GetEmails (offset v)]) with 1.
        split; [lia|exact I].
      * assert (Hcons1 : forall mr off,
          consistent includeData
            {| totalTemplates := totalTemplates v + length result;
               pageCount := S (pageCount v); moreResults := mr; offset := off;
               allTemplates :=
                 if includeData
                 then option_map (fun l => l ++ result) (allTemplates v)
                 else allTemplates v |}).
        { intros mr off. unfold consistent in *. destruct includeData.
          - destruct Hcons as (l & Hl & Hlen). cbn [allTemplates totalTemplates].
            rewrite Hl. exists (l ++ result). split; [reflexivity|].
            rewrite length_app. lia.
          - exact Hcons. }
        destruct (length result <? maxReturn)%nat; apply Hstep;
          try reflexivity; apply Hcons1.
      * apply Hstep; [reflexivity|]. unfold consistent in *.
        destruct includeData; exact Hcons.
      * apply Hstep; [reflexivity|]. unfold consistent in *.
        destruct includeData; exact Hcons.
    + exists (Ret v), s, w. split; [reflexivity|]. split; [lia|].
      repeat split; auto. intros _. lia.
  - exists (Ret v), s, w. split; [reflexivity|]. split; [lia|].
    repeat split; auto. congruence.
Qed.

(** X19. The [/template-count] handler always answers, after at most
    100 page requests, whatever the provider does: errors become a
    status 500 answer, never an exception.  In a status 200 answer
    [pagesChecked] is the number of page requests made; with
    [includeData] the list of templates has exactly [totalTemplates]
    elements, and without it there is no list; and [hasMore] is true only
    when the cap of 100 pages stopped the listing. *)
Theorem handler_answers (env : Env) (includeData : bool) (s : Session) (w : World) :
  exists resp s' w',
    handler env includeData (s, w) = (Ret resp, (s', w'))
    /\ pageRequests (log w') <= pageRequests (log w) + MAX_PAGES
    /\ match resp with
       | Counted total pagesChecked hasMore templates =>
           pageRequests (log w') = pageRequests (log w) + pagesChecked
           /\ (if includeData
               then exists l, templates = Some l /\ length l = total
               else templates = None)
           /\ (hasMore = true -> pagesChecked = MAX_PAGES)
       | CountFailed _ => True
       end.
Proof.
  unfold handler.
  destruct (negb (Js.truthy_str (MARKETO_REST_URL env))).
  - eexists _, s, w. split; [reflexivity|]. split; [lia|exact I].
  - unfold try_catch, bind at 1.
    destruct (getMarketoAccessToken_only_identity env s w)
      as (o & s1 & w1 & extra & Htok & Hnp & Hl & Hextra).
    assert (Hreq1 : pageRequests (log w1) = pageRequests (log w)).
    { rewrite Hl, pageRequests_app. unfold pageRequests at 2.
      rewrite (pageOffsets_auth _ Hextra). simpl. lia. }
    rewrite Htok.
    destruct o as [tok|msg|]; [| |contradiction].
    + unfold bind at 1.
      destruct (loop_invariant env includeData (S (S MAX_PAGES))
                  (start includeData) s1 w1)
        as (o2 & s2 & w2 & Hrun & Hreq & Hpost).
      { cbn [pageCount start]. lia. }
      { cbn [pageCount start]. lia. }
      { unfold consistent, start. destruct includeData; [|reflexivity].
        exists []. split; reflexivity. }
      rewrite Hrun. cbn [pageCount start] in Hreq, Hpost.
      destruct o2 as [v|msg|]; [| |contradiction].
      * eexists _, s2, w2. split; [reflexivity|]. split; [lia|].
        destruct Hpost as (Hp & _ & Hcons & Hmore).
        split; [lia|]. split; [|exact Hmore].
        unfold consistent in Hcons. destruct includeData; [exact Hcons|reflexivity].
      * eexists _, s2, w2. split; [reflexivity|]. split; [lia|exact I].
    + eexists _, s1, w1. split; [reflexivity|]. split; [lia|exact I].
Qed.

End TemplateCount.

(** ** Every template of a run gets its metadata file *)

(** The characters of a rendered integer. *)
Definition isDigitOrDash (c : ascii) : bool :=
  let n := nat_of_ascii c in
  ((48 <=? n) && (n <=? 57) || (n =? 45))%nat.

Lemma pretty_N_char_digit (d : N) : isDigitOrDash (pretty_N_char d) = true.
Proof.
  unfold pretty_N_char.
  repeat match goal with
         | |- context [match ?x with _ => _ end] => destruct x
         end; reflexivity.
Qed.

Lemma pretty_N_go_digits (x : N) :
  forall s,
    allChars isDigitOrDash s = true ->
    allChars isDigitOrDash (pretty_N_go x s) = true.
Proof.
  induction (N.lt_wf_0 x) as [x _ IH]. intros s Hs.
  destruct (N.eq_dec x 0%N) as [->|Hpos].
  - rewrite pretty_N_go_0. exact Hs.
  - rewrite pretty_N_go_step by lia. apply IH.
    + apply N.div_lt; lia.
    + cbn [allChars]. rewrite pretty_N_char_digit, Hs. reflexivity.
Qed.

Lemma show_digits (z : Z) : allChars isDigitOrDash (Js.show z) = true.
Proof.
  assert (Hn : forall n : N, allChars isDigitOrDash (pretty n) = true).
  { intros n. unfold pretty, pretty_N. destruct (decide (n = 0%N)).
    - reflexivity.
    - apply pretty_N_go_digits. reflexivity. }
  unfold Js.show, pretty, pretty_Z. destruct z as [|p|p].
  - reflexivity.
  - apply (Hn (Npos p)).
  - change (allChars isDigitOrDash (String "-" (pretty (Npos p))) = true).
    cbn [allChars]. rewrite (Hn (Npos p)). reflexivity.
Qed.

(** Two strings that agree up to and including the first slash. *)
Lemma slash_splits (a b r1 r2 : string) :
  allChars isDigitOrDash a = true ->
  allChars isDigitOrDash b = true ->
  a +:+ String "/" r1 = b +:+ String "/" r2 ->
  a = b /\ r1 = r2.
Proof.
  revert b. induction a as [|x a IH]; intros b Ha Hb Heq.
  - destruct b as [|y b].
    + simpl in Heq. injection Heq as ->. auto.
    + simpl in Heq. injection Heq as <- _.
      cbn [allChars] in Hb. discriminate.
  - destruct b as [|y b].
    + simpl in Heq. injection Heq as -> _.
      cbn [allChars] in Ha. discriminate.
    + simpl in Heq. injection Heq as -> Heq.
      cbn [allChars] in Ha, Hb.
      apply andb_prop in Ha as [_ Ha]. apply andb_prop in Hb as [_ Hb].
      destruct (IH b Ha Hb Heq) as [-> ->]. auto.
Qed.

(** A file of one template's directory is a file of another's only if
    the two templates have the same id, and then it has the same name. *)
Lemma template_paths_disjoint (outputDir : string) (t1 t2 : Template.t)
    (x1 x2 : string) :
  path_join (templateDirOf outputDir t1) x1
  = path_join (templateDirOf outputDir t2) x2 ->
  Template.id t1 = Template.id t2 /\ x1 = x2.
Proof.
  unfold templateDirOf, path_join. rewrite !string_app_assoc. intros Heq.
  apply (String.app_inj outputDir) in Heq.
  apply (String.app_inj "/") in Heq.
  apply (String.app_inj "template_") in Heq.
  apply slash_splits in Heq as [Hid Hx]; [|apply show_digits..].
  split; [|exact Hx]. apply (inj pretty). exact Hid.
Qed.

Definition metadataOf (outputDir : string) (template : Template.t) : string :=
  path_join (templateDirOf outputDir template) "metadata.json".

Section MetadataFiles.

Variable env : Env.
Variable outputDir : string.
Variable progressCallback : bool.
Hypothesis granted : identityGrants env.
Hypothesis fsWorks : forall path, fsError env path = None.

Lemma html_is_not_metadata (id : Z) :
  Js.show id +:+ ".html" <> "metadata.json"%string.
Proof.
  pose proof (show_digits id) as Hdigits.
  destruct (Js.show id) as [|ch rest]; [discriminate|].
  intros Heq. injection Heq as -> _. cbn [allChars] in Hdigits. discriminate.
Qed.

(** One export: the template's metadata is there afterwards, and the
    files of templates with another id are as before. *)
Lemma exportTemplate_metadata (template : Template.t) (c : Client) (w : World) :
  exists c' w',
    exportTemplate env template outputDir (c, w)
    = (Ret (templateDirOf outputDir template), (c', w'))
    /\ files w' !! metadataOf outputDir template
       = Some (MetadataJson template None)
    /\ forall other x,
         Template.id other <> Template.id template ->
         files w' !! path_join (templateDirOf outputDir other) x
         = files w !! path_join (templateDirOf outputDir other) x.
Proof.
  destruct (exportTemplate_files env template outputDir c w granted fsWorks)
    as (c' & w' & Hrun & _ & Hfiles).
  exists c', w'. split; [exact Hrun|]. rewrite Hfiles. clear Hrun Hfiles.
  assert (Hother : forall other x y,
            Template.id other <> Template.id template ->
            path_join (templateDirOf outputDir template) y
            <> path_join (templateDirOf outputDir other) x).
  { intros other x y Hne Heq.
    apply template_paths_disjoint in Heq as [Hid _]. congruence. }
  assert (Hhtml : path_join (templateDirOf outputDir template)
                    (Js.show (Template.id template) +:+ ".html")
                  <> metadataOf outputDir template).
  { intros Heq. apply template_paths_disjoint in Heq as [_ Hx].
    exact (html_is_not_metadata _ Hx). }
  assert (Herr : path_join (templateDirOf outputDir template) "error.txt"
                 <> metadataOf outputDir template).
  { intros Heq. apply template_paths_disjoint in Heq as [_ Hx]. discriminate. }
  destruct (libraryContent (Template.id template)
              (contentJson env (Template.id template))) as [html|msg|].
  - destruct (Js.truthy_str (Some html)).
    + split.
      * rewrite lookup_insert_ne by exact Hhtml. apply lookup_insert_eq.
      * intros other x Hne.
        rewrite !lookup_insert_ne by (apply Hother; exact Hne). reflexivity.
    + split; [apply lookup_insert_eq|].
      intros other x Hne.
      rewrite lookup_insert_ne by (apply Hother; exact Hne). reflexivity.
  - split.
    + rewrite lookup_insert_ne by exact Herr. apply lookup_insert_eq.
    + intros other x Hne.
      rewrite !lookup_insert_ne by (apply Hother; exact Hne). reflexivity.
  - split; [apply lookup_insert_eq|].
    intros other x Hne.
    rewrite lookup_insert_ne by (apply Hother; exact Hne). reflexivity.
Qed.

Lemma afterProgress_files (results : ExportResult.t) (s : Client * World) :
  files (snd (afterProgress progressCallback results s)) = files (snd s).
Proof. unfold afterProgress. destruct progressCallback; reflexivity. Qed.

Lemma exportAllTemplates_loop_metadata (templates : list Template.t) :
  forall results s,
    NoDup (map Template.id templates) ->
    exists r s',
      exportAllTemplates_loop env outputDir progressCallback templates results s
      = (Ret r, s')
      /\ ExportResult.failed r = ExportResult.failed results
      /\ ExportResult.errors r = ExportResult.errors results
      /\ ExportResult.successful r
         = ExportResult.successful results + length templates
      /\ (forall t, In t templates ->
            files (snd s') !! metadataOf outputDir t
            = Some (MetadataJson t None))
      /\ (forall other x,
            ~ In (Template.id other) (map Template.id templates) ->
            files (snd s') !! path_join (templateDirOf outputDir other) x
            = files (snd s) !! path_join (templateDirOf outputDir other) x).
Proof.
  induction templates as [|template rest IH]; intros results s Hnodup.
  - exists results, s. simpl. repeat split; auto; try lia; try contradiction.
  - apply NoDup_cons in Hnodup as [Hfresh Hnodup]. destruct s as [c w].
    destruct (exportTemplate_metadata template c w)
      as (c1 & w1 & Hrun & Hmeta & Hframe).
    pose proof (body_run env outputDir progressCallback template results
                  _ _ _ Hrun) as Hbody. cbn iota in Hbody.
    cbn [exportAllTemplates_loop]. rewrite (bind_Ret _ _ _ _ _ Hbody).
    destruct (IH (recordSuccess results)
                (afterProgress progressCallback (recordSuccess results) (c1, w1))
                Hnodup)
      as (r & s' & Hloop & Hf & He & Hs & Hall & Hrest).
    exists r, s'. split; [exact Hloop|]. simpl in Hf, He, Hs.
    assert (Hin : forall t, In t rest ->
                    In (Template.id t) (map Template.id rest)).
    { intros t Ht. apply in_map. exact Ht. }
    repeat split; auto; try (cbn [length]; lia).
    + intros t [<-|Ht]; [|apply Hall; exact Ht].
      unfold metadataOf. rewrite Hrest.
      * rewrite afterProgress_files. exact Hmeta.
      * rewrite list_elem_of_In in Hfresh. exact Hfresh.
    + intros other x Hnot. cbn [map] in Hnot.
      rewrite Hrest by (intros Hin'; apply Hnot; right; exact Hin').
      rewrite afterProgress_files. cbn [snd]. apply Hframe.
      intros Heq. apply Hnot. left. symmetry. exact Heq.
Qed.

End MetadataFiles.

(** X20. A run of [exportAllTemplates] over a collection with pairwise
    distinct ids, with a working file system and tokens granted, leaves
    the metadata file of every template of the collection on disk,
    holding that template: no export overwrites the metadata of another
    template, whatever the content endpoint answers. *)
Theorem exportAllTemplates_writes_every_metadata (env : Env)
    (coll : list Template.t) (outputDir : string) (progressCallback : bool)
    (s : Client * World) :
  identityGrants env ->
  (forall path, fsError env path = None) ->
  servesCollection env coll ->
  NoDup (map Template.id coll) ->
  exists r s',
    exportAllTemplates (S (length coll / maxReturn)) env outputDir
      progressCallback s = (Ret r, s')
    /\ ExportResult.total r = length coll
    /\ forall t, In t coll ->
         files (snd s') !! metadataOf outputDir t = Some (MetadataJson t None).
Proof.
  intros granted fsWorks serves Hnodup. destruct s as [c w].
  destruct (getAllTemplates_loop_collection env coll progressCallback granted
              serves (S (length coll / maxReturn)) 0 [] c w
              (pages_bound (length coll)))
    as (c1 & w1 & Hlist & _).
  unfold exportAllTemplates, getAllTemplates.
  rewrite (bind_Ret _ _ _ _ _ Hlist). cbn [app drop].
  destruct (exportAllTemplates_loop_metadata env outputDir progressCallback
              granted fsWorks coll (freshResults (length coll)) (c1, w1) Hnodup)
    as (r & s' & Hloop & _ & _ & _ & Hall & _).
  unfold freshResults in Hloop. exists r, s'. split; [exact Hloop|].
  split; [|exact Hall].
  destruct (exportAllTemplates_loop_total env outputDir progressCallback coll
              (freshResults (length coll)) (c1, w1))
    as (r2 & s2 & later & extra & Hloop2 & Ht & _).
  unfold freshResults in Hloop2. rewrite Hloop in Hloop2.
  injection Hloop2 as <- _. exact Ht.
Qed.

Lemma collectionOf_ids (n : nat) :
  map Template.id (collectionOf n) = map Z.of_nat (seq 1 n).
Proof. unfold collectionOf. rewrite map_map. reflexivity. Qed.

Lemma exportAllTemplates_writes_every_metadata_witness :
  exists r s',
    exportAllTemplates (S (length (collectionOf 5) / maxReturn))
      (holding (collectionOf 5)) "out" true (newClient, newWorld 0)
    = (Ret r, s')
    /\ ExportResult.total r = length (collectionOf 5)
    /\ forall t, In t (collectionOf 5) ->
         files (snd s') !! metadataOf "out" t = Some (MetadataJson t None).
Proof.
  apply (exportAllTemplates_writes_every_metadata (holding (collectionOf 5))
           (collectionOf 5) "out" true (newClient, newWorld 0)).
  - apply provider_grants.
  - intros path. reflexivity.
  - apply holding_serves.
  - rewrite collectionOf_ids. apply NoDup_fmap_2; [|apply NoDup_seq].
    intros a b Hab. apply Nat2Z.inj. exact Hab.
Defined.

Lemma exportAllTemplates_loop_never_fails (env : Env) (outputDir : string)
    (progressCallback : bool) (templates : list Template.t) :
  (forall path, fsError env path = None) ->
  forall results s,
    exists r s',
      exportAllTemplates_loop env outputDir progressCallback templates results s
      = (Ret r, s')
      /\ ExportResult.total r = ExportResult.total results
      /\ ExportResult.failed r = ExportResult.failed results
      /\ ExportResult.errors r = ExportResult.errors results
      /\ ExportResult.successful r
         = ExportResult.successful results + length templates.
Proof.
  intros fsWorks.
  induction templates as [|template rest IH]; intros results s.
  - exists results, s. simpl. repeat split; auto.
  - destruct s as [c w].
    destruct (exportTemplate_returns_when_fs_works env template outputDir c w
                fsWorks) as (c1 & w1 & Hrun).
    pose proof (body_run env outputDir progressCallback template results
                  _ _ _ Hrun) as Hbody. cbn iota in Hbody.
    cbn [exportAllTemplates_loop]. rewrite (bind_Ret _ _ _ _ _ Hbody).
    destruct (IH (recordSuccess results)
                (afterProgress progressCallback (recordSuccess results) (c1, w1)))
      as (r & s' & Hloop & Ht & Hf & He & Hs).
    exists r, s'. split; [exact Hloop|]. simpl in *.
    repeat split; auto; lia.
Qed.

(** X21. In the library only the file system can make a template count
    as failed.  When no file operation fails, every result returned by
    [exportAllTemplates] has [failed = 0], no error entry and
    [successful = total], whatever the provider answers when the content
    of a template is requested (rejections, reported failures, malformed
    answers, refused tokens). *)
Theorem exportAllTemplates_counts_only_fs_failures (fuel : nat) (env : Env)
    (outputDir : string) (progressCallback : bool) (s : Client * World)
    (r : ExportResult.t) :
  (forall path, fsError env path = None) ->
  fst (exportAllTemplates fuel env outputDir progressCallback s) = Ret r ->
  ExportResult.failed r = 0
  /\ ExportResult.errors r = []
  /\ ExportResult.successful r = ExportResult.total r.
Proof.
  intros fsWorks Hrun.
  unfold exportAllTemplates, bind in Hrun.
  destruct (getAllTemplates fuel env progressCallback s)
    as [[templates|msg|] s0]; try discriminate.
  destruct (exportAllTemplates_loop_never_fails env outputDir progressCallback
              templates fsWorks (freshResults (length templates)) s0)
    as (r' & s' & Hloop & Ht & Hf & He & Hs).
  unfold freshResults in Hloop. rewrite Hloop in Hrun.
  simpl in Hrun. injection Hrun as ->. simpl in *.
  repeat split; auto; lia.
Qed.

Lemma exportAllTemplates_counts_only_fs_failures_witness :
  fst (exportAllTemplates 1 contentFails "out" false (newClient, newWorld 0))
  = Ret {| ExportResult.total := 1; ExportResult.successful := 1;
           ExportResult.failed := 0; ExportResult.errors := [] |}
  /\ ExportResult.failed
       {| ExportResult.total := 1; ExportResult.successful := 1;
          ExportResult.failed := 0; ExportResult.errors := [] |} = 0.
Proof.
  split; [vm_compute; reflexivity|].
  apply (exportAllTemplates_counts_only_fs_failures 1 contentFails "out" false
           (newClient, newWorld 0)).
  - intros path. reflexivity.
  - vm_compute. reflexivity.
Defined.
